(** * Utterance generator: normalisation, fallback, persistence, housekeeping

    A shallow embedding of the three Python scripts of the repository

      - [src/main.py]            (ADK client, direct-API fallback, CSV output)
      - [src/main_simple.py]     (direct-API client only, CSV output)
      - [src/manage_outputs.py]  (listing and cleaning of the dated output folders)

    Python [str] values are sequences of Unicode code points, so a string is
    a [list N] here; the interpreter's character tables ([str.isspace],
    [str.isdigit]) are written out as code-point ranges.  Effects (printing,
    the file system, the clock, exceptions) are threaded through one small
    state-and-exception monad. *)

From Stdlib Require Import Ascii String.
From stdpp Require Import gmap list sorting.

Open Scope N_scope.
Open Scope list_scope.

(** ** Python strings *)

Abbreviation pystr := (list N).

(** An ASCII literal as a Python string. *)
Definition py (s : string) : pystr := N_of_ascii <$> list_ascii_of_string s.

(** Truth value of a string: [bool(s)], true when [s] is not empty. *)
Definition truthy (s : pystr) : bool :=
  match s with [] => false | _ :: _ => true end.

Definition in_ranges (table : list (N * N)) (c : N) : bool :=
  existsb (fun r => (fst r <=? c) && (c <=? snd r)) table.

(** [str.isspace] on one character: the code points [str.strip()] removes. *)
Definition space_ranges : list (N * N) :=
  [(9, 13); (28, 32); (133, 133); (160, 160); (5760, 5760); (8192, 8202);
   (8232, 8233); (8239, 8239); (8287, 8287); (12288, 12288)].

Definition isspace (c : N) : bool := in_ranges space_ranges c.

(** [str.isdigit] on one character: Numeric_Type Decimal or Digit, as of
    Unicode 14.0 (CPython 3.11). *)
Definition digit_ranges : list (N * N) :=
  [(48, 57); (178, 179); (185, 185); (1632, 1641); (1776, 1785); (1984, 1993);
   (2406, 2415); (2534, 2543); (2662, 2671); (2790, 2799); (2918, 2927);
   (3046, 3055); (3174, 3183); (3302, 3311); (3430, 3439); (3558, 3567);
   (3664, 3673); (3792, 3801); (3872, 3881); (4160, 4169); (4240, 4249);
   (4969, 4977); (6112, 6121); (6160, 6169); (6470, 6479); (6608, 6618);
   (6784, 6793); (6800, 6809); (6992, 7001); (7088, 7097); (7232, 7241);
   (7248, 7257); (8304, 8304); (8308, 8313); (8320, 8329); (9312, 9320);
   (9332, 9340); (9352, 9360); (9450, 9450); (9461, 9469); (9471, 9471);
   (10102, 10110); (10112, 10120); (10122, 10130); (42528, 42537);
   (43216, 43225); (43264, 43273); (43472, 43481); (43504, 43513);
   (43600, 43609); (44016, 44025); (65296, 65305); (66720, 66729);
   (68160, 68163); (68912, 68921); (69216, 69224); (69714, 69722);
   (69734, 69743); (69872, 69881); (69942, 69951); (70096, 70105);
   (70384, 70393); (70736, 70745); (70864, 70873); (71248, 71257);
   (71360, 71369); (71472, 71481); (71904, 71913); (72016, 72025);
   (72784, 72793); (73040, 73049); (73120, 73129); (92768, 92777);
   (92864, 92873); (93008, 93017); (120782, 120831); (123200, 123209);
   (123632, 123641); (125264, 125273); (127232, 127242); (130032, 130041)].

Definition isdigit (c : N) : bool := in_ranges digit_ranges c.

(** The longest prefix of [l] whose elements satisfy [p]. *)
Fixpoint take_while {A} (p : A -> bool) (l : list A) : list A :=
  match l with
  | x :: l' => if p x then x :: take_while p l' else []
  | [] => []
  end.

Fixpoint drop_while {A} (p : A -> bool) (l : list A) : list A :=
  match l with
  | [] => []
  | x :: l' => if p x then drop_while p l' else l
  end.

Definition lstrip (s : pystr) : pystr := drop_while isspace s.
Definition rstrip (s : pystr) : pystr := rev (drop_while isspace (rev s)).

(** [s.strip()] *)
Definition strip (s : pystr) : pystr := rstrip (lstrip s).

(** [s.split(sep)] for a one-character separator: every occurrence cuts. *)
Fixpoint str_split (sep : N) (s : pystr) : list pystr :=
  match s with
  | [] => [[]]
  | c :: s' =>
      if c =? sep then [] :: str_split sep s'
      else match str_split sep s' with
           | piece :: pieces => (c :: piece) :: pieces
           | [] => [[c]]
           end
  end.

(** [s.split(sep, 1)]: cut at the first occurrence only. *)
Fixpoint str_split1 (sep : N) (s : pystr) : list pystr :=
  match s with
  | [] => [[]]
  | c :: s' =>
      if c =? sep then [[]; s']
      else match str_split1 sep s' with
           | piece :: pieces => (c :: piece) :: pieces
           | [] => [[c]]
           end
  end.

Fixpoint str_eqb (a b : pystr) : bool :=
  match a, b with
  | [], [] => true
  | x :: a', y :: b' => (x =? y) && str_eqb a' b'
  | _, _ => false
  end.

(** [s.startswith(prefix)] *)
Fixpoint startswith (s prefix : pystr) : bool :=
  match prefix, s with
  | [], _ => true
  | p :: prefix', c :: s' => (c =? p) && startswith s' prefix'
  | _ :: _, [] => false
  end.

(** [s.startswith((p1, p2, ...))] *)
Definition startswith_any (s : pystr) (prefixes : list pystr) : bool :=
  existsb (startswith s) prefixes.

(** [s.endswith(suffix)] *)
Definition endswith (s suffix : pystr) : bool :=
  startswith (rev s) (rev suffix).

(** [c in s] for a one-character [c]. *)
Definition contains (c : N) (s : pystr) : bool := existsb (N.eqb c) s.

(** [s[0].isdigit()] on a string the caller knows to be non-empty; on the
    empty string Python raises, see [getitem] for the checked form. *)
Definition head_isdigit (s : pystr) : bool :=
  match s with c :: _ => isdigit c | [] => false end.

(** [s.replace(old, new)] for a non-empty [old]: the occurrences are found
    left to right and do not overlap.  [skip] counts the characters of the
    occurrence just replaced that are still to be passed over. *)
Fixpoint str_replace_from (old new s : pystr) (skip : nat) : pystr :=
  match s with
  | [] => []
  | c :: s' =>
      match skip with
      | S k => str_replace_from old new s' k
      | O =>
          if startswith s old
          then new ++ str_replace_from old new s' (length old - 1)
          else c :: str_replace_from old new s' 0
      end
  end.

Definition str_replace (old new s : pystr) : pystr := str_replace_from old new s 0.

(** Order of [str] values, by code point, as [sorted] uses it. *)
Fixpoint str_leb (a b : pystr) : bool :=
  match a, b with
  | [], _ => true
  | _ :: _, [] => false
  | x :: a', y :: b' => (x <? y) || ((x =? y) && str_leb a' b')
  end.

(** [str(n)] for a non-negative integer.  [fuel] bounds the number of digits. *)
Fixpoint decimal_digits (fuel : nat) (n : N) (acc : pystr) : pystr :=
  match fuel with
  | O => acc
  | S fuel' =>
      let acc' := (48 + n mod 10) :: acc in
      if n <? 10 then acc' else decimal_digits fuel' (n / 10) acc'
  end.

Definition str_of_nat (n : nat) : pystr :=
  decimal_digits (S n) (N.of_nat n) [].

(** [n] printed on exactly [width] digits ([%02d], [%04d]); the value is
    below [10 ^ width] wherever this is used. *)
Fixpoint fixed_digits (width : nat) (n : N) : pystr :=
  match width with
  | O => []
  | S w => fixed_digits w (n / 10) ++ [48 + n mod 10]
  end.

(** ** Exceptions, state and the monad of effects *)

(** The exception classes the programs can meet.  Those of the first two
    lines derive from Python's [Exception]: [UnicodeEncodeError] is a
    subclass of [ValueError], and [OtherError] stands for any further
    [Exception] subclass raised by a library.  Those of the last line derive
    from [BaseException] only: [CancelledError] is [asyncio.CancelledError]. *)
Inductive exn_class :=
| ValueError | UnicodeEncodeError | IndexError | TypeError | EOFError | OSError
| OverflowError | ImportError | OtherError
| KeyboardInterrupt | SystemExit | GeneratorExit | CancelledError.

(** An exception object; [exn_msg] is what [str(e)] prints. *)
Record exn := Exn { exn_cls : exn_class; exn_msg : pystr }.

(** [isinstance(e, Exception)] *)
Definition is_Exception (e : exn) : bool :=
  match exn_cls e with
  | KeyboardInterrupt | SystemExit | GeneratorExit | CancelledError => false
  | _ => true
  end.

(** [isinstance(e, ValueError)] *)
Definition is_ValueError (e : exn) : bool :=
  match exn_cls e with ValueError | UnicodeEncodeError => true | _ => false end.

(** [isinstance(e, KeyboardInterrupt)] *)
Definition is_KeyboardInterrupt (e : exn) : bool :=
  match exn_cls e with KeyboardInterrupt => true | _ => false end.

Inductive outcome (A : Type) :=
| Return (a : A)
| Raise (e : exn).
Arguments Return {A} a.
Arguments Raise {A} e.

(** A file is kept as the records written to it, each a list of fields, the
    way [csv.DictWriter] receives them. *)
Definition content := list (list pystr).

(** An entry of a directory: a regular file, a directory, or a symbolic
    link.  A link is kept with what it resolves to: a file, a directory, or
    nothing (a dangling link, or a loop of links).  A link that resolves to
    nothing carries what creating its target does: [None] when the target
    can be created, the number and text of the error otherwise (2, No such
    file or directory, when the directory of the target is missing; 40, Too
    many levels of symbolic links, in a loop).  What a link resolves to is
    taken to lie outside the working directory, so that it has no other
    name here. *)
#[warnings="-register-all"]
Inductive node :=
| File (data : content)
| Dir (entries : gmap pystr node)
| LinkToFile (data : content)
| LinkToDir (entries : gmap pystr node)
| DanglingLink (on_create : option (nat * string)).

(** The working directory: entry name to entry. *)
Abbreviation filesystem := (gmap pystr node).

(** What a run leaves for an observer: the lines printed, and the entries
    into the functions whose calls the orchestration is judged by. *)
Inductive event :=
| Printed (text : pystr)
| Called_generate_utterances (intention : pystr)
| Called_generate_utterances_direct_api (intention : pystr)
| Called_generate_utterances_simple (intention : pystr)
| Called_save_to_csv (utterances : list pystr) (intention : pystr).

Record state := State {
  fs : filesystem;
  ticks : nat;                      (* clock readings taken so far *)
  stdin : list (outcome pystr);     (* pending answers to [input()] *)
  trace : list event                (* oldest first *)
}.

Definition M (A : Type) : Type := state -> outcome A * state.

Definition ret {A} (a : A) : M A := fun s => (Return a, s).
Definition raise {A} (e : exn) : M A := fun s => (Raise e, s).

Definition bind {A B} (m : M A) (k : A -> M B) : M B :=
  fun s => match m s with
           | (Return a, s') => k a s'
           | (Raise e, s') => (Raise e, s')
           end.

Declare Scope py_scope.
Delimit Scope py_scope with py.
Notation "x <- m ;; k" := (bind m (fun x => k))
  (at level 100, m at next level, right associativity) : py_scope.
Notation "m ;;; k" := (bind m (fun _ => k))
  (at level 100, right associativity) : py_scope.
Open Scope py_scope.

(** [try: body except C as e: handler e], where [caught] decides
    [isinstance(e, C)]. *)
Definition try_except {A} (body : M A) (caught : exn -> bool)
    (handler : exn -> M A) : M A :=
  fun s => match body s with
           | (Raise e, s') => if caught e then handler e s' else (Raise e, s')
           | r => r
           end.

(** [try: body except C1: handler1 except C2 as e: handler2 e]: the first
    clause that matches handles the exception; what a handler raises is not
    caught by the other clause. *)
Definition try_except2 {A} (body : M A)
    (caught1 : exn -> bool) (handler1 : exn -> M A)
    (caught2 : exn -> bool) (handler2 : exn -> M A) : M A :=
  fun s => match body s with
           | (Raise e, s') =>
               if caught1 e then handler1 e s'
               else if caught2 e then handler2 e s'
               else (Raise e, s')
           | r => r
           end.

(** An answer of the outside world, replayed as an effect. *)
Definition lift {A} (o : outcome A) : M A := fun s => (o, s).

Definition emit (e : event) : M unit :=
  fun s => (Return tt, State (fs s) (ticks s) (stdin s) (trace s ++ [e])).

(** [print(text)].  The line is taken to reach the terminal: whether a
    terminal can show it depends on its encoding and error handler, which
    are outside the programs. *)
Definition print (text : pystr) : M unit := emit (Printed text).

(** [input(prompt)]: the prompt is shown, then the next pending answer is
    taken; with none left the stream is at its end. *)
Definition input (prompt : pystr) : M pystr :=
  print prompt ;;;
  fun s => match stdin s with
           | [] => (Raise (Exn EOFError (py "EOF when reading a line")), s)
           | o :: rest => (o, State (fs s) (ticks s) rest (trace s))
           end.

(** [l[i]] *)
Definition getitem {A} (l : list A) (i : nat) : M A :=
  match l !! i with
  | Some x => ret x
  | None => raise (Exn IndexError (py "list index out of range"))
  end.

(** [not v] for a value that is [None] or a list. *)
Definition falsy {A} (v : option (list A)) : bool :=
  match v with None | Some [] => true | Some (_ :: _) => false end.

(** ** Dates and times *)

Record datetime := Datetime {
  year : N; month : N; day : N;
  hour : N; minute : N; second : N; microsecond : N
}.

(** [t.strftime("%Y%m%d")]; years have four digits (1000 to 9999). *)
Definition strftime_Ymd (t : datetime) : pystr :=
  fixed_digits 4 (year t) ++ fixed_digits 2 (month t) ++ fixed_digits 2 (day t).

(** [t.strftime("%Y%m%d_%H%M%S")] *)
Definition strftime_Ymd_HMS (t : datetime) : pystr :=
  strftime_Ymd t ++ [95] ++
  fixed_digits 2 (hour t) ++ fixed_digits 2 (minute t) ++ fixed_digits 2 (second t).

Definition datetime_fields (t : datetime) : list N :=
  [year t; month t; day t; hour t; minute t; second t; microsecond t].

Fixpoint fields_ltb (a b : list N) : bool :=
  match a, b with
  | x :: a', y :: b' => (x <? y) || ((x =? y) && fields_ltb a' b')
  | _, _ => false
  end.

(** [a < b] on datetimes. *)
Definition datetime_ltb (a b : datetime) : bool :=
  fields_ltb (datetime_fields a) (datetime_fields b).

Definition is_leap (y : Z) : bool :=
  ((y mod 4 =? 0) && (negb (y mod 100 =? 0) || (y mod 400 =? 0)))%Z.

Definition days_in_month (y m : Z) : Z :=
  (if m =? 2 then (if is_leap y then 29 else 28)
   else if (m =? 4) || (m =? 6) || (m =? 9) || (m =? 11) then 30 else 31)%Z.

Definition days_before_year (y : Z) : Z :=
  (let y1 := y - 1 in y1 * 365 + y1 / 4 - y1 / 100 + y1 / 400)%Z.

Definition days_before_month_table : list Z :=
  [0; 0; 31; 59; 90; 120; 151; 181; 212; 243; 273; 304; 334]%Z.

Definition days_before_month (y m : Z) : Z :=
  (nth (Z.to_nat m) days_before_month_table 0
   + (if (2 <? m) && is_leap y then 1 else 0))%Z.

(** The proleptic Gregorian ordinal of a date, 1 for 0001-01-01. *)
Definition ymd2ord (y m d : Z) : Z :=
  (days_before_year y + days_before_month y m + d)%Z.

(** The date of an ordinal, by the 400-, 100-, 4- and 1-year cycles. *)
Definition ord2ymd (ordinal : Z) : Z * Z * Z :=
  (let n := ordinal - 1 in
   let n400 := n / 146097 in let n := n mod 146097 in
   let n100 := n / 36524 in let n := n mod 36524 in
   let n4 := n / 1461 in let n := n mod 1461 in
   let n1 := n / 365 in let n := n mod 365 in
   let y := n400 * 400 + 1 + n100 * 100 + n4 * 4 + n1 in
   if (n1 =? 4) || (n100 =? 4) then (y - 1, 12, 31)
   else
     let leapyear := (n1 =? 3) && (negb (n4 =? 24) || (n100 =? 3)) in
     let m := Z.shiftr (n + 50) 5 in
     let preceding :=
       nth (Z.to_nat m) days_before_month_table 0
       + (if (2 <? m) && leapyear then 1 else 0) in
     if n <? preceding
     then
       let m' := m - 1 in
       let preceding' :=
         preceding
         - (if m' =? 2 then (if leapyear then 29 else 28)
            else if (m' =? 4) || (m' =? 6) || (m' =? 9) || (m' =? 11)
                 then 30 else 31) in
       (y, m', n - preceding' + 1)
     else (y, m, n - preceding + 1))%Z.

(** The largest ordinal, that of 9999-12-31. *)
Definition max_ordinal : Z := 3652059%Z.

(** [t - timedelta(days=days)]: the time of day stays, the date moves; a date
    outside years 1 to 9999 is an [OverflowError]. *)
Definition minus_days (t : datetime) (days : Z) : outcome datetime :=
  let o := (ymd2ord (Z.of_N (year t)) (Z.of_N (month t)) (Z.of_N (day t)) - days)%Z in
  if ((1 <=? o) && (o <=? max_ordinal))%Z
  then
    let '(y, m, d) := ord2ymd o in
    Return (Datetime (Z.to_N y) (Z.to_N m) (Z.to_N d)
              (hour t) (minute t) (second t) (microsecond t))
  else Raise (Exn OverflowError (py "date value out of range")).

(** ** The world outside the programs *)

(** An attribute read through [hasattr]: absent, [None], or a string. *)
Inductive attr := Missing | NoneValue | Str (s : pystr).

Record adk_part := Part { part_text : attr }.

(** [candidate_parts] is [None] when the candidate has no (or a falsy)
    [content]. *)
Record adk_candidate := Candidate { candidate_parts : option (list adk_part) }.

(** [event_response] is [None] when the event has no (or a falsy) [response];
    otherwise it holds the candidates of the response (none when that
    attribute is absent or empty). *)
Record adk_event := Event {
  event_response : option (list adk_candidate);
  event_text : attr
}.

(** The result object of [generate_content]; reading [.text] may fail. *)
Record genai_response := Response { response_text : outcome pystr }.

(** The answers of everything the scripts call but do not define: the
    clock, the environment, the two model providers and [strptime]. *)
Record world := World {
  clock : nat -> datetime;                 (* the n-th [datetime.now()] *)
  getenv_GOOGLE_API_KEY : option pystr;
  genai_import : outcome unit;             (* import google.generativeai *)
  genai_configure : outcome unit;
  genai_GenerativeModel : outcome unit;
  genai_generate_content : outcome (option genai_response);
  adk_LlmAgent : outcome unit;
  adk_Runner : outcome unit;
  adk_create_session : outcome unit;
  adk_Content : outcome unit;              (* from google.genai import types; types.Content(...) *)
  adk_run_async : list adk_event * outcome unit;  (* events, then how the stream ends *)
  strptime_Ymd : pystr -> option datetime  (* datetime.strptime(s, '%Y%m%d'); None: ValueError *)
}.

(** [datetime.now()] *)
Definition now (w : world) : M datetime :=
  fun s => (Return (clock w (ticks s)),
            State (fs s) (S (ticks s)) (stdin s) (trace s)).

(** [bool(os.getenv(...))] *)
Definition env_set (v : option pystr) : bool :=
  match v with Some k => truthy k | None => false end.

(** ** File-system operations *)

(** [str(e)] of an [OSError] raised by the operating system.  The path is
    quoted the way [repr] quotes a string without quotes, backslashes or
    control characters, which is exact for the paths [save_to_csv] builds;
    the other messages are never printed by the programs. *)
Definition oserror (errno : nat) (what : string) (path : pystr) : exn :=
  Exn OSError
    (py "[Errno " ++ str_of_nat errno ++ py "] " ++ py what ++ py ": '"
     ++ path ++ py "'").

(** The error of the operating system on a path that leads to, or through,
    a link that resolves to nothing. *)
Definition unresolved (on_create : option (nat * string)) (path : pystr) : exn :=
  match on_create with
  | Some (errno, what) => oserror errno what path
  | None => oserror 2 "No such file or directory" path
  end.

(** The entries of what a name resolves to, when that is a directory. *)
Definition dir_entries (n : node) : option (gmap pystr node) :=
  match n with
  | Dir entries | LinkToDir entries => Some entries
  | _ => None
  end.

(** The same directory, or the same link to a directory, with other
    entries. *)
Definition in_dir (f : gmap pystr node -> gmap pystr node) (n : node) : node :=
  match n with
  | Dir entries => Dir (f entries)
  | LinkToDir entries => LinkToDir (f entries)
  | other => other
  end.

(** [os.path.islink(name)] *)
Definition islink (files : filesystem) (name : pystr) : bool :=
  match files !! name with
  | Some (LinkToFile _) | Some (LinkToDir _) | Some (DanglingLink _) => true
  | _ => false
  end.

(** [os.path.exists(name)]: links are followed, so a dangling link does not
    exist. *)
Definition path_exists (name : pystr) : M bool :=
  fun s => (Return (match fs s !! name with
                    | Some (DanglingLink _) | None => false
                    | Some _ => true
                    end), s).

(** [os.path.isdir(name)]: links are followed. *)
Definition isdir (files : filesystem) (name : pystr) : bool :=
  match files !! name with
  | Some (Dir _) | Some (LinkToDir _) => true
  | _ => false
  end.

(** [os.listdir('.')], in the arbitrary order of the directory. *)
Definition listdir (files : filesystem) : list pystr := (map_to_list files).*1.

(** [os.makedirs(name)] for a one-component path: any entry of that name,
    a dangling link included, is in the way. *)
Definition makedirs (name : pystr) : M unit :=
  fun s => match fs s !! name with
           | Some _ => (Raise (oserror 17 "File exists" name), s)
           | None => (Return tt,
                      State (<[name := Dir ∅]> (fs s)) (ticks s) (stdin s) (trace s))
           end.

(** [os.path.join(a, b)] for a relative [b] and an [a] without final slash. *)
Definition path_join (a b : pystr) : pystr := a ++ [47] ++ b.

(** What [open(..., 'w')] leaves under a name of a directory: a new empty
    file, or the emptied file the name stood for, also when that file is
    created through a link; [None] when the name stands for a directory or
    for a link whose target cannot be created. *)
Definition opened_for_writing (entry : option node) : option node :=
  match entry with
  | Some (Dir _) | Some (LinkToDir _) | Some (DanglingLink (Some _)) => None
  | Some (LinkToFile _) | Some (DanglingLink None) => Some (LinkToFile [])
  | Some (File _) | None => Some (File [])
  end.

(** The error of [open(path, 'w')] on an entry that cannot be opened. *)
Definition open_refused (entry : option node) (path : pystr) : exn :=
  match entry with
  | Some (DanglingLink on_create) => unresolved on_create path
  | _ => oserror 21 "Is a directory" path
  end.

(** [open(os.path.join(dir, name), 'w')]: mode ['w'] creates the file or
    empties the one that is there. *)
Definition open_w (dir name : pystr) : M unit :=
  fun s =>
    match fs s !! dir with
    | Some (File _) | Some (LinkToFile _) =>
        (Raise (oserror 20 "Not a directory" (path_join dir name)), s)
    | Some (DanglingLink on_create) =>
        (Raise (unresolved on_create (path_join dir name)), s)
    | None =>
        (Raise (oserror 2 "No such file or directory" (path_join dir name)), s)
    | Some (Dir entries as folder) | Some (LinkToDir entries as folder) =>
        match opened_for_writing (entries !! name) with
        | None => (Raise (open_refused (entries !! name) (path_join dir name)), s)
        | Some file =>
            (Return tt,
             State (<[dir := in_dir (fun _ => <[name := file]> entries) folder]> (fs s))
                   (ticks s) (stdin s) (trace s))
        end
    end.

(** A code point the [utf-8] codec refuses: a surrogate. *)
Definition is_surrogate (c : N) : bool := (55296 <=? c) && (c <=? 57343).

(** A string the [utf-8] codec can encode. *)
Definition encodable (text : pystr) : bool :=
  forallb (fun c => negb (is_surrogate c)) text.

(** A field as [csv.writer] writes it in the default dialect: quoted when
    it holds a comma, a quote or a line break, with every quote doubled. *)
Definition csv_field (field : pystr) : pystr :=
  if existsb (fun c => (c =? 44) || (c =? 34) || (c =? 13) || (c =? 10)) field
  then [34] ++ flat_map (fun c => if c =? 34 then [34; 34] else [c]) field ++ [34]
  else field.

(** The line [writer.writerow] hands to the file, for a row of two fields
    or more. *)
Definition csv_line (row : list pystr) : pystr :=
  match row with
  | [] => [13; 10]
  | field :: fields =>
      csv_field field ++ flat_map (fun f => 44 :: csv_field f) fields ++ [13; 10]
  end.

(** One hexadecimal digit, in lower case. *)
Definition hex_digit (d : N) : N := if d <? 10 then 48 + d else 87 + d.

(** [str(e)] of the [UnicodeEncodeError] the codec raises on [line]: it
    names the first run of surrogates, by the character when the run has
    one, by its first and last position otherwise.  The empty string when
    the line can be encoded. *)
Definition utf8_error_text (line : pystr) : pystr :=
  let before := take_while (fun c => negb (is_surrogate c)) line in
  let run := take_while is_surrogate (drop (length before) line) in
  match run with
  | [] => []
  | [c] =>
      py "'utf-8' codec can't encode character '\u"
      ++ [hex_digit (c / 4096); hex_digit (c / 256 mod 16);
          hex_digit (c / 16 mod 16); hex_digit (c mod 16)]
      ++ py "' in position " ++ str_of_nat (length before)
      ++ py ": surrogates not allowed"
  | _ :: _ :: _ =>
      py "'utf-8' codec can't encode characters in position "
      ++ str_of_nat (length before) ++ py "-"
      ++ str_of_nat (length before + length run - 1)
      ++ py ": surrogates not allowed"
  end.

(** The file, or the file a link stands for, with one more record. *)
Definition with_row (row : list pystr) (n : node) : node :=
  match n with
  | File data => File (data ++ [row])
  | LinkToFile data => LinkToFile (data ++ [row])
  | other => other
  end.

(** [writer.writerow(row)] on the file opened as [dir/name]: the line is
    encoded as a whole, so a row with a field that cannot be encoded leaves
    nothing in the file and raises.  The file is closed when the [with]
    block is left, normally or not, so what was written before stays. *)
Definition writerow (dir name : pystr) (row : list pystr) : M unit :=
  fun s =>
    if forallb encodable row
    then (Return tt,
          State (alter (in_dir (alter (with_row row) name)) dir (fs s))
                (ticks s) (stdin s) (trace s))
    else (Raise (Exn UnicodeEncodeError (utf8_error_text (csv_line row))), s).

(** [for row in csv_data: writer.writerow(row)] *)
Fixpoint writerows (dir name : pystr) (rows : content) : M unit :=
  match rows with
  | [] => ret tt
  | row :: rest => writerow dir name row ;;; writerows dir name rest
  end.

(** The error of [shutil.rmtree] on a symbolic link. *)
Definition symlink_refused : exn :=
  Exn OSError (py "Cannot call rmtree on a symbolic link").

(** [shutil.rmtree(name)]: a directory goes with all it holds; a symbolic
    link is refused, also when it leads to a directory. *)
Definition rmtree (name : pystr) : M unit :=
  fun s => match fs s !! name with
           | Some (Dir _) =>
               (Return tt, State (delete name (fs s)) (ticks s) (stdin s) (trace s))
           | Some (LinkToDir _) | Some (LinkToFile _) => (Raise symlink_refused, s)
           | Some (File _) => (Raise (oserror 20 "Not a directory" name), s)
           | Some (DanglingLink on_create) => (Raise (unresolved on_create name), s)
           | None => (Raise (oserror 2 "No such file or directory" name), s)
           end.

(** ** Pieces shared by the scripts *)

(** [while len(utterances) < 10: utterances.append(placeholder)], as the
    [10 - len(utterances)] appends it performs. *)
Fixpoint pad_loop (missing : nat) (utterances : list pystr) (placeholder : pystr)
    : list pystr :=
  match missing with
  | O => utterances
  | S missing' => pad_loop missing' (utterances ++ [placeholder]) placeholder
  end.

Definition pad_to_10 (utterances : list pystr) (placeholder : pystr) : list pystr :=
  pad_loop (10 - length utterances) utterances placeholder.

Definition bullet : N := 8226.

(** [f"{i:2d}"] *)
Definition fmt_2d (i : nat) : pystr :=
  if (i <? 10)%nat then [32] ++ str_of_nat i else str_of_nat i.

(** The display loop of both [main] functions:
    [for i, utterance in enumerate(utterances, 1): print(f"{i:2d}. {utterance}")]. *)
Fixpoint print_numbered (i : nat) (utterances : list pystr) : M unit :=
  match utterances with
  | [] => ret tt
  | utterance :: rest =>
      print (fmt_2d i ++ py ". " ++ utterance) ;;;
      print_numbered (S i) rest
  end.

(** The rows [save_to_csv] prepares, ids counted from [i]. *)
Fixpoint csv_data_from (i : nat) (utterances : list pystr) (intention : pystr)
    : content :=
  match utterances with
  | [] => []
  | utterance :: rest =>
      [str_of_nat i; utterance; intention] :: csv_data_from (S i) rest intention
  end.

Definition fieldnames : list pystr :=
  [py "id"; py "utterance"; py "original_intention"].

(** ** [src/main.py] *)

Module main.

(** [get_user_input()] *)
Definition get_user_input : M (option pystr) :=
  print (py "Hello! " ++ [128075] ++ py " Welcome to the Utterance Generator.") ;;;
  answer <- input (py "Please enter an intention: ") ;;
  let intention := strip answer in
  if negb (truthy intention)
  then print (py "No intention provided. Exiting.") ;;; ret None
  else ret (Some intention).

(** The agent object; only its name is read. *)
Record LlmAgent := Agent { name : pystr }.

(** [create_agent()] *)
Definition create_agent (w : world) : M LlmAgent :=
  lift (adk_LlmAgent w) ;;;
  ret (Agent (py "Utterance_Generator")).

(** [create_agent_with_api_key()], called without argument. *)
Definition create_agent_with_api_key (w : world) : M LlmAgent :=
  (if negb (env_set (getenv_GOOGLE_API_KEY w))
   then raise (Exn ValueError
          (py "API key not provided. Set GOOGLE_API_KEY environment variable or pass api_key parameter."))
   else ret tt) ;;;
  lift (genai_import w) ;;;
  lift (genai_configure w) ;;;
  lift (adk_LlmAgent w) ;;;
  ret (Agent (py "Utterance_Generator")).

(** Lines 148-155, the parsing loop of [generate_utterances_direct_api]. *)
Fixpoint direct_api_lines (lines : list pystr) (utterances : list pystr)
    : M (list pystr) :=
  match lines with
  | [] => ret utterances
  | line :: rest =>
      let cleaned := strip line in
      if truthy cleaned
         && negb (startswith_any cleaned
                    [py "-"; [bullet]; py "*"; py "1."; py "2."])
      then
        cleaned <-
          (if truthy cleaned && head_isdigit cleaned && contains 46 (take 5 cleaned)
           then after <- getitem (str_split1 46 cleaned) 1 ;; ret (strip after)
           else ret cleaned) ;;
        if truthy cleaned
        then direct_api_lines rest (utterances ++ [cleaned])
        else direct_api_lines rest utterances
      else direct_api_lines rest utterances
  end.

(** Lines 145-163 of [generate_utterances_direct_api], from the text of a
    truthy response on: the test, the loop, the padding and the cut. *)
Definition normalize_direct_api (text intention : pystr) : M (option (list pystr)) :=
  if truthy text
  then
    utterances <- direct_api_lines (str_split 10 text) [] ;;
    let utterances :=
      pad_to_10 utterances (py "Alternative expression: " ++ intention) in
    ret (Some (take 10 utterances))
  else ret None.

(** [generate_utterances_direct_api(intention)] *)
Definition generate_utterances_direct_api (w : world) (intention : pystr)
    : M (option (list pystr)) :=
  emit (Called_generate_utterances_direct_api intention) ;;;
  try_except
    (lift (genai_import w) ;;;
     (if negb (env_set (getenv_GOOGLE_API_KEY w))
      then raise (Exn ValueError
             (py "GOOGLE_API_KEY not found in environment variables"))
      else ret tt) ;;;
     lift (genai_configure w) ;;;
     lift (genai_GenerativeModel w) ;;;
     print (py "Using direct Generative AI API...") ;;;
     response <- lift (genai_generate_content w) ;;
     match response with
     | Some r => text <- lift (response_text r) ;; normalize_direct_api text intention
     | None => ret None
     end)
    is_Exception
    (fun e => print (py "Error with direct API: " ++ exn_msg e) ;;; ret None).

Definition concat_none : exn :=
  Exn TypeError
    (py "can only concatenate str (not " ++ [34] ++ py "NoneType" ++ [34] ++ py ") to str").

(** Lines 224-226: [for part in candidate.content.parts]. *)
Fixpoint collect_parts (parts : list adk_part) (response_text : pystr) : M pystr :=
  match parts with
  | [] => ret response_text
  | part :: rest =>
      match part_text part with
      | Missing => collect_parts rest response_text
      | NoneValue => raise concat_none
      | Str t => collect_parts rest (response_text ++ t)
      end
  end.

(** Lines 222-226: [for candidate in event.response.candidates]. *)
Fixpoint collect_candidates (candidates : list adk_candidate) (response_text : pystr)
    : M pystr :=
  match candidates with
  | [] => ret response_text
  | candidate :: rest =>
      match candidate_parts candidate with
      | Some parts =>
          response_text <- collect_parts parts response_text ;;
          collect_candidates rest response_text
      | None => collect_candidates rest response_text
      end
  end.

(** Lines 215-228: the body of [async for event in runner.run_async(...)]. *)
Fixpoint collect_events (events : list adk_event) (response_text : pystr) : M pystr :=
  match events with
  | [] => ret response_text
  | event :: rest =>
      match event_response event with
      | Some candidates =>
          response_text <- collect_candidates candidates response_text ;;
          collect_events rest response_text
      | None =>
          match event_text event with
          | Missing => collect_events rest response_text
          | NoneValue => raise concat_none
          | Str t => collect_events rest (response_text ++ t)
          end
      end
  end.

(** Lines 234-241, the parsing loop of [generate_utterances]. *)
Fixpoint adk_lines (lines : list pystr) (utterances : list pystr) : M (list pystr) :=
  match lines with
  | [] => ret utterances
  | line :: rest =>
      let cleaned := strip line in
      if truthy cleaned
         && negb (startswith_any cleaned
                    [py "-"; [bullet]; py "*"; py "1."; py "2."])
      then
        cleaned <-
          (if truthy cleaned && head_isdigit cleaned && contains 46 (take 5 cleaned)
           then after <- getitem (str_split1 46 cleaned) 1 ;; ret (strip after)
           else ret cleaned) ;;
        if truthy cleaned
        then adk_lines rest (utterances ++ [cleaned])
        else adk_lines rest utterances
      else adk_lines rest utterances
  end.

(** Lines 231-249 of [generate_utterances], from the collected text on. *)
Definition normalize_adk (response_text intention : pystr) : M (option (list pystr)) :=
  if truthy (strip response_text)
  then
    utterances <- adk_lines (str_split 10 response_text) [] ;;
    let utterances :=
      pad_to_10 utterances (py "Alternative expression: " ++ intention) in
    ret (Some (take 10 utterances))
  else ret None.

(** [generate_utterances(agent, intention)].  The traceback that the handler
    also writes goes to the error stream, which is not part of [trace]. *)
Definition generate_utterances (w : world) (agent : LlmAgent) (intention : pystr)
    : M (option (list pystr)) :=
  emit (Called_generate_utterances intention) ;;;
  try_except
    (print (py "Generating utterances using Gemini Flash...") ;;;
     lift (adk_Runner w) ;;;
     lift (adk_create_session w) ;;;
     lift (adk_Content w) ;;;
     response_text <- collect_events (fst (adk_run_async w)) [] ;;
     lift (snd (adk_run_async w)) ;;;
     normalize_adk response_text intention)
    is_Exception
    (fun e => print (py "Error generating utterances: " ++ exn_msg e) ;;; ret None).

(** [save_to_csv(utterances, intention)] *)
Definition save_to_csv (w : world) (utterances : list pystr) (intention : pystr)
    : M (option pystr) :=
  emit (Called_save_to_csv utterances intention) ;;;
  try_except
    (t <- now w ;;
     let timestamp := strftime_Ymd_HMS t in
     t' <- now w ;;
     let output_dir := py "utterance_outputs_" ++ strftime_Ymd t' in
     present <- path_exists output_dir ;;
     (if negb present
      then makedirs output_dir ;;;
           print ([128193] ++ py " Created output directory: " ++ output_dir)
      else ret tt) ;;;
     let filename := py "utterances_" ++ timestamp ++ py ".csv" in
     let filepath := path_join output_dir filename in
     let csv_data := csv_data_from 1 utterances intention in
     open_w output_dir filename ;;;
     writerow output_dir filename fieldnames ;;;
     writerows output_dir filename csv_data ;;;
     print (py "Done! 10 utterances saved in " ++ filepath ++ py " ") ;;;
     ret (Some filepath))
    is_Exception
    (fun e => print (py "Error saving to CSV: " ++ exn_msg e) ;;; ret None).

(** Lines 331-350 of [main()]: the primary client, the fallback, the
    display and the saving. *)
Definition main_from_agent (w : world) (agent : LlmAgent) (intention : pystr)
    : M unit :=
  utterances <- generate_utterances w agent intention ;;
  utterances <-
    (if falsy utterances
     then print (py "ADK method failed, trying direct API...") ;;;
          generate_utterances_direct_api w intention
     else ret utterances) ;;
  match utterances with
  | None | Some [] =>
      print (py "Failed to generate utterances. Please try again.")
  | Some utterances =>
      print ([10; 128221] ++ py " Generated utterances for '"
             ++ intention ++ py "':") ;;;
      print (replicate 50 45) ;;;
      print_numbered 1 utterances ;;;
      save_to_csv w utterances intention ;;;
      ret tt
  end.

(** [main()], lines 318-355: from the reading of the intention on.  The
    credential prelude before it (lines 303-316) only decides whether this
    part runs. *)
Definition main (w : world) : M unit :=
  try_except2
    (intention <- get_user_input ;;
     match intention with
     | None => ret tt
     | Some intention =>
         agent <-
           try_except (create_agent w) is_Exception
             (fun e =>
                print (py "Standard authentication failed: " ++ exn_msg e) ;;;
                print (py "Trying with API key...") ;;;
                create_agent_with_api_key w) ;;
         main_from_agent w agent intention
     end)
    is_KeyboardInterrupt
    (fun _ => print ([10; 10] ++ py "Operation cancelled by user."))
    is_Exception
    (fun e => print (py "Unexpected error: " ++ exn_msg e)).

End main.

(** ** [src/main_simple.py] *)

Module main_simple.

(** [get_user_input()] *)
Definition get_user_input : M (option pystr) :=
  print (py "Hello! " ++ [128075] ++ py " Welcome to the Utterance Generator.") ;;;
  answer <- input (py "Please enter an intention: ") ;;
  let intention := strip answer in
  if negb (truthy intention)
  then print (py "No intention provided. Exiting.") ;;; ret None
  else ret (Some intention).

(** Lines 58-65, the parsing loop of [generate_utterances_simple]. *)
Fixpoint simple_lines (lines : list pystr) (utterances : list pystr) : M (list pystr) :=
  match lines with
  | [] => ret utterances
  | line :: rest =>
      let cleaned := strip line in
      if truthy cleaned
         && negb (startswith_any cleaned [py "-"; [bullet]; py "*"])
      then
        cleaned <-
          (if truthy cleaned && (2 <? length cleaned)%nat
              && head_isdigit cleaned && contains 46 (take 5 cleaned)
           then after <- getitem (str_split1 46 cleaned) 1 ;; ret (strip after)
           else ret cleaned) ;;
        if truthy cleaned
        then simple_lines rest (utterances ++ [cleaned])
        else simple_lines rest utterances
      else simple_lines rest utterances
  end.

(** Lines 55-73 of [generate_utterances_simple], from the text of a truthy
    response on. *)
Definition normalize_simple (text intention : pystr) : M (option (list pystr)) :=
  if truthy text
  then
    utterances <- simple_lines (str_split 10 text) [] ;;
    let utterances :=
      pad_to_10 utterances (py "Alternative way to say: " ++ intention) in
    ret (Some (take 10 utterances))
  else ret None.

(** [generate_utterances_simple(intention)] *)
Definition generate_utterances_simple (w : world) (intention : pystr)
    : M (option (list pystr)) :=
  emit (Called_generate_utterances_simple intention) ;;;
  try_except
    (lift (genai_import w) ;;;
     if negb (env_set (getenv_GOOGLE_API_KEY w))
     then
       print ([10060] ++ py " GOOGLE_API_KEY not found!") ;;;
       print (py "Please set your API key in the .env file") ;;;
       ret None
     else
       print (py "Generating utterances using Gemini Flash...") ;;;
       lift (genai_configure w) ;;;
       lift (genai_GenerativeModel w) ;;;
       response <- lift (genai_generate_content w) ;;
       match response with
       | Some r => text <- lift (response_text r) ;; normalize_simple text intention
       | None => ret None
       end)
    is_Exception
    (fun e => print (py "Error generating utterances: " ++ exn_msg e) ;;; ret None).

(** [save_to_csv(utterances, intention)] *)
Definition save_to_csv (w : world) (utterances : list pystr) (intention : pystr)
    : M (option pystr) :=
  emit (Called_save_to_csv utterances intention) ;;;
  try_except
    (t <- now w ;;
     let timestamp := strftime_Ymd_HMS t in
     t' <- now w ;;
     let output_dir := py "utterance_outputs_" ++ strftime_Ymd t' in
     present <- path_exists output_dir ;;
     (if negb present
      then makedirs output_dir ;;;
           print ([128193] ++ py " Created output directory: " ++ output_dir)
      else ret tt) ;;;
     let filename := py "utterances_" ++ timestamp ++ py ".csv" in
     let filepath := path_join output_dir filename in
     let csv_data := csv_data_from 1 utterances intention in
     open_w output_dir filename ;;;
     writerow output_dir filename fieldnames ;;;
     writerows output_dir filename csv_data ;;;
     print (py "Done! 10 utterances saved in " ++ filepath ++ [32; 9989]) ;;;
     ret (Some filepath))
    is_Exception
    (fun e => print (py "Error saving to CSV: " ++ exn_msg e) ;;; ret None).

(** [main()] *)
Definition main (w : world) : M unit :=
  try_except2
    (intention <- get_user_input ;;
     match intention with
     | None => ret tt
     | Some intention =>
         utterances <- generate_utterances_simple w intention ;;
         match utterances with
         | None | Some [] =>
             print (py "Failed to generate utterances. Please check your API key.")
         | Some utterances =>
             print ([10; 128221] ++ py " Generated utterances for '"
                    ++ intention ++ py "':") ;;;
             print (replicate 50 45) ;;;
             print_numbered 1 utterances ;;;
             save_to_csv w utterances intention ;;;
             ret tt
         end
     end)
    is_KeyboardInterrupt
    (fun _ => print ([10; 10] ++ py "Operation cancelled by user."))
    is_Exception
    (fun e => print (py "Unexpected error: " ++ exn_msg e)).

End main_simple.

(** ** [src/manage_outputs.py] *)

Module manage_outputs.

Definition str_le (a b : pystr) : Prop := Is_true (str_leb a b).

#[global] Instance str_le_dec a b : Decision (str_le a b).
Proof. unfold str_le. apply _. Defined.

(** [sorted(names)] *)
Definition sorted (names : list pystr) : list pystr := merge_sort str_le names.

Definition output_prefix : pystr := py "utterance_outputs_".

(** Lines 14-16: the loop of [list_output_folders] over the directory. *)
Fixpoint collect_folders (files : filesystem) (items : list pystr)
    (folders : list pystr) : list pystr :=
  match items with
  | [] => folders
  | item :: rest =>
      if isdir files item && startswith item output_prefix
      then collect_folders files rest (folders ++ [item])
      else collect_folders files rest folders
  end.

(** [list_output_folders()] *)
Definition list_output_folders : M (list pystr) :=
  fun s => (Return (sorted (collect_folders (fs s) (listdir (fs s)) [])), s).

(** [datetime.strptime(date_str, '%Y%m%d')] *)
Definition strptime (w : world) (date_str : pystr) : M datetime :=
  match strptime_Ymd w date_str with
  | Some t => ret t
  | None => raise (Exn ValueError (py "time data does not match format '%Y%m%d'"))
  end.

(** Lines 25-36: the loop of [clean_old_folders]. *)
Fixpoint clean_loop (w : world) (cutoff_date : datetime) (folders : list pystr)
    (cleaned : list pystr) : M (list pystr) :=
  match folders with
  | [] => ret cleaned
  | folder :: rest =>
      cleaned <-
        try_except
          (let date_str := str_replace output_prefix [] folder in
           folder_date <- strptime w date_str ;;
           if datetime_ltb folder_date cutoff_date
           then
             rmtree folder ;;;
             print ([128465; 65039] ++ py "  Cleaned old folder: " ++ folder) ;;;
             ret (cleaned ++ [folder])
           else ret cleaned)
          is_ValueError
          (fun _ =>
             print ([9888; 65039] ++ py "  Skipped folder with invalid date format: "
                    ++ folder) ;;;
             ret cleaned) ;;
      clean_loop w cutoff_date rest cleaned
  end.

(** [def clean_old_folders(days_old=7)]; [days_old] is [None] when the
    caller gives no argument. *)
Definition clean_old_folders (w : world) (days_old : option Z) : M (list pystr) :=
  let days_old := default 7%Z days_old in
  t <- now w ;;
  cutoff_date <- lift (minus_days t days_old) ;;
  folders <- list_output_folders ;;
  clean_loop w cutoff_date folders [].

(** [os.listdir(folder)] *)
Definition listdir_of (folder : pystr) : M (list pystr) :=
  fun s => match fs s !! folder with
           | Some (Dir entries) | Some (LinkToDir entries) =>
               (Return (listdir entries), s)
           | Some (File _) | Some (LinkToFile _) =>
               (Raise (oserror 20 "Not a directory" folder), s)
           | Some (DanglingLink on_create) => (Raise (unresolved on_create folder), s)
           | None => (Raise (oserror 2 "No such file or directory" folder), s)
           end.

(** Lines 52-55: the loop of [show_folder_stats]. *)
Fixpoint stats_loop (folders : list pystr) (total_files : nat) : M nat :=
  match folders with
  | [] => ret total_files
  | folder :: rest =>
      names <- listdir_of folder ;;
      let files := List.filter (fun f => endswith f (py ".csv")) names in
      print (py "   " ++ [128193; 32] ++ folder ++ py ": "
             ++ str_of_nat (length files) ++ py " CSV files") ;;;
      stats_loop rest (total_files + length files)
  end.

(** [show_folder_stats()] *)
Definition show_folder_stats : M unit :=
  folders <- list_output_folders ;;
  match folders with
  | [] => print (py "No output folders found.")
  | _ :: _ =>
      print ([128202] ++ py " Found " ++ str_of_nat (length folders)
             ++ py " output folder(s):") ;;;
      total_files <- stats_loop folders 0 ;;
      print ([10] ++ py "Total CSV files: " ++ str_of_nat total_files)
  end.

Fixpoint print_each (indent : pystr) (names : list pystr) : M unit :=
  match names with
  | [] => ret tt
  | n :: rest => print (indent ++ n) ;;; print_each indent rest
  end.

(** One turn of the menu loop of [main]; the result says whether the loop
    goes on ([true]) or was left by [break]. *)
Definition menu_turn (w : world) : M bool :=
  print ([10] ++ py "Options:") ;;;
  print (py "1. List output folders") ;;;
  print (py "2. Show folder statistics") ;;;
  print (py "3. Clean old folders (7+ days)") ;;;
  print (py "4. Exit") ;;;
  answer <- input ([10] ++ py "Select option (1-4): ") ;;
  let choice := strip answer in
  if str_eqb choice (py "1") then
    folders <- list_output_folders ;;
    match folders with
    | _ :: _ =>
        print ([10; 128193] ++ py " Output folders:") ;;;
        print_each (py "   ") folders ;;;
        ret true
    | [] => print ([10] ++ py "No output folders found.") ;;; ret true
    end
  else if str_eqb choice (py "2") then
    print [] ;;; show_folder_stats ;;; ret true
  else if str_eqb choice (py "3") then
    print ([10; 129529] ++ py " Cleaning folders older than 7 days...") ;;;
    cleaned <- clean_old_folders w (Some 7%Z) ;;
    match cleaned with
    | _ :: _ =>
        print (py "Cleaned " ++ str_of_nat (length cleaned) ++ py " folders.") ;;;
        ret true
    | [] => print (py "No old folders to clean.") ;;; ret true
    end
  else if str_eqb choice (py "4") then
    print (py "Goodbye! " ++ [128075]) ;;; ret false
  else
    print (py "Invalid option. Please try again.") ;;; ret true.

(** [while True:] of [main].  Every turn takes one pending answer from the
    input or ends with [EOFError], so [fuel] above the number of pending
    answers is never used up. *)
Fixpoint menu_loop (w : world) (fuel : nat) : M unit :=
  match fuel with
  | O => ret tt
  | S fuel' =>
      continue <- menu_turn w ;;
      if continue then menu_loop w fuel' else ret tt
  end.

(** [main()] *)
Definition main (w : world) : M unit :=
  print ([128450; 65039] ++ py "  Utterance Output Folder Manager") ;;;
  print (replicate 40 61) ;;;
  fun s => menu_loop w (S (length (stdin s))) s.

End manage_outputs.

(** A [strptime] for the worlds of the examples.  On a string of eight ASCII
    digits it answers as [datetime.strptime(s, '%Y%m%d')] does; it rejects
    every other string, among them the shorter ones the library reads
    (['2024011'], a month or a day of one digit).  The examples use names of
    eight digits and names without a digit only; the theorems take
    [strptime] from the world and assume nothing about it. *)
Definition digit_value (c : N) : option N :=
  if (48 <=? c) && (c <=? 57) then Some (c - 48) else None.

Definition number_of (digits : pystr) : option N :=
  foldl (fun acc c =>
           match acc, digit_value c with
           | Some n, Some d => Some (10 * n + d)
           | _, _ => None
           end) (Some 0) digits.

Definition strptime_8digits (s : pystr) : option datetime :=
  if (length s =? 8)%nat then
    match number_of (take 4 s), number_of (take 2 (drop 4 s)),
          number_of (drop 6 s) with
    | Some y, Some m, Some d =>
        if (1 <=? y) && (1 <=? m) && (m <=? 12) && (1 <=? d)
           && (Z.of_N d <=? days_in_month (Z.of_N y) (Z.of_N m))%Z
        then Some (Datetime y m d 0 0 0 0)
        else None
    | _, _, _ => None
    end
  else None.

(** ** Vocabulary of the statements *)

(** The three copies of the normalisation logic. *)
Inductive copy := adk | direct_api | simple.

Definition normalize (c : copy) : pystr -> pystr -> M (option (list pystr)) :=
  match c with
  | adk => main.normalize_adk
  | direct_api => main.normalize_direct_api
  | simple => main_simple.normalize_simple
  end.

Definition lines_loop (c : copy) : list pystr -> list pystr -> M (list pystr) :=
  match c with
  | adk => main.adk_lines
  | direct_api => main.direct_api_lines
  | simple => main_simple.simple_lines
  end.

(** The text after the first ['.'] of [s], if there is one. *)
Fixpoint after_first_dot (s : pystr) : option pystr :=
  match s with
  | [] => None
  | c :: s' => if c =? 46 then Some s' else after_first_dot s'
  end.

(** What one line contributes in [main.py]: nothing, or one entry. *)
Definition entry_main (line : pystr) : option pystr :=
  let cleaned := strip line in
  if truthy cleaned
     && negb (startswith_any cleaned [py "-"; [bullet]; py "*"; py "1."; py "2."])
  then
    let cleaned' :=
      if head_isdigit cleaned && contains 46 (take 5 cleaned)
      then strip (default [] (after_first_dot cleaned))
      else cleaned in
    if truthy cleaned' then Some cleaned' else None
  else None.

(** What one line contributes in [main_simple.py]. *)
Definition entry_simple (line : pystr) : option pystr :=
  let cleaned := strip line in
  if truthy cleaned && negb (startswith_any cleaned [py "-"; [bullet]; py "*"])
  then
    let cleaned' :=
      if (2 <? length cleaned)%nat && head_isdigit cleaned
         && contains 46 (take 5 cleaned)
      then strip (default [] (after_first_dot cleaned))
      else cleaned in
    if truthy cleaned' then Some cleaned' else None
  else None.

Definition entry (c : copy) : pystr -> option pystr :=
  match c with simple => entry_simple | _ => entry_main end.

(** The entries that survive parsing, in the order of the lines. *)
Definition parsed (c : copy) (text : pystr) : list pystr :=
  omap (entry c) (str_split 10 text).

Definition placeholder (c : copy) (intention : pystr) : pystr :=
  match c with
  | simple => py "Alternative way to say: " ++ intention
  | _ => py "Alternative expression: " ++ intention
  end.

(** The test each client makes before it parses. *)
Definition accepts (c : copy) (text : pystr) : bool :=
  match c with
  | adk => truthy (strip text)
  | _ => truthy text
  end.

(** A well-formed line, in the words of the specification: non-empty after
    trimming, not a bullet line, non-empty after the numbered prefix (a
    leading digit with a ['.'] among the first five characters) is stripped. *)
Definition well_formed_line (line : pystr) : bool :=
  let cleaned := strip line in
  truthy cleaned
  && negb (startswith_any cleaned [py "-"; [bullet]; py "*"])
  && truthy (if head_isdigit cleaned && contains 46 (take 5 cleaned)
             then strip (default [] (after_first_dot cleaned))
             else cleaned).

(** Not empty and not made of white space only. *)
Definition nonblank (u : pystr) : bool := truthy (strip u).

(** A trimmed line on which [main.py] and [main_simple.py] do the same: it
    does not begin with [1.] or [2.], and it is not a digit followed by a
    dot and nothing else. *)
Definition same_treatment (line : pystr) : bool :=
  let cleaned := strip line in
  negb (startswith_any cleaned [py "1."; py "2."])
  && negb ((length cleaned <=? 2)%nat && head_isdigit cleaned
           && contains 46 (take 5 cleaned)).

(** A client's answer: the unavailable signal, or a complete list. *)
Definition none_or_complete (r : option (list pystr)) : Prop :=
  match r with None => True | Some l => length l = 10%nat end.

(** An answer of the world that is a value or an error, that is, an
    instance of [Exception]. *)
Definition value_or_error {A} (o : outcome A) : Prop :=
  match o with Return _ => True | Raise e => is_Exception e = true end.

(** A world whose calls fail with errors only (no interrupt arrives while a
    client is at work). *)
Definition fails_with_errors_only (w : world) : Prop :=
  value_or_error (genai_import w)
  /\ value_or_error (genai_configure w)
  /\ value_or_error (genai_GenerativeModel w)
  /\ value_or_error (genai_generate_content w)
  /\ (forall r, genai_generate_content w = Return (Some r) ->
                value_or_error (response_text r))
  /\ value_or_error (adk_Runner w)
  /\ value_or_error (adk_create_session w)
  /\ value_or_error (adk_Content w)
  /\ value_or_error (snd (adk_run_async w)).

Definition is_printed (e : event) : bool :=
  match e with Printed _ => true | _ => false end.

Definition is_direct_api_call (e : event) : bool :=
  match e with Called_generate_utterances_direct_api _ => true | _ => false end.

Definition is_save_call (e : event) : bool :=
  match e with Called_save_to_csv _ _ => true | _ => false end.

(** The two copies of [save_to_csv]. *)
Inductive script := main_py | main_simple_py.

Definition save_to_csv (p : script) : world -> list pystr -> pystr -> M (option pystr) :=
  match p with
  | main_py => main.save_to_csv
  | main_simple_py => main_simple.save_to_csv
  end.

(** The path [save_to_csv] builds from its two clock readings. *)
Definition csv_path (t t' : datetime) : pystr :=
  path_join (py "utterance_outputs_" ++ strftime_Ymd t')
            (py "utterances_" ++ strftime_Ymd_HMS t ++ py ".csv").

(** The records of a file, or of the file a link stands for. *)
Definition file_data (n : node) : option content :=
  match n with
  | File data | LinkToFile data => Some data
  | _ => None
  end.

(** The file a path of [csv_path] names, if it is there. *)
Definition csv_at (files : filesystem) (t t' : datetime) : option content :=
  match files !! (py "utterance_outputs_" ++ strftime_Ymd t') ≫= dir_entries with
  | Some entries =>
      entries !! (py "utterances_" ++ strftime_Ymd_HMS t ++ py ".csv") ≫= file_data
  | None => None
  end.

(** An output container: a directory whose name has the prefix. *)
Definition output_folder (files : filesystem) (name : pystr) : bool :=
  isdir files name && startswith name manage_outputs.output_prefix.

(** The date embedded in a container name, as [clean_old_folders] reads it. *)
Definition embedded_date (w : world) (name : pystr) : option datetime :=
  strptime_Ymd w (str_replace manage_outputs.output_prefix [] name).

(** The container's date is strictly before the cut-off. *)
Definition older_than (w : world) (cutoff_date : datetime) (name : pystr) : bool :=
  match embedded_date w name with
  | Some t => datetime_ltb t cutoff_date
  | None => false
  end.

Definition skip_warning (folder : pystr) : event :=
  Printed ([9888; 65039] ++ py "  Skipped folder with invalid date format: " ++ folder).

(** A container the cleaner cannot remove: its date is before the cut-off,
    and it is a symbolic link. *)
Definition stuck (w : world) (cutoff_date : datetime) (files : filesystem)
    (name : pystr) : bool :=
  older_than w cutoff_date name && islink files name.

(** The containers the loop of the cleaner gets through: those before the
    first one that is stuck. *)
Definition reached (w : world) (cutoff_date : datetime) (files : filesystem)
    (folders : list pystr) : list pystr :=
  take_while (fun f => negb (stuck w cutoff_date files f)) folders.

(** No container with a date before the cut-off is a symbolic link. *)
Definition no_old_link (w : world) (cutoff_date : datetime) (files : filesystem)
    : Prop :=
  forall name,
    output_folder files name = true -> older_than w cutoff_date name = true ->
    islink files name = false.

(** ** Further vocabulary of the proofs and examples *)

(** What a copy computes from a text it accepts. *)
Definition normal_form (c : copy) (text intention : pystr) : list pystr :=
  take 10 (parsed c text
           ++ replicate (10 - length (parsed c text)) (placeholder c intention)).

(** The start of a run: nothing on disk, nothing printed, no pending input. *)
Definition initial : state := State ∅ 0 [] [].

Definition ten_lines : pystr :=
  py "one
two
three
4. four
five
six
seven
eight
nine
ten".

(** Every event [m] adds to the trace satisfies [P]. *)
Definition emits {A} (P : event -> bool) (m : M A) : Prop :=
  forall s, exists added,
    trace (snd (m s)) = trace s ++ added /\ forallb P added = true.

(** [m] leaves the component [f] of the state as it found it. *)
Definition keeps {X A} (f : state -> X) (m : M A) : Prop :=
  forall s, f (snd (m s)) = f s.

(** A computation that answers without touching the state. *)
Definition pure_step {A} (m : M A) : Prop := forall s, snd (m s) = s.

Definition not_direct_api_call (e : event) : bool := negb (is_direct_api_call e).

Definition neither_direct_api_nor_save (e : event) : bool :=
  negb (is_direct_api_call e) && negb (is_save_call e).

Definition adk_failed : pystr := py "ADK method failed, trying direct API...".
Definition generation_failed : pystr :=
  py "Failed to generate utterances. Please try again.".

(** What [main_from_agent] does with the answer it settles on. *)
Definition after_clients (w : world) (intention : pystr)
    (utterances : option (list pystr)) : M unit :=
  match utterances with
  | None | Some [] => print generation_failed
  | Some utterances =>
      print ([10; 128221] ++ py " Generated utterances for '"
             ++ intention ++ py "':") ;;;
      print (replicate 50 45) ;;;
      print_numbered 1 utterances ;;;
      main.save_to_csv w utterances intention ;;;
      ret tt
  end.

(** [m] ends with a value satisfying [Q] or with an error. *)
Definition ends_in {A} (Q : A -> Prop) (m : M A) : Prop :=
  forall s, match fst (m s) with
            | Return a => Q a
            | Raise e => is_Exception e = true
            end.

(** [m] returns, with the unavailable signal or a complete list. *)
Definition settles (m : M (option (list pystr))) : Prop :=
  forall s, exists r s', m s = (Return r, s') /\ none_or_complete r.

(** Two readings of the clock within one second: they differ in the
    microseconds at most. *)
Definition same_second (t1 t2 : datetime) : Prop :=
  year t1 = year t2 /\ month t1 = month t2 /\ day t1 = day t2
  /\ hour t1 = hour t2 /\ minute t1 = minute t2 /\ second t1 = second t2.

(** A clock that stays within one second of noon, 5 March 2024. *)
Definition noon : nat -> datetime :=
  fun n => Datetime 2024 3 5 12 0 0 (N.of_nat n).

(** A world without credentials: the agent runner fails, no key is set. *)
Definition offline : world :=
  World noon None (Return tt) (Return tt) (Return tt) (Return None)
        (Return tt) (Raise (Exn OtherError (py "no credentials")))
        (Return tt) (Return tt) ([], Return tt) strptime_8digits.

(** Two calls of [save_to_csv] in that world, one after the other. *)
Definition first_save : outcome (option pystr) * state :=
  main.save_to_csv offline [py "hello"] (py "greet") initial.

Definition second_save : outcome (option pystr) * state :=
  main.save_to_csv offline [py "good day"] (py "greet") (snd first_save).

(** The folders [list_output_folders] returns on a given directory. *)
Definition folders_of (files : filesystem) : list pystr :=
  manage_outputs.sorted
    (manage_outputs.collect_folders files (listdir files) []).

(** A working directory with an old container, a recent one, one whose
    name holds no date, and a file. *)
Definition old_and_new : filesystem :=
  {[ py "utterance_outputs_20240101" := Dir ∅;
     py "utterance_outputs_20240304" := Dir ∅;
     py "utterance_outputs_backup" := Dir ∅;
     py "notes.txt" := File [] ]}.

(** [m] changes nothing but output containers. *)
Definition spares_the_rest {A} (m : M A) : Prop :=
  forall s name,
    output_folder (fs s) name = false -> fs (snd (m s)) !! name = fs s !! name.

Definition twelve_lines : pystr :=
  py "one
two
three
4. four
five
six
seven
eight
nine
ten
eleven
twelve".

Definition some_agent : main.LlmAgent := main.Agent (py "Utterance_Generator").

(** The states of a run in the world without credentials: after the primary
    client, and after the fallback client. *)
Definition after_primary : state :=
  snd (main.generate_utterances offline some_agent (py "greet") initial).

Definition after_fallback : state :=
  snd (main.generate_utterances_direct_api offline (py "greet")
         (snd (print adk_failed after_primary))).

(** A working directory and two answers typed at the menu: clean, then exit. *)
Definition housekeeping_start : state :=
  State old_and_new 0 [Return (py "3"); Return (py "4")] [].

(** A working directory with two old containers, the first of them a
    symbolic link to a directory. *)
Definition linked_start : state :=
  State {[ py "utterance_outputs_20240101" := LinkToDir ∅;
           py "utterance_outputs_20240102" := Dir ∅ ]} 0 [] [].

Definition cleaning_run : outcome (list pystr) * state :=
  manage_outputs.clean_old_folders offline None housekeeping_start.

(** A world in which the agent streams twelve clean lines, and the run of
    [main] in it for the intention [order a pizza]. *)
Definition pizza_world : world :=
  World noon None (Return tt) (Return tt) (Return tt) (Return None)
        (Return tt) (Return tt) (Return tt) (Return tt)
        ([Event None (Str (py "one
two
three
four
five
six")); Event None Missing;
          Event (Some [Candidate (Some [Part (Str (py "
seven
eight
nine
ten
eleven
twelve"))])]) Missing], Return tt)
        strptime_8digits.

Definition pizza_run : outcome unit * state :=
  main.main pizza_world (State ∅ 0 [Return (py "  order a pizza ")] []).

(** A world with a key, in which the user interrupts the call of the model. *)
Definition interrupted : world :=
  World noon (Some (py "key")) (Return tt) (Return tt) (Return tt)
        (Raise (Exn KeyboardInterrupt []))
        (Return tt) (Return tt) (Return tt) (Return tt)
        ([], Raise (Exn KeyboardInterrupt [])) strptime_8digits.

(** [m], when it returns, has taken one pending answer. *)
Definition takes_one {A} (m : M A) : Prop :=
  forall s a s', m s = (Return a, s') -> length (stdin s) = S (length (stdin s')).

(** ** [src/main.py]: the credential probe *)

(** How [subprocess.run(['gcloud', 'auth', 'list', ...], timeout=10)] ends:
    with a completed process, with [subprocess.TimeoutExpired], with
    [FileNotFoundError], or with another exception. *)
Inductive gcloud_run :=
| Completed (returncode : Z) (stdout : pystr)
| TimedOut
| NotFound
| Failed (e : exn).

(** What [setup_authentication] consults: the environment variables, the
    existence of a path on disk, and the [gcloud] command. *)
Record credentials := Credentials {
  environ : gmap pystr pystr;
  exists_on_disk : pystr -> bool;
  gcloud_auth_list : gcloud_run
}.

(** [os.getenv(name)] *)
Definition getenv (c : credentials) (name : string) : option pystr :=
  environ c !! py name.

(** [a or b] on values that are [None] or strings. *)
Definition or_else (a b : option pystr) : option pystr :=
  if env_set a then a else b.

(** Lines 39-47 of [setup_authentication]: the probe of [gcloud]; the result
    says whether the function returned [True] there. *)
Definition probe_gcloud (c : credentials) : M bool :=
  match gcloud_auth_list c with
  | Completed returncode stdout =>
      if (returncode =? 0)%Z && truthy (strip stdout)
      then print (py " Using gcloud authentication") ;;; ret true
      else ret false
  | TimedOut | NotFound => ret false
  | Failed e => raise e
  end.

(** Lines 49-56 of [setup_authentication]: the project identifier, and the
    verdict when it is missing too. *)
Definition probe_project (c : credentials) : M bool :=
  match or_else (getenv c "GOOGLE_CLOUD_PROJECT") (getenv c "GCP_PROJECT") with
  | Some ((_ :: _) as project_id) =>
      print (py " Using project: " ++ project_id) ;;; ret true
  | _ => print (py "No valid Google authentication found!") ;;; ret false
  end.

(** [setup_authentication()] *)
Definition setup_authentication (c : credentials) : M bool :=
  print ([128272] ++ py " Setting up authentication...") ;;;
  if env_set (getenv c "GOOGLE_API_KEY")
  then print (py " Using Google API key from environment") ;;; ret true
  else
    let service_account_path := getenv c "GOOGLE_APPLICATION_CREDENTIALS" in
    if env_set service_account_path
       && exists_on_disk c (default [] service_account_path)
    then
      print (py " Using service account: " ++ default [] service_account_path) ;;;
      ret true
    else
      found <- probe_gcloud c ;;
      if found then ret true else probe_project c.

(** ** Vocabulary of the further properties *)

(** Some credential source is usable. *)
Definition any_credential (c : credentials) : bool :=
  env_set (getenv c "GOOGLE_API_KEY")
  || (env_set (getenv c "GOOGLE_APPLICATION_CREDENTIALS")
      && exists_on_disk c (default [] (getenv c "GOOGLE_APPLICATION_CREDENTIALS")))
  || match gcloud_auth_list c with
     | Completed returncode stdout => (returncode =? 0)%Z && truthy (strip stdout)
     | _ => false
     end
  || env_set (or_else (getenv c "GOOGLE_CLOUD_PROJECT") (getenv c "GCP_PROJECT")).

(** The text attributes an event offers, in the order the loop of
    [generate_utterances] reads them. *)
Definition texts_of_candidate (candidate : adk_candidate) : list attr :=
  match candidate_parts candidate with
  | Some parts => part_text <$> parts
  | None => []
  end.

Definition texts_of_event (event : adk_event) : list attr :=
  match event_response event with
  | Some candidates => concat (texts_of_candidate <$> candidates)
  | None => [event_text event]
  end.

(** The concatenation of the texts; [None] when one of them is [None]. *)
Fixpoint join_texts (texts : list attr) : option pystr :=
  match texts with
  | [] => Some []
  | Missing :: rest => join_texts rest
  | NoneValue :: _ => None
  | Str t :: rest => app t <$> join_texts rest
  end.

(** The state after [added] was appended to the trace, all else equal. *)
Definition with_events (s : state) (added : list event) : state :=
  State (fs s) (ticks s) (stdin s) (trace s ++ added).

Definition is_client_call (e : event) : bool :=
  match e with
  | Called_generate_utterances _ | Called_generate_utterances_direct_api _
  | Called_generate_utterances_simple _ => true
  | _ => false
  end.

(** The lines [main] shows before it saves. *)
Definition shown (intention : pystr) (utterances : list pystr) : list event :=
  Printed ([10; 128221] ++ py " Generated utterances for '" ++ intention ++ py "':")
  :: Printed (replicate 50 45)
  :: imap (fun i u => Printed (fmt_2d (S i) ++ py ". " ++ u)) utterances.

(** The two lines [get_user_input] prints before it reads. *)
Definition greeting : list event :=
  [Printed (py "Hello! " ++ [128075] ++ py " Welcome to the Utterance Generator.");
   Printed (py "Please enter an intention: ")].

(** A row every field of which can be encoded. *)
Definition row_ok (row : list pystr) : bool := forallb encodable row.

(** The rows that reach the file: those before the first row that cannot be
    encoded. *)
Definition written (rows : content) : content := take_while row_ok rows.

(** The exception that ends the writing of [rows], if one does. *)
Definition encode_failure (rows : content) : option exn :=
  match drop (length (written rows)) rows with
  | [] => None
  | row :: _ => Some (Exn UnicodeEncodeError (utf8_error_text (csv_line row)))
  end.

(** Every row of the utterances can be encoded: no utterance holds a
    surrogate, nor does the intention when there is a row at all. *)
Definition can_be_encoded (utterances : list pystr) (intention : pystr) : bool :=
  forallb (fun u => encodable u && encodable intention) utterances.

(** The file, or the file a link stands for, with the given records. *)
Definition holding (data : content) (n : node) : node :=
  match n with
  | File _ => File data
  | LinkToFile _ => LinkToFile data
  | other => other
  end.

(** The path of [csv_path] cannot be opened for writing: the folder name is
    taken by a file, a link to a file or a dangling link, or the file name
    by a directory, a link to one, or a link whose target cannot be
    created. *)
Definition path_blocked (files : filesystem) (t t' : datetime) : bool :=
  match files !! (py "utterance_outputs_" ++ strftime_Ymd t') with
  | None => false
  | Some folder =>
      match dir_entries folder with
      | None => true
      | Some entries =>
          match opened_for_writing
                  (entries !! (py "utterances_" ++ strftime_Ymd_HMS t ++ py ".csv")) with
          | None => true
          | Some _ => false
          end
      end
  end.

(** The file system once the file of [csv_path] is opened and [data] is
    written to it; [None] when the path is blocked. *)
Definition saved (files : filesystem) (t t' : datetime) (data : content)
    : option filesystem :=
  let dir := py "utterance_outputs_" ++ strftime_Ymd t' in
  let file := py "utterances_" ++ strftime_Ymd_HMS t ++ py ".csv" in
  match files !! dir with
  | None => Some (<[dir := Dir {[file := File data]}]> files)
  | Some folder =>
      match dir_entries folder with
      | None => None
      | Some entries =>
          match opened_for_writing (entries !! file) with
          | None => None
          | Some opened =>
              Some (<[dir := in_dir (fun _ => <[file := holding data opened]> entries)
                               folder]> files)
          end
      end
  end.

(** The number of entries of a folder whose name ends with [.csv]. *)
Definition csv_count (files : filesystem) (folder : pystr) : nat :=
  match files !! folder ≫= dir_entries with
  | Some entries =>
      length (List.filter (fun f => endswith f (py ".csv")) (listdir entries))
  | None => 0%nat
  end.

(** The last line of a successful [save_to_csv], in either script. *)
Definition done_message (p : script) (filepath : pystr) : pystr :=
  match p with
  | main_py => py "Done! 10 utterances saved in " ++ filepath ++ py " "
  | main_simple_py => py "Done! 10 utterances saved in " ++ filepath ++ [32; 9989]
  end.

(** [m] changes the state by printing only. *)
Definition only_prints {A} (m : M A) : Prop :=
  forall s, exists added,
    snd (m s) = with_events s added /\ forallb is_printed added = true.

(** The texts of a stream of events. *)
Definition texts_of_events (events : list adk_event) : list attr :=
  concat (texts_of_event <$> events).

Definition generating : pystr := py "Generating utterances using Gemini Flash...".
Definition missing_key : pystr :=
  py "GOOGLE_API_KEY not found in environment variables".
Definition no_api_key : pystr :=
  py "API key not provided. Set GOOGLE_API_KEY environment variable or pass api_key parameter.".
Definition check_your_key : pystr :=
  py "Failed to generate utterances. Please check your API key.".

(** The result of a collecting loop over texts that join to [joined]. *)
Definition collected (acc : pystr) (joined : option pystr) : outcome pystr :=
  match joined with
  | Some t => Return (acc ++ t)
  | None => Raise main.concat_none
  end.

(** The line [show_folder_stats] prints for one folder. *)
Definition stats_line (files : filesystem) (folder : pystr) : event :=
  Printed (py "   " ++ [128193; 32] ++ folder ++ py ": "
           ++ str_of_nat (csv_count files folder) ++ py " CSV files").

(** Everything [show_folder_stats] prints on a working directory. *)
Definition stats_report (files : filesystem) : list event :=
  match folders_of files with
  | [] => [Printed (py "No output folders found.")]
  | folders =>
      Printed ([128202] ++ py " Found " ++ str_of_nat (length folders)
               ++ py " output folder(s):")
      :: (stats_line files <$> folders)
      ++ [Printed ([10] ++ py "Total CSV files: "
                   ++ str_of_nat (sum_list (csv_count files <$> folders)))]
  end.

(** What [clean_old_folders] prints about one folder: a line when it
    removes it, a warning when its name holds no date, nothing otherwise. *)
Definition cleaning_line (w : world) (cutoff_date : datetime) (folder : pystr)
    : option event :=
  match embedded_date w folder with
  | None => Some (skip_warning folder)
  | Some t =>
      if datetime_ltb t cutoff_date
      then Some (Printed ([128465; 65039] ++ py "  Cleaned old folder: " ++ folder))
      else None
  end.

(** A pending answer that is a line choosing option 4 of the menu. *)
Definition chooses_exit (o : outcome pystr) : Prop :=
  match o with
  | Return answer => strip answer = py "4"
  | Raise _ => False
  end.

(** A pending answer that is a line choosing anything but option 4. *)
Definition stays_in_menu (o : outcome pystr) : Prop :=
  match o with
  | Return answer => strip answer <> py "4"
  | Raise _ => False
  end.

Definition end_of_input : exn := Exn EOFError (py "EOF when reading a line").

Definition goodbye : event := Printed (py "Goodbye! " ++ [128075]).

(** What one turn of the menu does with the choice it has read (lines 73-97
    of [manage_outputs.py]); [menu_turn] is the five lines of the menu, the
    prompt, and this. *)
Definition menu_choice (w : world) (choice : pystr) : M bool :=
  if str_eqb choice (py "1") then
    folders <- manage_outputs.list_output_folders ;;
    match folders with
    | _ :: _ =>
        print ([10; 128193] ++ py " Output folders:") ;;;
        manage_outputs.print_each (py "   ") folders ;;;
        ret true
    | [] => print ([10] ++ py "No output folders found.") ;;; ret true
    end
  else if str_eqb choice (py "2") then
    print [] ;;; manage_outputs.show_folder_stats ;;; ret true
  else if str_eqb choice (py "3") then
    print ([10; 129529] ++ py " Cleaning folders older than 7 days...") ;;;
    cleaned <- manage_outputs.clean_old_folders w (Some 7%Z) ;;
    match cleaned with
    | _ :: _ =>
        print (py "Cleaned " ++ str_of_nat (length cleaned) ++ py " folders.") ;;;
        ret true
    | [] => print (py "No old folders to clean.") ;;; ret true
    end
  else if str_eqb choice (py "4") then
    print (py "Goodbye! " ++ [128075]) ;;; ret false
  else
    print (py "Invalid option. Please try again.") ;;; ret true.

(** The menu and the prompt, as every turn prints them. *)
Definition menu_lines : list event :=
  [Printed ([10] ++ py "Options:");
   Printed (py "1. List output folders");
   Printed (py "2. Show folder statistics");
   Printed (py "3. Clean old folders (7+ days)");
   Printed (py "4. Exit");
   Printed ([10] ++ py "Select option (1-4): ")].

(** The two lines [manage_outputs.main] starts with. *)
Definition banner : list event :=
  [Printed ([128450; 65039] ++ py "  Utterance Output Folder Manager");
   Printed (replicate 40 61)].

(** The state once the next pending answer is read after the menu. *)
Definition after_menu (s : state) (rest : list (outcome pystr)) : state :=
  State (fs s) (ticks s) rest (trace s ++ menu_lines).

(** An exception that one of the two [except] clauses of [main] takes:
    [except KeyboardInterrupt] or [except Exception]. *)
Definition has_a_clause (e : exn) : bool := is_KeyboardInterrupt e || is_Exception e.

(** An answer that is a value, or an exception [main] has a clause for. *)
Definition value_or_handled {A} (o : outcome A) : Prop :=
  match o with Return _ => True | Raise e => has_a_clause e = true end.

(** A world whose calls raise nothing but errors and interrupts: no
    [SystemExit], [GeneratorExit] or [asyncio.CancelledError] arrives. *)
Definition raises_what_main_handles (w : world) : Prop :=
  value_or_handled (genai_import w)
  /\ value_or_handled (genai_configure w)
  /\ value_or_handled (genai_GenerativeModel w)
  /\ value_or_handled (genai_generate_content w)
  /\ (forall r, genai_generate_content w = Return (Some r) ->
                value_or_handled (response_text r))
  /\ value_or_handled (adk_LlmAgent w)
  /\ value_or_handled (adk_Runner w)
  /\ value_or_handled (adk_create_session w)
  /\ value_or_handled (adk_Content w)
  /\ value_or_handled (snd (adk_run_async w)).

(** [m] raises nothing but what [main] has a clause for. *)
Definition raises_handled {A} (m : M A) : Prop :=
  forall s e, fst (m s) = Raise e -> has_a_clause e = true.

(** ** Worlds and states of the further examples *)

(** No key, no service account, no [gcloud] command, no project. *)
Definition no_credentials : credentials :=
  Credentials ∅ (fun _ => false) NotFound.

(** As before, but running [gcloud] is refused by the system. *)
Definition broken_gcloud : credentials :=
  Credentials ∅ (fun _ => false) (Failed (Exn OSError (py "Permission denied"))).

(** An empty working directory and the given lines typed. *)
Definition typed (answers : list string) : state :=
  State ∅ 0 ((fun a => Return (py a)) <$> answers) [].

(** A world with a key in which the model answers [hi]; the agent's runner
    fails. *)
Definition keyed_world : world :=
  World noon (Some (py "key")) (Return tt) (Return tt) (Return tt)
        (Return (Some (Response (Return (py "hi")))))
        (Return tt) (Raise (Exn OtherError (py "no credentials")))
        (Return tt) (Return tt) ([], Return tt) strptime_8digits.

(** A world without key in which no agent can be created. *)
Definition no_agent_world : world :=
  World noon None (Return tt) (Return tt) (Return tt) (Return None)
        (Raise (Exn OtherError (py "no credentials"))) (Return tt)
        (Return tt) (Return tt) ([], Return tt) strptime_8digits.

(** A world in which the agent streams the one line [hi]. *)
Definition one_line_world : world :=
  World noon None (Return tt) (Return tt) (Return tt) (Return None)
        (Return tt) (Return tt) (Return tt) (Return tt)
        ([Event None (Str (py "hi"))], Return tt) strptime_8digits.

(** The nine placeholders that complete a list of one utterance. *)
Definition nine_more (c : copy) : list pystr :=
  replicate 9 (placeholder c (py "greet")).

(** A working directory whose only output folder is recent. *)
Definition recent_only : state :=
  State {[ py "utterance_outputs_20240304" := Dir ∅ ]} 0 [] [].

(** Three lines typed at the menu, none of them the exit. *)
Definition no_exit_typed : state :=
  State old_and_new 0 [Return (py "1"); Return (py " 2 "); Return (py "quit")] [].

(** A world in which the task of [main] is cancelled while the agent's
    runner is set up. *)
Definition cancelled : world :=
  World noon None (Return tt) (Return tt) (Return tt) (Return None)
        (Return tt) (Raise (Exn CancelledError [])) (Return tt) (Return tt)
        ([], Return tt) strptime_8digits.

(** No output container is a symbolic link. *)
Definition no_linked_folder (files : filesystem) : Prop :=
  forall name, output_folder files name = true -> islink files name = false.

(** [m] creates and changes no entry of the working directory: an entry is
    as before, or gone. *)
Definition only_removes {A} (m : M A) : Prop :=
  forall s name,
    fs (snd (m s)) !! name = None \/ fs (snd (m s)) !! name = fs s !! name.

(** * Proofs *)

#[local] Arguments N.eqb : simpl never.
#[local] Arguments N.leb : simpl never.
#[local] Arguments N.ltb : simpl never.
#[local] Arguments py : simpl never.

(** ** Facts about strings *)

#[local] Arguments N.eqb : simpl never.
#[local] Arguments N.leb : simpl never.
#[local] Arguments N.ltb : simpl never.

Section drop_while_facts.
Context {A : Type} (p : A -> bool).

Lemma drop_while_head l x l' : drop_while p l = x :: l' -> p x = false.
Proof.
  induction l as [|y l IH]; simpl; [discriminate|].
  destruct (p y) eqn:Hy; [exact IH|].
  intros [= -> _]. exact Hy.
Qed.

Lemma drop_while_idem l : drop_while p (drop_while p l) = drop_while p l.
Proof.
  induction l as [|y l IH]; simpl; [reflexivity|].
  destruct (p y) eqn:Hy; [exact IH|]. simpl. now rewrite Hy.
Qed.

Lemma drop_while_snoc l x :
  p x = false -> drop_while p (l ++ [x]) = drop_while p l ++ [x].
Proof.
  intros Hx. induction l as [|y l IH]; simpl.
  - now rewrite Hx.
  - destruct (p y); [exact IH|reflexivity].
Qed.

Lemma drop_while_nil_iff l :
  drop_while p l = [] <-> Forall (fun x => p x = true) l.
Proof.
  induction l as [|y l IH]; simpl.
  - split; [constructor|reflexivity].
  - destruct (p y) eqn:Hy.
    + rewrite IH. split; [now constructor|]. now inversion 1.
    + split; [discriminate|]. inversion 1; congruence.
Qed.

Lemma drop_while_keeps l x :
  p x = false -> x ∈ l -> x ∈ drop_while p l.
Proof.
  intros Hx. induction l as [|y l IH]; simpl; [easy|].
  intros Hin. destruct (p y) eqn:Hy; [|exact Hin].
  apply elem_of_cons in Hin as [->|Hin]; [congruence|auto].
Qed.
End drop_while_facts.

Lemma truthy_true (s : pystr) : truthy s = true <-> s <> [].
Proof. destruct s; simpl; split; congruence. Qed.

Lemma truthy_false (s : pystr) : truthy s = false <-> s = [].
Proof. destruct s; simpl; split; congruence. Qed.

Lemma rstrip_cons c s : isspace c = false -> rstrip (c :: s) = c :: rstrip s.
Proof.
  intros Hc. unfold rstrip. simpl rev.
  rewrite drop_while_snoc by exact Hc.
  now rewrite rev_app_distr.
Qed.

Lemma rstrip_idem s : rstrip (rstrip s) = rstrip s.
Proof. unfold rstrip. now rewrite rev_involutive, drop_while_idem. Qed.

Lemma strip_idem s : strip (strip s) = strip s.
Proof.
  unfold strip, lstrip.
  destruct (drop_while isspace s) as [|c t] eqn:Hs; [reflexivity|].
  pose proof (drop_while_head _ _ _ _ Hs) as Hc.
  rewrite rstrip_cons by exact Hc. simpl. rewrite Hc.
  rewrite rstrip_cons by exact Hc. now rewrite rstrip_idem.
Qed.

Lemma truthy_strip_iff s :
  truthy (strip s) = true <-> exists c, c ∈ s /\ isspace c = false.
Proof.
  rewrite truthy_true. unfold strip, rstrip, lstrip. split.
  - intros Hne.
    assert (Hdw : drop_while isspace s <> []).
    { intros E. apply Hne. now rewrite E. }
    rewrite drop_while_nil_iff, <- Exists_Forall_neg in Hdw
      by (intros x; destruct (isspace x); [left|right]; congruence).
    apply Exists_exists in Hdw as (c & Hin & Hc).
    exists c. split; [exact Hin|]. now destruct (isspace c).
  - intros (c & Hin & Hc) E.
    apply (f_equal (@rev N)) in E. rewrite rev_involutive in E. simpl in E.
    apply drop_while_nil_iff in E. rewrite Forall_forall in E.
    specialize (E c). rewrite Hc in E. discriminate E.
    apply list_elem_of_In, in_rev. rewrite rev_involutive. apply list_elem_of_In.
    now apply drop_while_keeps.
Qed.

Lemma nonblank_strip s : truthy (strip s) = true -> nonblank (strip s) = true.
Proof. unfold nonblank. now rewrite strip_idem. Qed.

Lemma str_split_nonempty sep s : str_split sep s <> [].
Proof. destruct s as [|c s]; simpl; [easy|]. destruct (c =? sep); [easy|]. now destruct (str_split sep s). Qed.

Lemma str_split_chars sep s line c :
  line ∈ str_split sep s -> c ∈ line -> c ∈ s.
Proof.
  revert line. induction s as [|x s IH]; simpl; intros line Hline Hc.
  - apply list_elem_of_singleton in Hline as ->. exact Hc.
  - destruct (x =? sep).
    + apply elem_of_cons in Hline as [->|Hline]; [easy|].
      right. eauto.
    + destruct (str_split sep s) as [|piece pieces] eqn:Hs.
      * apply list_elem_of_singleton in Hline as ->.
        apply list_elem_of_singleton in Hc as ->. left.
      * apply elem_of_cons in Hline as [->|Hline].
        -- apply elem_of_cons in Hc as [->|Hc]; [left|right].
           apply (IH piece); [left|exact Hc].
        -- right. apply (IH line); [now right|exact Hc].
Qed.

Lemma str_split1_second s : str_split1 46 s !! 1%nat = after_first_dot s.
Proof.
  induction s as [|c s IH]; simpl; [reflexivity|].
  destruct (c =? 46); [reflexivity|].
  destruct (str_split1 46 s) as [|piece pieces]; simpl in *; exact IH.
Qed.

Lemma contains_after_first_dot s n :
  contains 46 (take n s) = true -> is_Some (after_first_dot s).
Proof.
  revert n. induction s as [|c s IH]; intros [|n]; simpl; try discriminate.
  intros H. rewrite (N.eqb_sym 46 c) in H. destruct (c =? 46); simpl in H; [eauto|now apply (IH n)].
Qed.

(** ** The parsing loops *)

Lemma getitem_after_dot cleaned n s :
  contains 46 (take n cleaned) = true ->
  getitem (str_split1 46 cleaned) 1 s
  = (Return (default [] (after_first_dot cleaned)), s).
Proof.
  intros H. unfold getitem. rewrite str_split1_second.
  destruct (contains_after_first_dot _ _ H) as [x ->]. reflexivity.
Qed.

Lemma omap_cons {A B} (f : A -> option B) x l :
  omap f (x :: l)
  = match f x with Some y => y :: omap f l | None => omap f l end.
Proof. reflexivity. Qed.

(** One step of a loop, once the line's contribution is known. *)
Ltac loop_step IH :=
  unfold bind, ret;
  repeat match goal with
  | |- context [getitem (str_split1 46 ?c) 1 ?s] =>
      rewrite (getitem_after_dot c 5 s) by assumption
  | |- context [if ?b then _ else _] => destruct b eqn:?; cbn [andb]
  end;
  try discriminate;
  rewrite ?IH, <- ?app_assoc; try reflexivity.

Lemma adk_lines_eq lines acc s :
  main.adk_lines lines acc s = (Return (acc ++ omap entry_main lines), s).
Proof.
  revert acc. induction lines as [|line rest IH]; intros acc.
  - simpl. now rewrite app_nil_r.
  - cbn [main.adk_lines]. rewrite omap_cons. unfold entry_main at 1.
    destruct (truthy (strip line)
              && negb (startswith_any (strip line)
                         [py "-"; [bullet]; py "*"; py "1."; py "2."])) eqn:Hkeep;
      [|apply IH].
    apply andb_prop in Hkeep as [Ht _]. rewrite Ht. cbn [andb].
    destruct (head_isdigit (strip line) && contains 46 (take 5 (strip line))) eqn:Hnum.
    + apply andb_prop in Hnum as [_ Hdot]. loop_step IH.
    + loop_step IH.
Qed.

Lemma direct_api_lines_eq lines acc s :
  main.direct_api_lines lines acc s = (Return (acc ++ omap entry_main lines), s).
Proof.
  revert acc. induction lines as [|line rest IH]; intros acc.
  - simpl. now rewrite app_nil_r.
  - cbn [main.direct_api_lines]. rewrite omap_cons. unfold entry_main at 1.
    destruct (truthy (strip line)
              && negb (startswith_any (strip line)
                         [py "-"; [bullet]; py "*"; py "1."; py "2."])) eqn:Hkeep;
      [|apply IH].
    apply andb_prop in Hkeep as [Ht _]. rewrite Ht. cbn [andb].
    destruct (head_isdigit (strip line) && contains 46 (take 5 (strip line))) eqn:Hnum.
    + apply andb_prop in Hnum as [_ Hdot]. loop_step IH.
    + loop_step IH.
Qed.

Lemma simple_lines_eq lines acc s :
  main_simple.simple_lines lines acc s = (Return (acc ++ omap entry_simple lines), s).
Proof.
  revert acc. induction lines as [|line rest IH]; intros acc.
  - simpl. now rewrite app_nil_r.
  - cbn [main_simple.simple_lines]. rewrite omap_cons. unfold entry_simple at 1.
    destruct (truthy (strip line)
              && negb (startswith_any (strip line) [py "-"; [bullet]; py "*"])) eqn:Hkeep;
      [|apply IH].
    apply andb_prop in Hkeep as [Ht _]. rewrite Ht. cbn [andb].
    destruct ((2 <? length (strip line))%nat && head_isdigit (strip line)
              && contains 46 (take 5 (strip line))) eqn:Hnum.
    + apply andb_prop in Hnum as [_ Hdot]. loop_step IH.
    + loop_step IH.
Qed.

Lemma lines_loop_eq c lines acc s :
  lines_loop c lines acc s = (Return (acc ++ omap (entry c) lines), s).
Proof.
  destruct c; simpl;
    [apply adk_lines_eq | apply direct_api_lines_eq | apply simple_lines_eq].
Qed.

Lemma pad_loop_eq n l ph : pad_loop n l ph = l ++ replicate n ph.
Proof.
  revert l. induction n as [|n IH]; intros l; simpl.
  - now rewrite app_nil_r.
  - rewrite IH, <- app_assoc. reflexivity.
Qed.

Lemma normalize_eq c text intention s :
  normalize c text intention s
  = (Return (if accepts c text then Some (normal_form c text intention) else None), s).
Proof.
  unfold normal_form, parsed.
  destruct c; simpl;
    [unfold main.normalize_adk | unfold main.normalize_direct_api
     | unfold main_simple.normalize_simple];
    match goal with |- context [if ?b then _ else _] => destruct b end;
    try reflexivity;
    unfold bind, ret, pad_to_10;
    rewrite ?adk_lines_eq, ?direct_api_lines_eq, ?simple_lines_eq;
    simpl app; rewrite pad_loop_eq; reflexivity.
Qed.

Lemma normal_form_length c text intention :
  length (normal_form c text intention) = 10%nat.
Proof.
  unfold normal_form. rewrite length_take, length_app, length_replicate. lia.
Qed.

Lemma entry_main_nonblank line u : entry_main line = Some u -> nonblank u = true.
Proof.
  unfold entry_main.
  destruct (truthy (strip line) && _) eqn:Hkeep; [|discriminate].
  apply andb_prop in Hkeep as [Ht _].
  destruct (head_isdigit (strip line) && _).
  - destruct (truthy (strip (default [] _))) eqn:Hu; [|discriminate].
    intros [= <-]. now apply nonblank_strip.
  - rewrite Ht. intros [= <-]. now apply nonblank_strip.
Qed.

Lemma entry_simple_nonblank line u : entry_simple line = Some u -> nonblank u = true.
Proof.
  unfold entry_simple.
  destruct (truthy (strip line) && _) eqn:Hkeep; [|discriminate].
  apply andb_prop in Hkeep as [Ht _].
  destruct (_ && contains 46 _).
  - destruct (truthy (strip (default [] _))) eqn:Hu; [|discriminate].
    intros [= <-]. now apply nonblank_strip.
  - rewrite Ht. intros [= <-]. now apply nonblank_strip.
Qed.

Lemma parsed_nonblank c text : Forall (fun u => nonblank u = true) (parsed c text).
Proof.
  unfold parsed. apply Forall_forall. intros u Hu.
  apply list_elem_of_omap in Hu as (line & _ & Hline).
  destruct c; simpl in Hline;
    eauto using entry_main_nonblank, entry_simple_nonblank.
Qed.

Lemma placeholder_nonblank c intention : nonblank (placeholder c intention) = true.
Proof.
  unfold nonblank. apply truthy_strip_iff. exists 65. split; [|reflexivity].
  destruct c; left.
Qed.

Lemma normal_form_nonblank c text intention :
  Forall (fun u => nonblank u = true) (normal_form c text intention).
Proof.
  unfold normal_form. apply Forall_take, Forall_app. split.
  - apply parsed_nonblank.
  - apply Forall_replicate, placeholder_nonblank.
Qed.

Lemma well_formed_line_accepted c text line :
  line ∈ str_split 10 text -> well_formed_line line = true -> accepts c text = true.
Proof.
  intros Hin Hwf. unfold well_formed_line in Hwf.
  apply andb_prop in Hwf as [Hwf _]. apply andb_prop in Hwf as [Hwf _].
  apply truthy_strip_iff in Hwf as (ch & Hch & Hsp).
  pose proof (str_split_chars _ _ _ _ Hin Hch) as Htext.
  destruct c; simpl.
  - apply truthy_strip_iff. eauto.
  - destruct text; [inversion Htext|reflexivity].
  - destruct text; [inversion Htext|reflexivity].
Qed.

(** C1.  Whenever the raw text has at least one well-formed line, each of the
    three copies of the normalisation step returns a list of exactly ten
    strings, none of which is empty or made of white space only; this holds
    for every intention, the non-empty trimmed ones included. *)
Theorem normalize_ten_nonblank (c : copy) (text intention : pystr) (s : state) :
  (exists line, line ∈ str_split 10 text /\ well_formed_line line = true) ->
  exists l,
    normalize c text intention s = (Return (Some l), s)
    /\ length l = 10%nat
    /\ Forall (fun u => nonblank u = true) l.
Proof.
  intros (line & Hin & Hwf).
  exists (normal_form c text intention).
  rewrite normalize_eq, (well_formed_line_accepted c text line Hin Hwf).
  split; [reflexivity|].
  split; [apply normal_form_length | apply normal_form_nonblank].
Qed.

Lemma normalize_ten_nonblank_witness :
  exists l,
    normalize adk (py "Hello there") (py "greet") initial = (Return (Some l), initial)
    /\ length l = 10%nat
    /\ Forall (fun u => nonblank u = true) l.
Proof.
  apply (normalize_ten_nonblank adk (py "Hello there") (py "greet") initial).
  exists (py "Hello there"). split; [left | reflexivity].
Defined.

Lemma entry_line_nonblank c line u : entry c line = Some u -> truthy (strip line) = true.
Proof.
  destruct c; simpl; unfold entry_main, entry_simple;
    destruct (truthy (strip line)); simpl; congruence.
Qed.

Lemma nonblank_line_accepted c text line :
  line ∈ str_split 10 text -> truthy (strip line) = true -> accepts c text = true.
Proof.
  intros Hin Hne.
  apply truthy_strip_iff in Hne as (ch & Hch & Hsp).
  pose proof (str_split_chars _ _ _ _ Hin Hch) as Htext.
  destruct c; simpl.
  - apply truthy_strip_iff. eauto.
  - destruct text; [inversion Htext|reflexivity].
  - destruct text; [inversion Htext|reflexivity].
Qed.

Lemma parsed_accepted c text : parsed c text <> [] -> accepts c text = true.
Proof.
  intros Hne. destruct (parsed c text) as [|u l] eqn:Hp; [easy|].
  assert (Hu : u ∈ parsed c text) by (rewrite Hp; left).
  apply list_elem_of_omap in Hu as (line & Hin & Hline).
  eapply nonblank_line_accepted; eauto using entry_line_nonblank.
Qed.

Lemma strip_accepted text : truthy (strip text) = true -> truthy text = true.
Proof. destruct text; [discriminate|reflexivity]. Qed.

(** C2.  For every intention, the two copies in [main.py] drop the line
    [1. Hello there] (their answer is ten placeholders), while the copy in
    [main_simple.py] turns it into the entry [Hello there]; all three copies
    drop the bullet line [- Hi]. *)
Theorem numbered_line_dropped_in_main (intention : pystr) (s : state) :
  normalize adk (py "1. Hello there") intention s
  = (Return (Some (replicate 10 (py "Alternative expression: " ++ intention))), s)
  /\ normalize direct_api (py "1. Hello there") intention s
     = (Return (Some (replicate 10 (py "Alternative expression: " ++ intention))), s)
  /\ normalize simple (py "1. Hello there") intention s
     = (Return (Some (py "Hello there"
                      :: replicate 9 (py "Alternative way to say: " ++ intention))), s)
  /\ forall c, normalize c (py "- Hi") intention s
               = (Return (Some (replicate 10 (placeholder c intention))), s).
Proof.
  split; [|split; [|split; [|intros c]]]; rewrite normalize_eq;
    try destruct c; vm_compute; reflexivity.
Qed.

(** C3, as stated, fails: on the empty text every copy answers [None], not
    ten placeholders; and on a text of one space, which the copy of
    [main_simple.py] accepts, its placeholders are not of the form claimed. *)
Lemma empty_text_gives_no_placeholders :
  fst (normalize adk [] (py "greet") initial)
    <> Return (Some (replicate 10 (py "Alternative expression: greet")))
  /\ fst (normalize direct_api [] (py "greet") initial)
    <> Return (Some (replicate 10 (py "Alternative expression: greet")))
  /\ fst (normalize simple [] (py "greet") initial)
    <> Return (Some (replicate 10 (py "Alternative expression: greet")))
  /\ fst (normalize simple [32] (py "greet") initial)
    <> Return (Some (replicate 10 (py "Alternative expression: greet"))).
Proof. repeat split; intros H; vm_compute in H; discriminate H. Qed.

(** C3, amended.  On the empty text each copy answers [None]; on a text that
    passes the copy's test and of which fewer than ten entries survive
    parsing, the answer is those entries followed by the copy's placeholder,
    repeated until there are ten: [Alternative expression: ...] in [main.py],
    [Alternative way to say: ...] in [main_simple.py]. *)
Theorem padding_after_test (c : copy) (text intention : pystr) (s : state) :
  accepts c text = true ->
  (length (parsed c text) < 10)%nat ->
  normalize c [] intention s = (Return None, s)
  /\ normalize c text intention s
     = (Return (Some (parsed c text
                      ++ replicate (10 - length (parsed c text))
                                   (placeholder c intention))), s)
  /\ placeholder c intention
     = match c with
       | simple => py "Alternative way to say: " ++ intention
       | _ => py "Alternative expression: " ++ intention
       end.
Proof.
  intros Hacc Hfew. split; [|split; [|reflexivity]].
  - rewrite normalize_eq. now destruct c.
  - rewrite normalize_eq, Hacc. unfold normal_form.
    rewrite take_ge; [reflexivity|].
    rewrite length_app, length_replicate. lia.
Qed.

Lemma padding_after_test_witness :
  normalize adk [] (py "greet") initial = (Return None, initial)
  /\ normalize adk (py "Hi there") (py "greet") initial
     = (Return (Some (parsed adk (py "Hi there")
                      ++ replicate (10 - length (parsed adk (py "Hi there")))
                                   (placeholder adk (py "greet")))), initial)
  /\ placeholder adk (py "greet") = py "Alternative expression: " ++ py "greet".
Proof.
  apply (padding_after_test adk (py "Hi there") (py "greet") initial).
  - vm_compute. reflexivity.
  - vm_compute. lia.
Defined.

Lemma startswith_any_app s l1 l2 :
  startswith_any s (l1 ++ l2) = startswith_any s l1 || startswith_any s l2.
Proof. unfold startswith_any. apply existsb_app. Qed.

Lemma entry_same_treatment line :
  same_treatment line = true -> entry_simple line = entry_main line.
Proof.
  unfold same_treatment, entry_simple, entry_main.
  change [py "-"; [bullet]; py "*"; py "1."; py "2."]
    with ([py "-"; [bullet]; py "*"] ++ [py "1."; py "2."]).
  rewrite startswith_any_app.
  intros H. apply andb_prop in H as [H12 Hshort].
  apply negb_true_iff in H12. rewrite H12, orb_false_r.
  destruct (truthy (strip line) && _); [|reflexivity].
  apply negb_true_iff in Hshort.
  destruct (2 <? length (strip line))%nat eqn:Hlen.
  - reflexivity.
  - apply Nat.ltb_ge in Hlen. apply Nat.leb_le in Hlen.
    rewrite Hlen in Hshort. simpl in Hshort. simpl. now rewrite Hshort.
Qed.

Lemma parsed_same_treatment text :
  Forall (fun line => same_treatment line = true) (str_split 10 text) ->
  parsed simple text = parsed adk text.
Proof.
  unfold parsed. induction 1 as [|line lines Hline _ IH]; [reflexivity|].
  simpl entry in *. rewrite !omap_cons, IH, (entry_same_treatment line Hline).
  reflexivity.
Qed.

(** C4, as stated, fails: the copies of [main.py] and the copy of
    [main_simple.py] answer differently on the line [1. Hello there]. *)
Lemma copies_differ_on_numbered_line :
  fst (normalize adk (py "1. Hello there") (py "greet") initial)
  <> fst (normalize simple (py "1. Hello there") (py "greet") initial).
Proof. intros H; vm_compute in H; discriminate H. Qed.

(** C4, amended.  On every text with a character that is not white space,
    the two copies in [main.py] give the same list; the copy in
    [main_simple.py] gives that list too when no trimmed line begins with
    [1.] or [2.], none is a lone digit followed by a dot, and at least ten
    entries survive parsing. *)
Theorem copies_agree (text intention : pystr) (s : state) :
  truthy (strip text) = true ->
  normalize adk text intention s = normalize direct_api text intention s
  /\ (Forall (fun line => same_treatment line = true) (str_split 10 text) ->
      (10 <= length (parsed adk text))%nat ->
      normalize simple text intention s = normalize adk text intention s).
Proof.
  intros Hacc. rewrite !normalize_eq. simpl accepts.
  rewrite Hacc, (strip_accepted _ Hacc). split; [reflexivity|].
  intros Hsame Hten. unfold normal_form.
  rewrite (parsed_same_treatment _ Hsame).
  replace (10 - length (parsed adk text))%nat with 0%nat by lia.
  reflexivity.
Qed.

Lemma copies_agree_witness :
  normalize adk ten_lines (py "greet") initial
  = normalize direct_api ten_lines (py "greet") initial
  /\ normalize simple ten_lines (py "greet") initial
     = normalize adk ten_lines (py "greet") initial.
Proof.
  destruct (copies_agree ten_lines (py "greet") initial) as [H1 H2];
    [vm_compute; reflexivity|].
  split; [exact H1|]. apply H2.
  - apply Forall_forall. intros line Hline. apply list_elem_of_In in Hline.
    revert line Hline. apply forallb_forall. vm_compute. reflexivity.
  - vm_compute. lia.
Defined.

(** On a text of white space only the tests differ: [generate_utterances]
    answers [None], the two direct clients answer ten placeholders. *)
Example white_space_only_text :
  fst (normalize adk [32; 32] (py "greet") initial) = Return None
  /\ fst (normalize direct_api [32; 32] (py "greet") initial)
     = Return (Some (replicate 10 (py "Alternative expression: greet")))
  /\ fst (normalize simple [32; 32] (py "greet") initial)
     = Return (Some (replicate 10 (py "Alternative way to say: greet"))).
Proof. vm_compute. repeat split; reflexivity. Qed.

(** C6.  When more than ten entries survive the parsing of a copy, the
    copy's answer is the first ten of them, in the order of the lines: the
    i-th element of the answer is the i-th parsed entry. *)
Theorem truncation_keeps_first_ten (c : copy) (text intention : pystr) (s : state) :
  (10 < length (parsed c text))%nat ->
  lines_loop c (str_split 10 text) [] s = (Return (parsed c text), s)
  /\ normalize c text intention s = (Return (Some (take 10 (parsed c text))), s)
  /\ forall i, (i < 10)%nat -> take 10 (parsed c text) !! i = parsed c text !! i.
Proof.
  intros Hmany. split; [|split].
  - now rewrite lines_loop_eq.
  - rewrite normalize_eq, parsed_accepted by (intros E; rewrite E in Hmany; simpl in Hmany; lia).
    unfold normal_form. now rewrite take_app_le by lia.
  - intros i Hi. now apply lookup_take_lt.
Qed.

Lemma truncation_keeps_first_ten_witness :
  normalize simple twelve_lines (py "greet") initial
  = (Return (Some (take 10 (parsed simple twelve_lines))), initial).
Proof.
  apply (truncation_keeps_first_ten simple twelve_lines (py "greet") initial).
  vm_compute. lia.
Defined.

Example truncation_run :
  fst (normalize adk twelve_lines (py "greet") initial)
  = Return (Some [py "one"; py "two"; py "three"; py "four"; py "five";
                  py "six"; py "seven"; py "eight"; py "nine"; py "ten"]).
Proof. vm_compute. reflexivity. Qed.

(** ** Effects of a computation *)

Section effect_rules.
Context (P : event -> bool).

Lemma emits_silent {A} (m : M A) :
  (forall s, trace (snd (m s)) = trace s) -> emits P m.
Proof. intros H s. exists []. now rewrite H, app_nil_r. Qed.

Lemma emits_ret {A} (a : A) : emits P (ret a).
Proof. now apply emits_silent. Qed.

Lemma emits_raise {A} e : emits P (@raise A e).
Proof. now apply emits_silent. Qed.

Lemma emits_lift {A} (o : outcome A) : emits P (lift o).
Proof. now apply emits_silent. Qed.

Lemma emits_emit e : P e = true -> emits P (emit e).
Proof. intros He s. exists [e]. simpl. now rewrite He. Qed.

Lemma emits_bind {A B} (m : M A) (k : A -> M B) :
  emits P m -> (forall a, emits P (k a)) -> emits P (bind m k).
Proof.
  intros Hm Hk s. destruct (Hm s) as (d1 & E1 & F1). unfold bind.
  destruct (m s) as [[a|e] s1]; simpl in *.
  - destruct (Hk a s1) as (d2 & E2 & F2). exists (d1 ++ d2).
    now rewrite E2, E1, app_assoc, forallb_app, F1, F2.
  - eauto.
Qed.

Lemma emits_try_except {A} (body : M A) caught handler :
  emits P body -> (forall e, emits P (handler e)) ->
  emits P (try_except body caught handler).
Proof.
  intros Hm Hk s. destruct (Hm s) as (d1 & E1 & F1). unfold try_except.
  destruct (body s) as [[a|e] s1]; simpl in *; [eauto|].
  destruct (caught e); simpl; [|eauto].
  destruct (Hk e s1) as (d2 & E2 & F2). exists (d1 ++ d2).
  now rewrite E2, E1, app_assoc, forallb_app, F1, F2.
Qed.

End effect_rules.

Section keeps_rules.
Context {X : Type} (f : state -> X).

Lemma keeps_ret {A} (a : A) : keeps f (ret a).
Proof. now intros s. Qed.

Lemma keeps_raise {A} e : keeps f (@raise A e).
Proof. now intros s. Qed.

Lemma keeps_lift {A} (o : outcome A) : keeps f (lift o).
Proof. now intros s. Qed.

Lemma keeps_bind {A B} (m : M A) (k : A -> M B) :
  keeps f m -> (forall a, keeps f (k a)) -> keeps f (bind m k).
Proof.
  intros Hm Hk s. specialize (Hm s). unfold bind.
  destruct (m s) as [[a|e] s1]; simpl in *; [|exact Hm].
  now rewrite Hk.
Qed.

Lemma keeps_try_except {A} (body : M A) caught handler :
  keeps f body -> (forall e, keeps f (handler e)) ->
  keeps f (try_except body caught handler).
Proof.
  intros Hm Hk s. specialize (Hm s). unfold try_except.
  destruct (body s) as [[a|e] s1]; simpl in *; [exact Hm|].
  destruct (caught e); simpl; [|exact Hm]. now rewrite Hk.
Qed.

Lemma pure_step_keeps {A} (m : M A) : (forall s, snd (m s) = s) -> keeps f m.
Proof. intros H s. now rewrite H. Qed.
End keeps_rules.

Lemma emits_weaken {A} (P Q : event -> bool) (m : M A) :
  (forall e, P e = true -> Q e = true) -> emits P m -> emits Q m.
Proof.
  intros HPQ Hm s. destruct (Hm s) as (d & E & F). exists d. split; [exact E|].
  apply forallb_forall. intros e He. apply HPQ.
  now apply (proj1 (forallb_forall P d) F).
Qed.

Lemma emits_print P text : P (Printed text) = true -> emits P (print text).
Proof. apply emits_emit. Qed.

Lemma keeps_fs_emit e : keeps fs (emit e).
Proof. now intros s. Qed.

Lemma keeps_stdin_emit e : keeps stdin (emit e).
Proof. now intros s. Qed.

Lemma keeps_stdin_rmtree name : keeps stdin (rmtree name).
Proof. intros s. unfold rmtree. now destruct (fs s !! name) as [[]|]. Qed.

Lemma pure_step_emits {A} P (m : M A) : pure_step m -> emits P m.
Proof. intros H. apply emits_silent. intros s. now rewrite H. Qed.

Lemma pure_step_bind {A B} (m : M A) (k : A -> M B) :
  pure_step m -> (forall a, pure_step (k a)) -> pure_step (bind m k).
Proof.
  intros Hm Hk s. specialize (Hm s). unfold bind.
  destruct (m s) as [[a|e] s1]; simpl in *; subst; [apply Hk|reflexivity].
Qed.

Lemma pure_step_normalize c text intention : pure_step (normalize c text intention).
Proof. intros s. now rewrite normalize_eq. Qed.

Lemma pure_step_collect_parts parts acc : pure_step (main.collect_parts parts acc).
Proof.
  revert acc. induction parts as [|p parts IH]; intros acc s; simpl; [reflexivity|].
  destruct (part_text p); [apply IH|reflexivity|apply IH].
Qed.

Lemma pure_step_collect_candidates cands acc :
  pure_step (main.collect_candidates cands acc).
Proof.
  revert acc. induction cands as [|c cands IH]; intros acc; simpl; [now intros s|].
  destruct (candidate_parts c); [|apply IH].
  apply pure_step_bind; [apply pure_step_collect_parts|intros a; apply IH].
Qed.

Lemma pure_step_collect_events events acc : pure_step (main.collect_events events acc).
Proof.
  revert acc. induction events as [|e events IH]; intros acc; simpl; [now intros s|].
  destruct (event_response e).
  - apply pure_step_bind; [apply pure_step_collect_candidates|intros a; apply IH].
  - destruct (event_text e); [apply IH|now intros s|apply IH].
Qed.

Lemma emits_now P w : emits P (now w).
Proof. now apply emits_silent. Qed.

Lemma emits_path_exists P name : emits P (path_exists name).
Proof. now apply emits_silent. Qed.

Lemma emits_makedirs P name : emits P (makedirs name).
Proof. apply emits_silent. intros s. unfold makedirs. now destruct (fs s !! name). Qed.

Lemma emits_open_w P dir name : emits P (open_w dir name).
Proof.
  apply emits_silent. intros s. unfold open_w.
  destruct (fs s !! dir) as [[data|entries|data|entries|on_create]|]; try reflexivity;
    now destruct (opened_for_writing (entries !! name)).
Qed.

Lemma emits_writerow P dir name row : emits P (writerow dir name row).
Proof.
  apply emits_silent. intros s. unfold writerow. now destruct (forallb encodable row).
Qed.

Lemma emits_writerows P dir name rows : emits P (writerows dir name rows).
Proof.
  induction rows as [|row rest IH]; simpl; [apply emits_ret|].
  apply emits_bind; [apply emits_writerow|intros _; exact IH].
Qed.

Lemma emits_rmtree P name : emits P (rmtree name).
Proof. apply emits_silent. intros s. unfold rmtree. now destruct (fs s !! name) as [[]|]. Qed.

Lemma emits_print_numbered P i utterances :
  (forall text, P (Printed text) = true) -> emits P (print_numbered i utterances).
Proof.
  intros HP. revert i. induction utterances as [|u rest IH]; intros i; simpl.
  - apply emits_ret.
  - apply emits_bind; [apply emits_emit, HP|intros _; apply IH].
Qed.

Lemma keeps_fs_now w : keeps fs (now w).
Proof. now intros s. Qed.

Lemma keeps_stdin_now w : keeps stdin (now w).
Proof. now intros s. Qed.

(** Breaks a goal about [emits] or [keeps_fs] along the structure of the
    computation. *)
Ltac effects :=
  repeat first
    [ apply emits_ret | apply emits_raise | apply emits_lift
    | apply emits_now | apply emits_path_exists | apply emits_makedirs
    | apply emits_open_w | apply emits_writerow | apply emits_writerows
    | apply emits_rmtree
    | apply emits_print_numbered; reflexivity
    | apply emits_print; reflexivity
    | apply emits_emit; reflexivity
    | apply keeps_ret | apply keeps_raise | apply keeps_lift
    | apply keeps_fs_emit | apply keeps_stdin_emit
    | apply keeps_fs_now | apply keeps_stdin_now | apply keeps_stdin_rmtree
    | apply pure_step_emits, (pure_step_normalize adk)
    | apply pure_step_emits, (pure_step_normalize direct_api)
    | apply pure_step_emits, (pure_step_normalize simple)
    | apply pure_step_keeps, (pure_step_normalize adk)
    | apply pure_step_keeps, (pure_step_normalize direct_api)
    | apply pure_step_keeps, (pure_step_normalize simple)
    | apply pure_step_emits, pure_step_collect_events
    | apply pure_step_keeps, pure_step_collect_events
    | apply emits_bind; [|intros ?]
    | apply keeps_bind; [|intros ?]
    | apply emits_try_except; [|intros ?]
    | apply keeps_try_except; [|intros ?]
    | match goal with
      | |- emits _ (if ?b then _ else _) => destruct b
      | |- keeps _ (if ?b then _ else _) => destruct b
      | |- emits _ (match ?x with _ => _ end) => destruct x
      | |- keeps _ (match ?x with _ => _ end) => destruct x
      end ].

(** ** The clients *)

Lemma called_then_printed {A} e (m : M A) s :
  emits is_printed m ->
  exists added,
    trace (snd (bind (emit e) (fun _ => m) s)) = trace s ++ e :: added
    /\ forallb is_printed added = true.
Proof.
  intros H.
  destruct (H (State (fs s) (ticks s) (stdin s) (trace s ++ [e])))
    as (d & E & F).
  exists d. split; [|exact F]. unfold bind, emit.
  rewrite E. cbn [trace]. now rewrite <- app_assoc.
Qed.

Lemma generate_utterances_events w agent intention s :
  exists added,
    trace (snd (main.generate_utterances w agent intention s))
    = trace s ++ Called_generate_utterances intention :: added
    /\ forallb is_printed added = true.
Proof. apply called_then_printed. effects. Qed.

Lemma generate_utterances_direct_api_events w intention s :
  exists added,
    trace (snd (main.generate_utterances_direct_api w intention s))
    = trace s ++ Called_generate_utterances_direct_api intention :: added
    /\ forallb is_printed added = true.
Proof. apply called_then_printed. effects. Qed.

Lemma generate_utterances_keeps_fs w agent intention :
  keeps fs (main.generate_utterances w agent intention).
Proof. unfold main.generate_utterances. effects. Qed.

Lemma generate_utterances_direct_api_keeps_fs w intention :
  keeps fs (main.generate_utterances_direct_api w intention).
Proof. unfold main.generate_utterances_direct_api. effects. Qed.

Lemma filter_none {A} (P : A -> bool) l :
  forallb (fun x => negb (P x)) l = true -> List.filter P l = [].
Proof.
  induction l as [|x l IH]; simpl; [reflexivity|].
  destruct (P x); simpl; [discriminate|exact IH].
Qed.

Lemma forallb_impl {A} (P Q : A -> bool) l :
  (forall x, P x = true -> Q x = true) -> forallb P l = true -> forallb Q l = true.
Proof.
  intros HPQ H. apply forallb_forall. intros x Hx. apply HPQ.
  now apply (proj1 (forallb_forall P l) H).
Qed.

Lemma printed_not_direct e : is_printed e = true -> not_direct_api_call e = true.
Proof. now destruct e. Qed.

Lemma printed_neither e : is_printed e = true -> neither_direct_api_nor_save e = true.
Proof. now destruct e. Qed.

Lemma emits_after_clients w intention utterances :
  emits not_direct_api_call (after_clients w intention utterances).
Proof.
  unfold after_clients.
  destruct utterances as [[|u l]|]; unfold main.save_to_csv; effects.
Qed.

Lemma after_clients_falsy w intention utterances :
  falsy utterances = true ->
  after_clients w intention utterances = print generation_failed.
Proof. destruct utterances as [[|x l]|]; [reflexivity|discriminate|reflexivity]. Qed.

(** C5.  When the primary client returns no usable result, [main] calls the
    fallback client exactly once, with the same intention; when the fallback
    returns no usable result either, the run ends with the failure message,
    printed after that one call, [save_to_csv] is not called and the file
    system is as it was. *)
Theorem fallback_once_then_failure
    (w : world) (agent : main.LlmAgent) (intention : pystr)
    (s s1 : state) (u : option (list pystr)) :
  main.generate_utterances w agent intention s = (Return u, s1) ->
  falsy u = true ->
  let retry := snd (print adk_failed s1) in
  let final := snd (main.main_from_agent w agent intention s) in
  (exists added,
      trace final = trace s ++ added
      /\ List.filter is_direct_api_call added
         = [Called_generate_utterances_direct_api intention])
  /\ (forall u' s2,
        main.generate_utterances_direct_api w intention retry = (Return u', s2) ->
        falsy u' = true ->
        main.main_from_agent w agent intention s
        = (Return tt, snd (print generation_failed s2))
        /\ (exists before between,
              trace final
              = trace s ++ before
                ++ Called_generate_utterances_direct_api intention
                   :: between ++ [Printed generation_failed]
              /\ forallb neither_direct_api_nor_save (before ++ between) = true)
        /\ fs final = fs s).
Proof.
  intros Hprimary Hfalsy retry final.
  destruct (generate_utterances_events w agent intention s) as (d1 & E1 & F1).
  rewrite Hprimary in E1. cbn [snd] in E1.
  destruct (generate_utterances_direct_api_events w intention retry)
    as (d2 & E2 & F2).
  pose proof (generate_utterances_keeps_fs w agent intention s) as K1.
  rewrite Hprimary in K1. cbn [snd] in K1.
  pose proof (generate_utterances_direct_api_keeps_fs w intention retry) as K2.
  assert (Hretry : trace retry = trace s1 ++ [Printed adk_failed]) by reflexivity.
  assert (Hrun : main.main_from_agent w agent intention s
          = match main.generate_utterances_direct_api w intention retry with
            | (Return a, s') => after_clients w intention a s'
            | (Raise e, s') => (Raise e, s')
            end).
  { unfold main.main_from_agent. unfold bind at 1. rewrite Hprimary.
    rewrite Hfalsy. reflexivity. }
  split.
  - subst final. rewrite Hrun.
    destruct (main.generate_utterances_direct_api w intention retry)
      as [[a|e] s2]; cbn [snd] in E2.
    + destruct (emits_after_clients w intention a s2) as (d3 & E3 & F3).
      exists ((Called_generate_utterances intention :: d1)
              ++ Printed adk_failed
                 :: Called_generate_utterances_direct_api intention :: d2 ++ d3).
      split.
      * rewrite E3, E2, Hretry, E1. now rewrite <- !app_assoc.
      * rewrite List.filter_app. simpl.
        rewrite List.filter_app, !filter_none;
          eauto using forallb_impl, printed_not_direct.
    + exists ((Called_generate_utterances intention :: d1)
              ++ Printed adk_failed
                 :: Called_generate_utterances_direct_api intention :: d2).
      split.
      * simpl. rewrite E2, Hretry, E1. now rewrite <- !app_assoc.
      * rewrite List.filter_app. simpl.
        rewrite !filter_none; eauto using forallb_impl, printed_not_direct.
  - intros u' s2 Hfallback Hfalsy'. subst final. rewrite Hrun.
    rewrite Hfallback in *. cbn [snd] in E2, K2.
    rewrite (after_clients_falsy _ _ _ Hfalsy').
    split; [reflexivity|]. split.
    + exists (Called_generate_utterances intention :: d1 ++ [Printed adk_failed]), d2.
      split.
      * cbn [print emit snd trace]. rewrite E2, Hretry, E1.
        simpl. rewrite <- !app_assoc. reflexivity.
      * rewrite forallb_app. simpl. rewrite forallb_app. simpl.
        rewrite (forallb_impl _ _ d1 printed_neither F1).
        now rewrite (forallb_impl _ _ d2 printed_neither F2).
    + cbn [print emit snd fs]. now rewrite K2, <- K1.
Qed.

Lemma fallback_once_then_failure_witness :
  (exists added,
      trace (snd (main.main_from_agent offline some_agent (py "greet") initial))
      = trace initial ++ added
      /\ List.filter is_direct_api_call added
         = [Called_generate_utterances_direct_api (py "greet")])
  /\ main.main_from_agent offline some_agent (py "greet") initial
     = (Return tt, snd (print generation_failed after_fallback))
  /\ fs (snd (main.main_from_agent offline some_agent (py "greet") initial))
     = fs initial.
Proof.
  destruct (fallback_once_then_failure offline some_agent (py "greet")
              initial after_primary None) as [Honce Hfail];
    [vm_compute; reflexivity | reflexivity |].
  destruct (Hfail None after_fallback) as (Hrun & _ & Hfs);
    [vm_compute; reflexivity | reflexivity |].
  split; [exact Honce|]. split; [exact Hrun|exact Hfs].
Defined.

Example failed_run_trace :
  trace (snd (main.main_from_agent offline some_agent (py "greet") initial))
  = [Called_generate_utterances (py "greet");
     Printed (py "Generating utterances using Gemini Flash...");
     Printed (py "Error generating utterances: no credentials");
     Printed adk_failed;
     Called_generate_utterances_direct_api (py "greet");
     Printed (py "Error with direct API: GOOGLE_API_KEY not found in environment variables");
     Printed generation_failed].
Proof. vm_compute. reflexivity. Qed.

(** The scenario of the specification: twelve clean lines for the intention
    [order a pizza] give one new file, with the header and the first ten
    lines, numbered, each with the intention. *)
Example order_a_pizza :
  fst pizza_run = Return tt
  /\ fs (snd pizza_run)
     = {[ py "utterance_outputs_20240305" :=
            Dir {[ py "utterances_20240305_120000.csv" :=
                     File [ fieldnames;
                            [py "1"; py "one"; py "order a pizza"];
                            [py "2"; py "two"; py "order a pizza"];
                            [py "3"; py "three"; py "order a pizza"];
                            [py "4"; py "four"; py "order a pizza"];
                            [py "5"; py "five"; py "order a pizza"];
                            [py "6"; py "six"; py "order a pizza"];
                            [py "7"; py "seven"; py "order a pizza"];
                            [py "8"; py "eight"; py "order a pizza"];
                            [py "9"; py "nine"; py "order a pizza"];
                            [py "10"; py "ten"; py "order a pizza"] ] ]} ]}
  /\ List.filter is_direct_api_call (trace (snd pizza_run)) = [].
Proof. vm_compute. repeat split; reflexivity. Qed.

(** ** Exceptions at the client boundary *)

Lemma ends_in_ret {A} (Q : A -> Prop) a : Q a -> ends_in Q (ret a).
Proof. now intros H s. Qed.

Lemma ends_in_raise {A} (Q : A -> Prop) e :
  is_Exception e = true -> ends_in Q (raise e).
Proof. now intros H s. Qed.

Lemma ends_in_lift {A} (o : outcome A) :
  value_or_error o -> ends_in (fun a => o = Return a) (lift o).
Proof. intros H s. simpl. now destruct o. Qed.

Lemma ends_in_print text : ends_in (fun _ => True) (print text).
Proof. now intros s. Qed.

Lemma ends_in_bind {A B} (R : A -> Prop) (Q : B -> Prop) (m : M A) (k : A -> M B) :
  ends_in R m -> (forall a, R a -> ends_in Q (k a)) -> ends_in Q (bind m k).
Proof.
  intros Hm Hk s. specialize (Hm s). unfold bind.
  destruct (m s) as [[a|e] s1]; simpl in *; [|exact Hm].
  apply (Hk a Hm s1).
Qed.

Lemma ends_in_pure {A} (Q : A -> Prop) (m : M A) :
  (forall s, exists a, m s = (Return a, s) /\ Q a) -> ends_in Q m.
Proof. intros H s. destruct (H s) as (a & -> & Ha). exact Ha. Qed.

Lemma ends_in_normalize c text intention :
  ends_in none_or_complete (normalize c text intention).
Proof.
  apply ends_in_pure. intros s. eexists. split; [apply normalize_eq|].
  destruct (accepts c text); simpl; [apply normal_form_length|exact I].
Qed.

Lemma ends_in_collect_parts parts acc :
  ends_in (fun _ => True) (main.collect_parts parts acc).
Proof.
  revert acc. induction parts as [|p parts IH]; intros acc; simpl.
  - now apply ends_in_ret.
  - destruct (part_text p); [apply IH|now apply ends_in_raise|apply IH].
Qed.

Lemma ends_in_collect_candidates cands acc :
  ends_in (fun _ => True) (main.collect_candidates cands acc).
Proof.
  revert acc. induction cands as [|c cands IH]; intros acc; simpl.
  - now apply ends_in_ret.
  - destruct (candidate_parts c); [|apply IH].
    eapply ends_in_bind; [apply ends_in_collect_parts|intros a _; apply IH].
Qed.

Lemma ends_in_collect_events events acc :
  ends_in (fun _ => True) (main.collect_events events acc).
Proof.
  revert acc. induction events as [|e events IH]; intros acc; simpl.
  - now apply ends_in_ret.
  - destruct (event_response e).
    + eapply ends_in_bind; [apply ends_in_collect_candidates|intros a _; apply IH].
    + destruct (event_text e); [apply IH|now apply ends_in_raise|apply IH].
Qed.

Lemma settles_try_except body handler :
  ends_in none_or_complete body ->
  (forall e, settles (handler e)) ->
  settles (try_except body is_Exception handler).
Proof.
  intros Hb Hh s. specialize (Hb s). unfold try_except.
  destruct (body s) as [[r|e] s1]; simpl in *; [eauto|].
  rewrite Hb. apply Hh.
Qed.

Lemma settles_after_emit e m : settles m -> settles (bind (emit e) (fun _ => m)).
Proof. intros H s. unfold bind, emit. apply H. Qed.

Lemma settles_print_none text : settles (bind (print text) (fun _ => ret None)).
Proof. intros s. eexists _, _. split; [reflexivity|exact I]. Qed.

Section clients.
Context (w : world) (Hw : fails_with_errors_only w).

Lemma generate_utterances_settles agent intention :
  settles (main.generate_utterances w agent intention).
Proof.
  destruct Hw as (_ & _ & _ & _ & _ & Hr & Hs & Hc & He).
  apply settles_after_emit, settles_try_except;
    [|intros e; apply settles_print_none].
  eapply ends_in_bind; [apply ends_in_print|intros _ _].
  eapply ends_in_bind; [apply ends_in_lift, Hr|intros _ _].
  eapply ends_in_bind; [apply ends_in_lift, Hs|intros _ _].
  eapply ends_in_bind; [apply ends_in_lift, Hc|intros _ _].
  eapply ends_in_bind; [apply ends_in_collect_events|intros text _].
  eapply ends_in_bind; [apply ends_in_lift, He|intros _ _].
  apply (ends_in_normalize adk).
Qed.

Lemma generate_utterances_direct_api_settles intention :
  settles (main.generate_utterances_direct_api w intention).
Proof.
  destruct Hw as (Hi & Hc & Hm & Hg & Ht & _).
  apply settles_after_emit, settles_try_except;
    [|intros e; apply settles_print_none].
  eapply ends_in_bind; [apply ends_in_lift, Hi|intros _ _].
  eapply ends_in_bind with (R := fun _ => True).
  { destruct (negb _); [now apply ends_in_raise|now apply ends_in_ret]. }
  intros _ _.
  eapply ends_in_bind; [apply ends_in_lift, Hc|intros _ _].
  eapply ends_in_bind; [apply ends_in_lift, Hm|intros _ _].
  eapply ends_in_bind; [apply ends_in_print|intros _ _].
  eapply ends_in_bind; [apply ends_in_lift, Hg|intros [r|] Hr].
  - eapply ends_in_bind; [apply ends_in_lift, (Ht r Hr)|intros text _].
    apply (ends_in_normalize direct_api).
  - now apply ends_in_ret.
Qed.

Lemma generate_utterances_simple_settles intention :
  settles (main_simple.generate_utterances_simple w intention).
Proof.
  destruct Hw as (Hi & Hc & Hm & Hg & Ht & _).
  apply settles_after_emit, settles_try_except;
    [|intros e; apply settles_print_none].
  eapply ends_in_bind; [apply ends_in_lift, Hi|intros _ _].
  destruct (negb _).
  - eapply ends_in_bind; [apply ends_in_print|intros _ _].
    eapply ends_in_bind; [apply ends_in_print|intros _ _].
    now apply ends_in_ret.
  - eapply ends_in_bind; [apply ends_in_print|intros _ _].
    eapply ends_in_bind; [apply ends_in_lift, Hc|intros _ _].
    eapply ends_in_bind; [apply ends_in_lift, Hm|intros _ _].
    eapply ends_in_bind; [apply ends_in_lift, Hg|intros [r|] Hr].
    + eapply ends_in_bind; [apply ends_in_lift, (Ht r Hr)|intros text _].
      apply (ends_in_normalize simple).
    + now apply ends_in_ret.
Qed.
End clients.




(** In [main], the interrupt is met by the clause for it. *)
Example interrupt_reaches_main :
  main.main interrupted (State ∅ 0 [Return (py "greet")] [])
  = (Return tt,
     State ∅ 0 []
       [Printed (py "Hello! " ++ [128075] ++ py " Welcome to the Utterance Generator.");
        Printed (py "Please enter an intention: ");
        Called_generate_utterances (py "greet");
        Printed (py "Generating utterances using Gemini Flash...");
        Printed ([10; 10] ++ py "Operation cancelled by user.")]).
Proof. vm_compute. reflexivity. Qed.

(** ** Saving *)

Lemma fixed_digits_length width n : length (fixed_digits width n) = width.
Proof.
  revert n. induction width as [|width IH]; intros n; simpl; [reflexivity|].
  rewrite length_app, IH. simpl. lia.
Qed.

Lemma strftime_Ymd_length t : length (strftime_Ymd t) = 8%nat.
Proof. unfold strftime_Ymd. now rewrite !length_app, !fixed_digits_length. Qed.

Lemma csv_path_inj t1 d1 t2 d2 :
  csv_path t1 d1 = csv_path t2 d2
  <-> strftime_Ymd_HMS t1 = strftime_Ymd_HMS t2 /\ strftime_Ymd d1 = strftime_Ymd d2.
Proof.
  unfold csv_path, path_join. split.
  - intros H. rewrite <- !app_assoc in H. apply app_inv_head in H.
    apply app_inj_1 in H as [Hd H]; [|now rewrite !strftime_Ymd_length].
    apply (app_inv_head [47]) in H. apply (app_inv_head (py "utterances_")) in H.
    apply app_inv_tail in H. now split.
  - now intros [-> ->].
Qed.

Lemma same_second_strftime t1 t2 :
  same_second t1 t2 ->
  strftime_Ymd_HMS t1 = strftime_Ymd_HMS t2 /\ strftime_Ymd t1 = strftime_Ymd t2.
Proof.
  intros (Hy & Hm & Hd & Hh & Hmi & Hs).
  unfold strftime_Ymd_HMS, strftime_Ymd.
  now rewrite Hy, Hm, Hd, Hh, Hmi, Hs.
Qed.

Lemma alter_lookup_insert {A} (f : A -> A) (m : gmap pystr A) k x :
  m !! k = Some x -> alter f k m = <[k := f x]> m.
Proof.
  intros H. apply map_eq. intros j. destruct (decide (j = k)) as [->|Hne].
  - now rewrite lookup_alter_eq, lookup_insert_eq, H.
  - now rewrite lookup_alter_ne, lookup_insert_ne by congruence.
Qed.

Lemma written_cons row rows :
  written (row :: rows) = if row_ok row then row :: written rows else [].
Proof. reflexivity. Qed.

Lemma encode_failure_cons row rows :
  encode_failure (row :: rows)
  = if row_ok row then encode_failure rows
    else Some (Exn UnicodeEncodeError (utf8_error_text (csv_line row))).
Proof. unfold encode_failure. rewrite written_cons. now destruct (row_ok row). Qed.

Lemma encode_failure_is_Exception rows e :
  encode_failure rows = Some e -> is_Exception e = true.
Proof.
  unfold encode_failure. destruct (drop _ rows); [discriminate|].
  now intros [= <-].
Qed.

Lemma encode_failure_none rows :
  encode_failure rows = None <-> forallb row_ok rows = true.
Proof.
  induction rows as [|row rows IH]; [easy|].
  rewrite encode_failure_cons. simpl. destruct (row_ok row); simpl; [exact IH|easy].
Qed.

Lemma written_all rows : forallb row_ok rows = true -> written rows = rows.
Proof.
  induction rows as [|row rows IH]; [easy|]. simpl. rewrite written_cons.
  destruct (row_ok row); simpl; [|discriminate]. intros H. now rewrite IH.
Qed.

(** A file that was opened, with [rows] written after [data]. *)
Lemma with_rows_holding rows data f :
  file_data f = Some data ->
  foldl (fun n row => with_row row n) f rows = holding (data ++ rows) f.
Proof.
  revert data f. induction rows as [|row rows IH]; intros data f Hf; simpl.
  - rewrite app_nil_r. destruct f; try discriminate; now injection Hf as ->.
  - rewrite (IH (data ++ [row])).
    + rewrite <- app_assoc. now destruct f.
    + destruct f; try discriminate; now injection Hf as ->.
Qed.

Lemma in_dir_entries g folder entries :
  dir_entries folder = Some entries ->
  dir_entries (in_dir g folder) = Some (g entries).
Proof. destruct folder; try discriminate; now intros [= ->]. Qed.

Lemma in_dir_twice (name : pystr) (x y : node) (entries b : filesystem) folder :
  in_dir (fun _ => <[name := x]> (<[name := y]> entries)) (in_dir (fun _ => b) folder)
  = in_dir (fun _ => <[name := x]> entries) folder.
Proof. destruct folder; cbn [in_dir]; rewrite ?insert_insert_eq; reflexivity. Qed.

Lemma in_dir_const g folder entries :
  dir_entries folder = Some entries ->
  in_dir g folder = in_dir (fun _ => g entries) folder.
Proof. destruct folder; try discriminate; now intros [= ->]. Qed.

Lemma in_dir_id folder entries :
  dir_entries folder = Some entries -> in_dir (fun _ => entries) folder = folder.
Proof. destruct folder; try discriminate; now intros [= ->]. Qed.

(** The writing loop on a file that is open. *)
Lemma writerows_run dir name rows s folder entries f :
  fs s !! dir = Some folder ->
  dir_entries folder = Some entries ->
  entries !! name = Some f ->
  writerows dir name rows s
  = (match encode_failure rows with None => Return tt | Some e => Raise e end,
     State (<[dir := in_dir (fun _ => <[name := foldl (fun n row => with_row row n) f
                                                   (written rows)]> entries) folder]>
              (fs s))
           (ticks s) (stdin s) (trace s)).
Proof.
  revert s folder entries f.
  induction rows as [|row rows IH]; intros s folder entries f Hdir Hentries Hfile.
  - cbn [writerows]. unfold ret.
    change (encode_failure []) with (@None exn).
    change (written []) with (@nil (list pystr)). cbn [foldl].
    rewrite (insert_id entries name f Hfile), (in_dir_id folder entries Hentries).
    rewrite (insert_id _ _ _ Hdir). now destruct s.
  - cbn [writerows]. unfold bind at 1, writerow.
    rewrite encode_failure_cons, written_cons. fold (row_ok row).
    destruct (row_ok row) eqn:Hrow.
    + rewrite (alter_lookup_insert _ _ _ _ Hdir).
      rewrite (in_dir_const (alter (with_row row) name) _ _ Hentries).
      rewrite (alter_lookup_insert _ _ _ _ Hfile).
      rewrite (IH _ (in_dir (fun _ => <[name := with_row row f]> entries) folder)
                 (<[name := with_row row f]> entries) (with_row row f));
        cbn [fs ticks stdin trace].
      * rewrite (insert_insert_eq (fs s) dir), in_dir_twice. reflexivity.
      * apply lookup_insert_eq.
      * exact (in_dir_entries (fun _ => _) folder entries Hentries).
      * apply lookup_insert_eq.
    + cbn [foldl].
      rewrite (insert_id entries name f Hfile), (in_dir_id folder entries Hentries).
      rewrite (insert_id _ _ _ Hdir). now destruct s.
Qed.

Lemma opened_file_data entry opened :
  opened_for_writing entry = Some opened -> file_data opened = Some [].
Proof.
  destruct entry as [[data|entries|data|entries|[c|]]|]; simpl;
    intros [= <-]; reflexivity.
Qed.

(** Opening the file and writing [rows] to it. *)
Lemma open_and_write_run dir name rows s :
  bind (open_w dir name) (fun _ => writerows dir name rows) s
  = match fs s !! dir with
    | Some folder =>
        match dir_entries folder with
        | Some entries =>
            match opened_for_writing (entries !! name) with
            | Some opened =>
                (match encode_failure rows with
                 | None => Return tt
                 | Some e => Raise e
                 end,
                 State (<[dir := in_dir (fun _ => <[name := holding (written rows) opened]>
                                                    entries) folder]> (fs s))
                       (ticks s) (stdin s) (trace s))
            | None => (Raise (open_refused (entries !! name) (path_join dir name)), s)
            end
        | None =>
            (Raise (match folder with
                    | DanglingLink on_create => unresolved on_create (path_join dir name)
                    | _ => oserror 20 "Not a directory" (path_join dir name)
                    end), s)
        end
    | None => (Raise (oserror 2 "No such file or directory" (path_join dir name)), s)
    end.
Proof.
  unfold bind, open_w.
  destruct (fs s !! dir) as [folder|] eqn:Hdir; [|reflexivity].
  destruct folder as [data|entries|data|entries|on_create]; cbn [dir_entries];
    try reflexivity;
    (destruct (opened_for_writing (entries !! name)) as [opened|] eqn:Hopen;
     [|reflexivity]);
    cbn [in_dir].
  - rewrite (writerows_run dir name rows _ (Dir (<[name := opened]> entries))
               (<[name := opened]> entries) opened);
      try apply lookup_insert_eq; try reflexivity.
    cbn [fs ticks stdin trace in_dir].
    rewrite (insert_insert_eq (fs s) dir),
      (with_rows_holding _ [] _ (opened_file_data _ _ Hopen)).
    cbn [app]. rewrite insert_insert_eq. reflexivity.
  - rewrite (writerows_run dir name rows _ (LinkToDir (<[name := opened]> entries))
               (<[name := opened]> entries) opened);
      try apply lookup_insert_eq; try reflexivity.
    cbn [fs ticks stdin trace in_dir].
    rewrite (insert_insert_eq (fs s) dir),
      (with_rows_holding _ [] _ (opened_file_data _ _ Hopen)).
    cbn [app]. rewrite insert_insert_eq. reflexivity.
Qed.

Lemma open_write_then {A} dir name header rows (k : M A) s :
  bind (open_w dir name)
    (fun _ => bind (writerow dir name header)
                (fun _ => bind (writerows dir name rows) (fun _ => k))) s
  = bind (bind (open_w dir name) (fun _ => writerows dir name (header :: rows)))
      (fun _ => k) s.
Proof.
  cbn [writerows]. unfold bind.
  destruct (open_w dir name s) as [[[]|e] s1]; [|reflexivity].
  destruct (writerow dir name header s1) as [[[]|e] s2]; [|reflexivity].
  now destruct (writerows dir name rows s2) as [[[]|e] s3].
Qed.

Lemma path_blocked_saved files t t' data :
  path_blocked files t t' = true <-> saved files t t' data = None.
Proof.
  unfold path_blocked, saved.
  destruct (files !! _) as [folder|]; [|easy].
  destruct (dir_entries folder) as [entries|]; [|easy].
  now destruct (opened_for_writing _).
Qed.

Lemma encode_failure_header rows :
  encode_failure (fieldnames :: rows) = encode_failure rows.
Proof. now rewrite encode_failure_cons. Qed.

Lemma written_header rows : written (fieldnames :: rows) = fieldnames :: written rows.
Proof. now rewrite written_cons. Qed.

Lemma unresolved_is_Exception on_create path :
  is_Exception (unresolved on_create path) = true.
Proof. now destruct on_create as [[errno what]|]. Qed.

Lemma open_refused_is_Exception entry path :
  is_Exception (open_refused entry path) = true.
Proof.
  destruct entry as [[data|entries|data|entries|on_create]|]; try reflexivity.
  apply unresolved_is_Exception.
Qed.

Ltac save_ends :=
  unfold bind, print, emit, ret;
  cbn [fs ticks stdin trace orb negb default in_dir];
  eexists; split; [rewrite <- ?app_assoc; reflexivity|];
  split; [reflexivity|];
  split; [first [discriminate | intros _; eexists; reflexivity]
         |first [discriminate | intros _; reflexivity]].

Ltac save_writes Hdir Hrows :=
  rewrite open_write_then; unfold bind at 1;
  rewrite open_and_write_run; cbn [fs];
  rewrite ?lookup_insert_eq, ?Hdir; cbn [dir_entries];
  rewrite ?lookup_empty; cbn [opened_for_writing];
  match goal with
  | |- context [opened_for_writing ?x] =>
      destruct (opened_for_writing x) as [opened|] eqn:Hopen
  | _ => idtac
  end;
  try (rewrite encode_failure_header, written_header;
       match goal with
       | |- context [encode_failure ?rows] =>
           destruct (encode_failure rows) as [e|] eqn:Hfail;
           [ rewrite (encode_failure_is_Exception _ _ Hfail);
             assert (Hbad : forallb row_ok rows = false)
               by (destruct (forallb row_ok rows); [|reflexivity];
                   destruct Hrows as [_ Hr]; discriminate (Hr eq_refl));
             rewrite Hbad
           | rewrite (proj1 Hrows eq_refl) ]
       end);
  rewrite ?insert_insert_eq, ?insert_empty;
  rewrite ?open_refused_is_Exception, ?unresolved_is_Exception;
  unfold oserror; cbn [is_Exception exn_cls exn_msg];
  save_ends.

Ltac save_run w s utterances intention :=
  unfold bind at 1, emit at 1, try_except;
  unfold bind at 1, now at 1; unfold bind at 1, now at 1;
  unfold bind at 1, path_exists at 1; cbn [fs ticks stdin trace];
  set (dir := py "utterance_outputs_" ++ strftime_Ymd (clock w (S (ticks s))));
  set (file := py "utterances_" ++ strftime_Ymd_HMS (clock w (ticks s)) ++ py ".csv");
  set (rows := csv_data_from 1 utterances intention);
  pose proof (encode_failure_none rows) as Hrows;
  destruct (fs s !! dir) as [[data|entries|data|entries|on_create]|] eqn:Hdir;
    cbn [negb dir_entries]; unfold bind at 1;
  [ unfold ret at 1; save_writes Hdir Hrows
  | unfold ret at 1; save_writes Hdir Hrows
  | unfold ret at 1; save_writes Hdir Hrows
  | unfold ret at 1; save_writes Hdir Hrows
  | unfold bind at 1, makedirs at 1; cbn [fs]; rewrite Hdir;
    unfold oserror; cbn [is_Exception exn_cls exn_msg]; save_ends
  | unfold bind at 1, makedirs at 1; cbn [fs]; rewrite Hdir;
    unfold print at 1, emit at 1; cbn [fs ticks stdin trace];
    save_writes Hdir Hrows ].

(** The whole of a call of [save_to_csv]. *)
Lemma save_to_csv_run p w utterances intention s :
  exists added,
    save_to_csv p w utterances intention s
    = (Return (if path_blocked (fs s) (clock w (ticks s)) (clock w (S (ticks s)))
                  || negb (forallb row_ok (csv_data_from 1 utterances intention))
               then None
               else Some (csv_path (clock w (ticks s)) (clock w (S (ticks s))))),
       State (default (fs s)
                (saved (fs s) (clock w (ticks s)) (clock w (S (ticks s)))
                   (fieldnames :: written (csv_data_from 1 utterances intention))))
             (S (S (ticks s))) (stdin s)
             (trace s ++ Called_save_to_csv utterances intention :: added))
    /\ forallb is_printed added = true
    /\ (path_blocked (fs s) (clock w (ticks s)) (clock w (S (ticks s)))
        || negb (forallb row_ok (csv_data_from 1 utterances intention)) = true ->
        exists reason,
          last added = Some (Printed (py "Error saving to CSV: " ++ reason)))
    /\ (path_blocked (fs s) (clock w (ticks s)) (clock w (S (ticks s)))
        || negb (forallb row_ok (csv_data_from 1 utterances intention)) = false ->
        last added
        = Some (Printed (done_message p
                  (csv_path (clock w (ticks s)) (clock w (S (ticks s))))))).
Proof.
  destruct p; simpl save_to_csv;
    unfold main.save_to_csv, main_simple.save_to_csv, path_blocked, saved, csv_path,
      done_message;
    save_run w s utterances intention.
Qed.

Lemma holding_data data opened entry :
  opened_for_writing entry = Some opened -> file_data (holding data opened) = Some data.
Proof.
  destruct entry as [[old|entries|old|entries|[c|]]|]; simpl;
    intros [= <-]; reflexivity.
Qed.

Lemma csv_at_saved files t t' data files' :
  saved files t t' data = Some files' -> csv_at files' t t' = Some data.
Proof.
  unfold saved, csv_at.
  set (dir := py "utterance_outputs_" ++ strftime_Ymd t').
  set (file := py "utterances_" ++ strftime_Ymd_HMS t ++ py ".csv").
  destruct (files !! dir) as [folder|] eqn:Hdir.
  - destruct (dir_entries folder) as [entries|] eqn:Hentries; [|discriminate].
    destruct (opened_for_writing (entries !! file)) as [opened|] eqn:Hopen;
      [|discriminate].
    intros [= <-]. rewrite lookup_insert_eq. cbn [mbind option_bind].
    rewrite (in_dir_entries (fun _ => _) folder entries Hentries).
    rewrite lookup_insert_eq. cbn [mbind option_bind].
    apply (holding_data _ _ _ Hopen).
  - intros [= <-]. rewrite lookup_insert_eq. cbn [mbind option_bind dir_entries].
    rewrite lookup_singleton_eq. reflexivity.
Qed.

(** A successful [save_to_csv] returns the path of its two readings, and
    leaves its rows in the file of that path. *)
Lemma save_to_csv_returns p w utterances intention s path s' :
  save_to_csv p w utterances intention s = (Return (Some path), s') ->
  path = csv_path (clock w (ticks s)) (clock w (S (ticks s)))
  /\ csv_at (fs s') (clock w (ticks s)) (clock w (S (ticks s)))
     = Some (fieldnames :: csv_data_from 1 utterances intention).
Proof.
  destruct (save_to_csv_run p w utterances intention s) as (added & E & _).
  rewrite E. clear E.
  destruct (path_blocked _ _ _) eqn:Hb; [discriminate|].
  destruct (forallb row_ok _) eqn:Hall; [|discriminate].
  cbn [orb negb]. intros [= <- <-]. split; [reflexivity|]. cbn [fs].
  rewrite (written_all _ Hall).
  destruct (saved (fs s) _ _ _) as [files'|] eqn:Hsaved.
  - now apply csv_at_saved in Hsaved.
  - apply path_blocked_saved in Hsaved. congruence.
Qed.

(** C8, as stated, fails: two calls within one second build the same path,
    and the second call replaces the file of the first. *)
Lemma same_second_collision :
  fst first_save
  = Return (Some (py "utterance_outputs_20240305/utterances_20240305_120000.csv"))
  /\ fst second_save = fst first_save
  /\ csv_at (fs (snd first_save)) (noon 0) (noon 1)
     = Some [fieldnames; [py "1"; py "hello"; py "greet"]]
  /\ csv_at (fs (snd second_save)) (noon 0) (noon 1)
     = Some [fieldnames; [py "1"; py "good day"; py "greet"]].
Proof. vm_compute. repeat split; reflexivity. Qed.

(** C8, amended.  Two successive successful calls of [save_to_csv] return
    the same path exactly when their clock readings print alike to the
    second ([%Y%m%d_%H%M%S], and [%Y%m%d] for the folder), in particular when
    they fall within one second; the second call then replaces the rows the
    first one wrote.  Readings that print differently give distinct paths. *)
Theorem save_paths_by_second
    (p : script) (w : world) (utterances1 utterances2 : list pystr)
    (intention1 intention2 path1 path2 : pystr) (s s1 s2 : state) :
  save_to_csv p w utterances1 intention1 s = (Return (Some path1), s1) ->
  save_to_csv p w utterances2 intention2 s1 = (Return (Some path2), s2) ->
  let t1 := clock w (ticks s) in
  let d1 := clock w (S (ticks s)) in
  let t2 := clock w (ticks s1) in
  let d2 := clock w (S (ticks s1)) in
  (path1 = path2
   <-> strftime_Ymd_HMS t1 = strftime_Ymd_HMS t2 /\ strftime_Ymd d1 = strftime_Ymd d2)
  /\ (same_second t1 t2 -> same_second d1 d2 -> path1 = path2)
  /\ csv_at (fs s1) t1 d1 = Some (fieldnames :: csv_data_from 1 utterances1 intention1)
  /\ (path1 = path2 ->
      csv_at (fs s2) t1 d1 = Some (fieldnames :: csv_data_from 1 utterances2 intention2)).
Proof.
  intros H1 H2 t1 d1 t2 d2.
  apply save_to_csv_returns in H1 as [-> Hfile1].
  apply save_to_csv_returns in H2 as [-> Hfile2].
  fold t1 d1 in Hfile1 |- *. fold t2 d2 in Hfile2 |- *.
  assert (Hiff := csv_path_inj t1 d1 t2 d2).
  split; [exact Hiff|]. split; [|split; [exact Hfile1|]].
  - intros Ht Hd. apply Hiff. split.
    + apply (same_second_strftime _ _ Ht).
    + apply (same_second_strftime _ _ Hd).
  - intros Heq. apply Hiff in Heq as [Et Ed].
    unfold csv_at in *. now rewrite Et, Ed.
Qed.

Lemma save_paths_by_second_witness :
  csv_at (fs (snd second_save)) (noon 0) (noon 1)
  = Some (fieldnames :: csv_data_from 1 [py "good day"] (py "greet")).
Proof.
  refine (proj2 (proj2 (proj2
    (save_paths_by_second main_py offline [py "hello"] [py "good day"]
       (py "greet") (py "greet")
       (py "utterance_outputs_20240305/utterances_20240305_120000.csv")
       (py "utterance_outputs_20240305/utterances_20240305_120000.csv")
       initial (snd first_save) (snd second_save) _ _))) eq_refl);
    vm_compute; reflexivity.
Defined.

(** ** Housekeeping *)

Lemma collect_folders_eq files items acc :
  manage_outputs.collect_folders files items acc
  = acc ++ List.filter (output_folder files) items.
Proof.
  revert acc. induction items as [|item rest IH]; intros acc; simpl.
  - now rewrite app_nil_r.
  - unfold output_folder at 1.
    destruct (isdir files item && startswith item manage_outputs.output_prefix);
      rewrite IH; [now rewrite <- app_assoc|reflexivity].
Qed.

Lemma list_output_folders_eq s :
  manage_outputs.list_output_folders s = (Return (folders_of (fs s)), s).
Proof. reflexivity. Qed.

Lemma elem_of_list_filter {A} (p : A -> bool) l x :
  x ∈ List.filter p l <-> x ∈ l /\ p x = true.
Proof. rewrite !list_elem_of_In. apply filter_In. Qed.

Lemma NoDup_list_filter {A} (p : A -> bool) l : NoDup l -> NoDup (List.filter p l).
Proof.
  induction 1 as [|x l Hx Hl IH]; simpl; [constructor|].
  destruct (p x); [|exact IH].
  constructor; [|exact IH]. rewrite elem_of_list_filter. tauto.
Qed.

Lemma elem_of_folders_of files name :
  name ∈ folders_of files <-> output_folder files name = true.
Proof.
  unfold folders_of, manage_outputs.sorted.
  rewrite merge_sort_Permutation, collect_folders_eq. simpl.
  rewrite elem_of_list_filter. split; [tauto|].
  intros H. split; [|exact H].
  unfold output_folder, isdir in H. apply andb_prop in H as [H _].
  destruct (files !! name) as [nd|] eqn:Hname; [|discriminate].
  unfold listdir. apply list_elem_of_fmap. exists (name, nd).
  split; [reflexivity|]. now apply elem_of_map_to_list.
Qed.

Lemma NoDup_folders_of files : NoDup (folders_of files).
Proof.
  unfold folders_of, manage_outputs.sorted.
  rewrite merge_sort_Permutation, collect_folders_eq. simpl.
  apply NoDup_list_filter, NoDup_fst_map_to_list.
Qed.

Lemma older_than_embedded w cutoff_date name :
  older_than w cutoff_date name = true ->
  exists t, embedded_date w name = Some t /\ datetime_ltb t cutoff_date = true.
Proof. unfold older_than. destruct (embedded_date w name); [eauto|discriminate]. Qed.

Lemma reached_cons w cutoff_date files folder rest :
  reached w cutoff_date files (folder :: rest)
  = if stuck w cutoff_date files folder then []
    else folder :: reached w cutoff_date files rest.
Proof. unfold reached. simpl. now destruct (stuck w cutoff_date files folder). Qed.

Lemma reached_ext w cutoff_date files files' folders :
  (forall f, f ∈ folders -> islink files' f = islink files f) ->
  reached w cutoff_date files' folders = reached w cutoff_date files folders.
Proof.
  induction folders as [|folder rest IH]; intros H; [reflexivity|].
  rewrite !reached_cons.
  replace (stuck w cutoff_date files' folder) with (stuck w cutoff_date files folder)
    by (unfold stuck; now rewrite (H folder) by left).
  rewrite IH; [reflexivity|]. intros f Hf. apply H. now right.
Qed.

Lemma reached_all w cutoff_date files folders :
  forallb (fun f => negb (stuck w cutoff_date files f)) folders = true ->
  reached w cutoff_date files folders = folders.
Proof.
  induction folders as [|folder rest IH]; [reflexivity|]. simpl.
  rewrite reached_cons. destruct (stuck w cutoff_date files folder); [discriminate|].
  simpl. intros H. now rewrite IH.
Qed.

Lemma unstuck_ext w cutoff_date files files' folders :
  (forall f, f ∈ folders -> islink files' f = islink files f) ->
  forallb (fun f => negb (stuck w cutoff_date files' f)) folders
  = forallb (fun f => negb (stuck w cutoff_date files f)) folders.
Proof.
  induction folders as [|folder rest IH]; intros H; [reflexivity|]. simpl.
  replace (stuck w cutoff_date files' folder) with (stuck w cutoff_date files folder)
    by (unfold stuck; now rewrite (H folder) by left).
  rewrite IH; [reflexivity|]. intros f Hf. apply H. now right.
Qed.

Lemma islink_delete files name f : f <> name -> islink (delete name files) f = islink files f.
Proof. intros H. unfold islink. now rewrite lookup_delete_ne by congruence. Qed.

Lemma isdir_delete files name f : f <> name -> isdir (delete name files) f = isdir files f.
Proof. intros H. unfold isdir. now rewrite lookup_delete_ne by congruence. Qed.

Lemma rmtree_dir name entries s :
  fs s !! name = Some (Dir entries) ->
  rmtree name s = (Return tt, State (delete name (fs s)) (ticks s) (stdin s) (trace s)).
Proof. intros H. unfold rmtree. now rewrite H. Qed.

Lemma rmtree_link name entries s :
  fs s !! name = Some (LinkToDir entries) -> rmtree name s = (Raise symlink_refused, s).
Proof. intros H. unfold rmtree. now rewrite H. Qed.

Lemma isdir_cases files name :
  isdir files name = true ->
  (exists entries, files !! name = Some (Dir entries) /\ islink files name = false)
  \/ (exists entries, files !! name = Some (LinkToDir entries) /\ islink files name = true).
Proof.
  unfold isdir, islink. destruct (files !! name) as [[]|]; try discriminate; eauto.
Qed.

Lemma elem_of_reached_cons name folder (l : list pystr) :
  bool_decide (name ∈ folder :: l)
  = bool_decide (name = folder) || bool_decide (name ∈ l).
Proof.
  destruct (decide (name = folder)) as [->|Hne].
  - rewrite (bool_decide_eq_true_2 (folder ∈ folder :: l)) by left.
    now rewrite (bool_decide_eq_true_2 (folder = folder)) by reflexivity.
  - rewrite (bool_decide_eq_false_2 (name = folder)) by exact Hne.
    apply bool_decide_ext. rewrite elem_of_cons. tauto.
Qed.

(** What the loop of [clean_old_folders] does on a list of distinct
    directories: it removes the old ones and reports, until it meets one
    that is a symbolic link. *)
Lemma clean_loop_run w cutoff_date folders cleaned s :
  NoDup folders ->
  (forall f, f ∈ folders -> isdir (fs s) f = true) ->
  exists s',
    manage_outputs.clean_loop w cutoff_date folders cleaned s
    = (if forallb (fun f => negb (stuck w cutoff_date (fs s) f)) folders
       then Return (cleaned ++ List.filter (older_than w cutoff_date) folders)
       else Raise symlink_refused, s')
    /\ (forall name,
          fs s' !! name
          = if bool_decide (name ∈ reached w cutoff_date (fs s) folders)
               && older_than w cutoff_date name
            then None else fs s !! name)
    /\ ticks s' = ticks s /\ stdin s' = stdin s
    /\ trace s'
       = trace s ++ omap (cleaning_line w cutoff_date)
                      (reached w cutoff_date (fs s) folders).
Proof.
  revert cleaned s. induction folders as [|folder rest IH]; intros cleaned s Hnd Hdirs.
  - exists s. simpl. rewrite !app_nil_r. repeat split; reflexivity.
  - apply NoDup_cons in Hnd as [Hfresh Hnd].
    assert (Hrest : forall f, f ∈ rest -> isdir (fs s) f = true)
      by (intros f Hf; apply Hdirs; now right).
    rewrite reached_cons.
    cbn [manage_outputs.clean_loop List.filter forallb].
    unfold bind at 1, try_except, manage_outputs.strptime.
    change (strptime_Ymd w (str_replace manage_outputs.output_prefix [] folder))
      with (embedded_date w folder).
    destruct (embedded_date w folder) as [t|] eqn:Hdate.
    + unfold bind at 1, ret at 1.
      destruct (datetime_ltb t cutoff_date) eqn:Hold.
      * assert (Holder : older_than w cutoff_date folder = true)
          by (unfold older_than; now rewrite Hdate).
        assert (Hline : cleaning_line w cutoff_date folder
                        = Some (Printed ([128465; 65039]
                                         ++ py "  Cleaned old folder: " ++ folder)))
          by (unfold cleaning_line; now rewrite Hdate, Hold).
        rewrite Holder.
        destruct (isdir_cases (fs s) folder (Hdirs folder ltac:(left)))
          as [(entries & Hfolder & Hlink)|(entries & Hfolder & Hlink)];
          (assert (Hstuck : stuck w cutoff_date (fs s) folder = islink (fs s) folder)
             by (unfold stuck; now rewrite Holder));
          rewrite Hstuck, Hlink; cbn [andb negb].
        -- unfold bind at 1. rewrite (rmtree_dir _ _ _ Hfolder).
           unfold bind at 1, print, emit, ret. cbn [fs ticks stdin trace].
           match goal with |- context [manage_outputs.clean_loop _ _ _ _ ?s1] =>
             destruct (IH (cleaned ++ [folder]) s1 Hnd)
               as (s' & E & Hfs & Ht & Hi & Htr)
           end.
           { intros f Hf. cbn [fs]. rewrite isdir_delete by (intros ->; contradiction).
             now apply Hrest. }
           cbn [fs ticks stdin trace] in *.
           assert (Hlinks : forall f, f ∈ rest ->
                     islink (delete folder (fs s)) f = islink (fs s) f)
             by (intros f Hf; apply islink_delete; intros ->; contradiction).
           rewrite (unstuck_ext _ _ _ _ _ Hlinks) in E.
           rewrite (reached_ext _ _ _ _ _ Hlinks) in Hfs, Htr.
           exists s'. rewrite E, <- app_assoc. split; [reflexivity|].
           split; [|split; [exact Ht|split; [exact Hi|]]].
           ++ intros name. rewrite Hfs, elem_of_reached_cons.
              destruct (decide (name = folder)) as [->|Hne].
              ** rewrite (bool_decide_eq_true_2 (folder = folder)) by reflexivity.
                 rewrite Holder.
                 cbn [orb andb].
                 destruct (_ && _); [reflexivity|apply lookup_delete_eq].
              ** rewrite (bool_decide_eq_false_2 (name = folder)) by exact Hne.
                 rewrite lookup_delete_ne by congruence. reflexivity.
           ++ rewrite Htr, omap_cons, Hline, <- app_assoc. reflexivity.
        -- unfold bind at 1. rewrite (rmtree_link _ _ _ Hfolder).
           cbn [is_ValueError exn_cls symlink_refused].
           exists s. split; [reflexivity|].
           split; [intros name; reflexivity|].
           split; [reflexivity|split; [reflexivity|]].
           simpl. now rewrite app_nil_r.
      * assert (Holder : older_than w cutoff_date folder = false)
          by (unfold older_than; now rewrite Hdate).
        assert (Hline : cleaning_line w cutoff_date folder = None)
          by (unfold cleaning_line; now rewrite Hdate, Hold).
        rewrite Holder.
        assert (Hstuck : stuck w cutoff_date (fs s) folder = false)
        by (unfold stuck; now rewrite Holder).
      rewrite Hstuck. cbn [andb negb]. unfold ret at 1.
        destruct (IH cleaned s Hnd Hrest) as (s' & E & Hfs & Ht & Hi & Htr).
        exists s'. rewrite E. split; [reflexivity|].
        split; [|split; [exact Ht|split; [exact Hi|]]].
        -- intros name. rewrite Hfs, elem_of_reached_cons.
           destruct (decide (name = folder)) as [->|Hne].
           ++ rewrite Holder, !andb_false_r. reflexivity.
           ++ rewrite (bool_decide_eq_false_2 (name = folder)) by exact Hne. reflexivity.
        -- rewrite Htr, omap_cons, Hline. reflexivity.
    + assert (Holder : older_than w cutoff_date folder = false)
        by (unfold older_than; now rewrite Hdate).
      assert (Hline : cleaning_line w cutoff_date folder = Some (skip_warning folder))
        by (unfold cleaning_line; now rewrite Hdate).
      rewrite Holder.
      assert (Hstuck : stuck w cutoff_date (fs s) folder = false)
        by (unfold stuck; now rewrite Holder).
      rewrite Hstuck. cbn [andb negb].
      unfold raise at 1, bind at 1. cbn [is_ValueError exn_cls].
      unfold bind at 1, print, emit, ret. cbn [fs ticks stdin trace].
      match goal with |- context [manage_outputs.clean_loop _ _ _ _ ?s1] =>
        destruct (IH cleaned s1 Hnd Hrest) as (s' & E & Hfs & Ht & Hi & Htr)
      end.
      cbn [fs ticks stdin trace] in *.
      exists s'. rewrite E. split; [reflexivity|].
      split; [|split; [exact Ht|split; [exact Hi|]]].
      * intros name. rewrite Hfs, elem_of_reached_cons.
        destruct (decide (name = folder)) as [->|Hne].
        -- rewrite Holder, !andb_false_r. reflexivity.
        -- rewrite (bool_decide_eq_false_2 (name = folder)) by exact Hne. reflexivity.
      * rewrite Htr, omap_cons, Hline, <- app_assoc. reflexivity.
Qed.

Lemma folders_of_isdir files f : f ∈ folders_of files -> isdir files f = true.
Proof.
  intros Hf. apply elem_of_folders_of in Hf.
  unfold output_folder in Hf. now apply andb_prop in Hf as [H _].
Qed.

(** What [clean_old_folders] does once the cut-off date exists. *)
Lemma clean_old_folders_does w days_old s cutoff_date :
  minus_days (clock w (ticks s)) (default 7%Z days_old) = Return cutoff_date ->
  exists s',
    manage_outputs.clean_old_folders w days_old s
    = (if forallb (fun f => negb (stuck w cutoff_date (fs s) f)) (folders_of (fs s))
       then Return (List.filter (older_than w cutoff_date) (folders_of (fs s)))
       else Raise symlink_refused, s')
    /\ (forall name,
          fs s' !! name
          = if bool_decide (name ∈ reached w cutoff_date (fs s) (folders_of (fs s)))
               && older_than w cutoff_date name
            then None else fs s !! name)
    /\ ticks s' = S (ticks s) /\ stdin s' = stdin s
    /\ trace s'
       = trace s ++ omap (cleaning_line w cutoff_date)
                      (reached w cutoff_date (fs s) (folders_of (fs s))).
Proof.
  intros Hcut. unfold manage_outputs.clean_old_folders.
  cbv zeta. unfold bind at 1, now. unfold bind at 1, lift. rewrite Hcut.
  unfold bind at 1. rewrite list_output_folders_eq. cbn [fs].
  match goal with |- context [manage_outputs.clean_loop _ _ _ _ ?s1] =>
    destruct (clean_loop_run w cutoff_date (folders_of (fs s)) [] s1)
      as (s' & E & Hfs & Ht & Hi & Htr)
  end.
  { apply NoDup_folders_of. }
  { intros f Hf. now apply folders_of_isdir. }
  cbn [fs ticks stdin trace] in *.
  exists s'. split; [exact E|]. auto.
Qed.

Lemma no_old_link_unstuck w cutoff_date files :
  no_old_link w cutoff_date files ->
  forallb (fun f => negb (stuck w cutoff_date files f)) (folders_of files) = true.
Proof.
  intros H. apply forallb_forall. intros f Hf.
  apply list_elem_of_In, elem_of_folders_of in Hf.
  unfold stuck. destruct (older_than w cutoff_date f) eqn:Hold; [|reflexivity].
  now rewrite (H f Hf Hold).
Qed.

(** What [clean_old_folders] does when, besides, no old container is a
    symbolic link. *)
Lemma clean_old_folders_spec w days_old s cutoff_date :
  minus_days (clock w (ticks s)) (default 7%Z days_old) = Return cutoff_date ->
  no_old_link w cutoff_date (fs s) ->
  exists cleaned s',
    manage_outputs.clean_old_folders w days_old s = (Return cleaned, s')
    /\ (forall name,
          fs s' !! name
          = if output_folder (fs s) name && older_than w cutoff_date name
            then None else fs s !! name)
    /\ (forall name,
          name ∈ cleaned
          <-> output_folder (fs s) name = true
              /\ older_than w cutoff_date name = true)
    /\ (forall name,
          output_folder (fs s) name = true -> embedded_date w name = None ->
          fs s' !! name = fs s !! name /\ skip_warning name ∈ trace s').
Proof.
  intros Hcut Hlinks.
  destruct (clean_old_folders_does w days_old s cutoff_date Hcut)
    as (s' & E & Hfs & _ & _ & Htr).
  pose proof (no_old_link_unstuck _ _ _ Hlinks) as Hall.
  rewrite Hall in E. rewrite (reached_all _ _ _ _ Hall) in Hfs, Htr.
  exists (List.filter (older_than w cutoff_date) (folders_of (fs s))), s'.
  split; [exact E|]. split; [|split].
  - intros name. rewrite Hfs.
    rewrite (bool_decide_ext _ _ (elem_of_folders_of (fs s) name)).
    destruct (output_folder (fs s) name); reflexivity.
  - intros name. rewrite elem_of_list_filter, elem_of_folders_of. tauto.
  - intros name Hout Hnone. split.
    + rewrite Hfs. unfold older_than. rewrite Hnone.
      now rewrite andb_false_r.
    + rewrite Htr. apply elem_of_app. right.
      apply list_elem_of_omap. exists name.
      split; [now apply elem_of_folders_of|].
      unfold cleaning_line. now rewrite Hnone.
Qed.



Lemma no_link_at_all files w cutoff_date :
  (forall name, islink files name = false) -> no_old_link w cutoff_date files.
Proof. intros H name _ _. apply H. Qed.

Lemma old_and_new_no_link name : islink old_and_new name = false.
Proof.
  unfold islink, old_and_new.
  destruct (_ !! name) as [n|] eqn:Hn; [|reflexivity].
  repeat (apply lookup_insert_Some in Hn as [[_ <-]|[_ Hn]]; [reflexivity|]).
  apply lookup_singleton_Some in Hn as [_ <-]. reflexivity.
Qed.


Example clean_old_folders_run :
  fst cleaning_run = Return [py "utterance_outputs_20240101"]
  /\ fs (snd cleaning_run) !! py "utterance_outputs_20240101" = None
  /\ fs (snd cleaning_run) !! py "utterance_outputs_20240304" = Some (Dir ∅)
  /\ fs (snd cleaning_run) !! py "utterance_outputs_backup" = Some (Dir ∅)
  /\ fs (snd cleaning_run) !! py "notes.txt" = Some (File [])
  /\ trace (snd cleaning_run)
     = [Printed ([128465; 65039] ++ py "  Cleaned old folder: utterance_outputs_20240101");
        skip_warning (py "utterance_outputs_backup")].
Proof. vm_compute. repeat split; reflexivity. Qed.

(** ** Frame of the housekeeping tool *)

Lemma output_folder_lookup files files' name :
  files' !! name = files !! name ->
  output_folder files' name = output_folder files name.
Proof. intros H. unfold output_folder, isdir. now rewrite H. Qed.

Lemma keeps_fs_spares {A} (m : M A) : keeps fs m -> spares_the_rest m.
Proof. intros H s name _. now rewrite H. Qed.

Lemma spares_bind {A B} (m : M A) (k : A -> M B) :
  spares_the_rest m -> (forall a, spares_the_rest (k a)) ->
  spares_the_rest (bind m k).
Proof.
  intros Hm Hk s name Hname. specialize (Hm s name Hname). unfold bind.
  destruct (m s) as [[a|e] s1]; simpl in *; [|exact Hm].
  rewrite <- Hm. apply Hk. now rewrite (output_folder_lookup _ _ _ Hm).
Qed.

Lemma keeps_fs_input prompt : keeps fs (input prompt).
Proof.
  intros s. unfold input, bind, print, emit. cbn [stdin fs].
  now destruct (stdin s).
Qed.

Lemma keeps_list_output_folders {X} (f : state -> X) :
  keeps f manage_outputs.list_output_folders.
Proof. now intros s. Qed.

Lemma keeps_listdir_of {X} (f : state -> X) folder :
  keeps f (manage_outputs.listdir_of folder).
Proof.
  intros s. unfold manage_outputs.listdir_of.
  now destruct (fs s !! folder) as [[]|].
Qed.

Lemma keeps_print {X} (f : state -> X) text :
  (forall s e, f (State (fs s) (ticks s) (stdin s) (trace s ++ [e])) = f s) ->
  keeps f (print text).
Proof. intros H s. apply H. Qed.

Section menu_keeps.
Context {X : Type} (f : state -> X).
Context (Hf : forall s e, f (State (fs s) (ticks s) (stdin s) (trace s ++ [e])) = f s).

Lemma keeps_stats_loop folders total :
  keeps f (manage_outputs.stats_loop folders total).
Proof.
  revert total. induction folders as [|folder rest IH]; intros total; simpl.
  - apply keeps_ret.
  - apply keeps_bind; [apply keeps_listdir_of|intros names].
    apply keeps_bind; [now apply keeps_print|intros _; apply IH].
Qed.

Lemma keeps_show_folder_stats : keeps f manage_outputs.show_folder_stats.
Proof.
  unfold manage_outputs.show_folder_stats.
  apply keeps_bind; [apply keeps_list_output_folders|intros [|x l]].
  - now apply keeps_print.
  - apply keeps_bind; [now apply keeps_print|intros _].
    apply keeps_bind; [apply keeps_stats_loop|intros total].
    now apply keeps_print.
Qed.

Lemma keeps_print_each indent names :
  keeps f (manage_outputs.print_each indent names).
Proof.
  induction names as [|n rest IH]; simpl; [apply keeps_ret|].
  apply keeps_bind; [now apply keeps_print|intros _; exact IH].
Qed.
End menu_keeps.

Lemma clean_loop_keeps_stdin w cutoff_date folders cleaned :
  keeps stdin (manage_outputs.clean_loop w cutoff_date folders cleaned).
Proof.
  revert cleaned. induction folders as [|folder rest IH]; intros cleaned; simpl.
  - apply keeps_ret.
  - apply keeps_bind; [|intros a; apply IH].
    unfold manage_outputs.strptime.
    destruct (strptime_Ymd w _); effects.
Qed.

Lemma clean_old_folders_keeps_stdin w days_old :
  keeps stdin (manage_outputs.clean_old_folders w days_old).
Proof.
  unfold manage_outputs.clean_old_folders.
  apply keeps_bind; [apply keeps_stdin_now|intros t].
  apply keeps_bind; [apply keeps_lift|intros c].
  apply keeps_bind; [apply keeps_list_output_folders|intros folders].
  apply clean_loop_keeps_stdin.
Qed.

Lemma elem_of_reached w cutoff_date files folders name :
  name ∈ reached w cutoff_date files folders -> name ∈ folders.
Proof.
  induction folders as [|folder rest IH]; [easy|]. rewrite reached_cons.
  destruct (stuck w cutoff_date files folder); [easy|].
  rewrite !elem_of_cons. tauto.
Qed.

Lemma clean_old_folders_spares w days_old :
  spares_the_rest (manage_outputs.clean_old_folders w days_old).
Proof.
  intros s name Hname.
  destruct (minus_days (clock w (ticks s)) (default 7%Z days_old))
    as [cutoff_date|e] eqn:Hcut.
  - destruct (clean_old_folders_does w days_old s cutoff_date Hcut)
      as (s' & E & Hfs & _).
    rewrite E. cbn [snd]. rewrite Hfs.
    rewrite bool_decide_eq_false_2; [reflexivity|].
    intros Hin. apply elem_of_reached, elem_of_folders_of in Hin. congruence.
  - unfold manage_outputs.clean_old_folders. cbv zeta.
    unfold bind at 1, now. unfold bind at 1, lift. now rewrite Hcut.
Qed.

Lemma menu_turn_spares w : spares_the_rest (manage_outputs.menu_turn w).
Proof.
  assert (Hp : forall text, spares_the_rest (print text))
    by (intros text; apply keeps_fs_spares, keeps_fs_emit).
  unfold manage_outputs.menu_turn.
  repeat (apply spares_bind; [apply Hp|intros _]).
  apply spares_bind; [apply keeps_fs_spares, keeps_fs_input|intros answer].
  repeat match goal with
         | |- spares_the_rest (if ?b then _ else _) => destruct b
         end.
  - apply keeps_fs_spares.
    apply keeps_bind; [apply keeps_list_output_folders|intros [|x l]].
    + apply keeps_bind; [apply keeps_fs_emit|intros _; apply keeps_ret].
    + apply keeps_bind; [apply keeps_fs_emit|intros _].
      apply keeps_bind; [now apply keeps_print_each|intros _; apply keeps_ret].
  - apply keeps_fs_spares.
    apply keeps_bind; [apply keeps_fs_emit|intros _].
    apply keeps_bind; [now apply keeps_show_folder_stats|intros _; apply keeps_ret].
  - apply spares_bind; [apply Hp|intros _].
    apply spares_bind; [apply clean_old_folders_spares|intros [|x l]];
      (apply spares_bind; [apply Hp|intros _; apply keeps_fs_spares, keeps_ret]).
  - apply spares_bind; [apply Hp|intros _; apply keeps_fs_spares, keeps_ret].
  - apply spares_bind; [apply Hp|intros _; apply keeps_fs_spares, keeps_ret].
Qed.

Lemma menu_loop_spares w fuel : spares_the_rest (manage_outputs.menu_loop w fuel).
Proof.
  induction fuel as [|fuel IH]; simpl.
  - apply keeps_fs_spares, keeps_ret.
  - apply spares_bind; [apply menu_turn_spares|intros [|]];
      [exact IH|apply keeps_fs_spares, keeps_ret].
Qed.

Lemma main_spares w : spares_the_rest (manage_outputs.main w).
Proof.
  unfold manage_outputs.main.
  apply spares_bind; [apply keeps_fs_spares, keeps_fs_emit|intros _].
  apply spares_bind; [apply keeps_fs_spares, keeps_fs_emit|intros _].
  intros s name Hname. now apply menu_loop_spares.
Qed.

(** C10.  Whatever is not an output container (a directory whose name starts
    with [utterance_outputs_]) is left as it was: by [clean_old_folders] for
    every threshold, by [list_output_folders] and [show_folder_stats], which
    change nothing at all, and by every run of [main], whatever is typed. *)
Theorem housekeeping_spares_the_rest
    (w : world) (days_old : option Z) (s : state) (name : pystr) :
  output_folder (fs s) name = false ->
  fs (snd (manage_outputs.clean_old_folders w days_old s)) !! name = fs s !! name
  /\ fs (snd (manage_outputs.list_output_folders s)) = fs s
  /\ fs (snd (manage_outputs.show_folder_stats s)) = fs s
  /\ fs (snd (manage_outputs.main w s)) !! name = fs s !! name.
Proof.
  intros Hname. split; [|split; [|split]].
  - now apply clean_old_folders_spares.
  - reflexivity.
  - now apply keeps_show_folder_stats.
  - now apply main_spares.
Qed.

Lemma housekeeping_spares_the_rest_witness :
  fs (snd (manage_outputs.clean_old_folders offline (Some 7%Z) housekeeping_start))
    !! py "notes.txt"
  = fs housekeeping_start !! py "notes.txt"
  /\ fs (snd (manage_outputs.list_output_folders housekeeping_start))
     = fs housekeeping_start
  /\ fs (snd (manage_outputs.show_folder_stats housekeeping_start))
     = fs housekeeping_start
  /\ fs (snd (manage_outputs.main offline housekeeping_start)) !! py "notes.txt"
     = fs housekeeping_start !! py "notes.txt".
Proof.
  apply (housekeeping_spares_the_rest offline (Some 7%Z) housekeeping_start
           (py "notes.txt")).
  vm_compute. reflexivity.
Defined.

(** ** The menu loop always has fuel left *)

Lemma bind_returns {A B} (m : M A) (k : A -> M B) s b s' :
  bind m k s = (Return b, s') ->
  exists a s1, m s = (Return a, s1) /\ k a s1 = (Return b, s').
Proof.
  unfold bind. destruct (m s) as [[a|e] s1]; [eauto|discriminate].
Qed.

Lemma takes_one_after {A B} (m : M A) (k : A -> M B) :
  keeps stdin m -> (forall a, takes_one (k a)) -> takes_one (bind m k).
Proof.
  intros Hm Hk s b s' H. apply bind_returns in H as (a & s1 & E1 & E2).
  specialize (Hm s). rewrite E1 in Hm. simpl in Hm. rewrite <- Hm.
  apply (Hk a s1 b s' E2).
Qed.

Lemma takes_one_before {A B} (m : M A) (k : A -> M B) :
  takes_one m -> (forall a, keeps stdin (k a)) -> takes_one (bind m k).
Proof.
  intros Hm Hk s b s' H. apply bind_returns in H as (a & s1 & E1 & E2).
  specialize (Hk a s1). rewrite E2 in Hk. simpl in Hk. rewrite Hk.
  apply (Hm s a s1 E1).
Qed.

Lemma takes_one_input prompt : takes_one (input prompt).
Proof.
  intros s a s'. unfold input, bind, print, emit. cbn [stdin].
  destruct (stdin s) as [|o rest]; [discriminate|].
  intros [= -> <-]. reflexivity.
Qed.

Lemma menu_turn_takes_one w : takes_one (manage_outputs.menu_turn w).
Proof.
  assert (Hf : forall s e,
             stdin (State (fs s) (ticks s) (stdin s) (trace s ++ [e])) = stdin s)
    by reflexivity.
  unfold manage_outputs.menu_turn.
  repeat (apply takes_one_after; [apply keeps_stdin_emit|intros _]).
  apply takes_one_before; [apply takes_one_input|intros answer].
  repeat match goal with
         | |- keeps _ (if ?b then _ else _) => destruct b
         end.
  - apply keeps_bind; [apply keeps_list_output_folders|intros [|x l]].
    + apply keeps_bind; [apply keeps_stdin_emit|intros _; apply keeps_ret].
    + apply keeps_bind; [apply keeps_stdin_emit|intros _].
      apply keeps_bind; [now apply keeps_print_each|intros _; apply keeps_ret].
  - apply keeps_bind; [apply keeps_stdin_emit|intros _].
    apply keeps_bind; [now apply keeps_show_folder_stats|intros _; apply keeps_ret].
  - apply keeps_bind; [apply keeps_stdin_emit|intros _].
    apply keeps_bind; [apply clean_old_folders_keeps_stdin|intros [|x l]];
      (apply keeps_bind; [apply keeps_stdin_emit|intros _; apply keeps_ret]).
  - apply keeps_bind; [apply keeps_stdin_emit|intros _; apply keeps_ret].
  - apply keeps_bind; [apply keeps_stdin_emit|intros _; apply keeps_ret].
Qed.

(** Any fuel above the number of pending answers gives the run [main] makes. *)
Lemma menu_loop_enough_fuel w fuel s :
  (length (stdin s) < fuel)%nat ->
  manage_outputs.menu_loop w fuel s
  = manage_outputs.menu_loop w (S (length (stdin s))) s.
Proof.
  revert s. induction fuel as [|fuel IH]; intros s Hlt; [lia|].
  cbn [manage_outputs.menu_loop]. unfold bind.
  destruct (manage_outputs.menu_turn w s) as [[[|]|e] s1] eqn:Hturn;
    try reflexivity.
  apply menu_turn_takes_one in Hturn.
  rewrite IH by lia. rewrite Hturn. reflexivity.
Qed.

(** * Further properties of the code *)

(** ** The credential probe *)

Lemma env_set_cases (v : option pystr) :
  env_set v = true -> exists c rest, v = Some (c :: rest).
Proof. destruct v as [[|c rest]|]; try discriminate. eauto. Qed.

Lemma probe_project_verdict c s :
  exists added,
    probe_project c s
    = (Return (env_set (or_else (getenv c "GOOGLE_CLOUD_PROJECT")
                                (getenv c "GCP_PROJECT"))),
       with_events s added)
    /\ (env_set (or_else (getenv c "GOOGLE_CLOUD_PROJECT") (getenv c "GCP_PROJECT"))
        = false ->
        added = [Printed (py "No valid Google authentication found!")]).
Proof.
  unfold probe_project.
  destruct (or_else _ _) as [[|ch rest]|]; simpl; eexists; split;
    try reflexivity; try discriminate.
Qed.



(** ** Reading the intention *)

Lemma input_answer prompt s answer rest :
  stdin s = Return answer :: rest ->
  input prompt s
  = (Return answer, State (fs s) (ticks s) rest (trace s ++ [Printed prompt])).
Proof.
  intros H. unfold input, bind, print, emit. cbn [stdin fs ticks trace].
  rewrite H. reflexivity.
Qed.

Lemma get_user_input_same s : main.get_user_input s = main_simple.get_user_input s.
Proof. reflexivity. Qed.

Lemma get_user_input_answer s answer rest :
  stdin s = Return answer :: rest ->
  main.get_user_input s
  = (Return (if truthy (strip answer) then Some (strip answer) else None),
     State (fs s) (ticks s) rest
       (trace s ++ greeting
        ++ if truthy (strip answer) then []
           else [Printed (py "No intention provided. Exiting.")])).
Proof.
  intros H. unfold main.get_user_input.
  unfold bind at 1, print at 1, emit. cbn [fs ticks stdin trace].
  unfold bind at 1. erewrite input_answer by exact H.
  cbn [fs ticks stdin trace].
  destruct (truthy (strip answer)); cbn [negb].
  - unfold ret, greeting. rewrite <- !app_assoc. reflexivity.
  - unfold bind, print, emit, ret, greeting. cbn [fs ticks stdin trace].
    rewrite <- !app_assoc. reflexivity.
Qed.

(** X3.  [get_user_input], in both scripts, answers a typed line with its
    trimmed form, or with [None] (and a message) when nothing but white space
    was typed; an intention it hands on is therefore never empty and has no
    white space at either end. *)
Theorem get_user_input_trimmed (s : state) (answer : pystr) (rest : list (outcome pystr)) :
  stdin s = Return answer :: rest ->
  exists r s',
    main.get_user_input s = (Return r, s')
    /\ main_simple.get_user_input s = (Return r, s')
    /\ r = (if truthy (strip answer) then Some (strip answer) else None)
    /\ stdin s' = rest
    /\ (r = None -> last (trace s') = Some (Printed (py "No intention provided. Exiting.")))
    /\ (forall intention, r = Some intention ->
          truthy intention = true /\ strip intention = intention).
Proof.
  intros H. eexists _, _. split; [apply (get_user_input_answer s answer rest H)|].
  split; [rewrite <- get_user_input_same; apply (get_user_input_answer s answer rest H)|].
  split; [reflexivity|]. split; [reflexivity|]. cbn [trace].
  destruct (truthy (strip answer)) eqn:Ht.
  - split; [discriminate|]. intros i [= <-]. split; [exact Ht|apply strip_idem].
  - split; [|discriminate]. intros _. rewrite app_assoc. apply last_snoc.
Qed.

(** ** The two [main] functions *)

Lemma has_a_clause_error e : is_Exception e = true -> has_a_clause e = true.
Proof. unfold has_a_clause. intros ->. apply orb_true_r. Qed.

Lemma raises_handled_ret {A} (a : A) : raises_handled (ret a).
Proof. intros s e. discriminate. Qed.

Lemma raises_handled_raise {A} e : has_a_clause e = true -> raises_handled (@raise A e).
Proof. intros H s e'. now intros [= <-]. Qed.

Lemma raises_handled_lift {A} (o : outcome A) :
  value_or_handled o -> raises_handled (lift o).
Proof. intros H s e. simpl. intros ->. exact H. Qed.

Lemma raises_handled_emit ev : raises_handled (emit ev).
Proof. intros s e. discriminate. Qed.

Lemma raises_handled_bind {A B} (m : M A) (k : A -> M B) :
  raises_handled m -> (forall a, raises_handled (k a)) -> raises_handled (bind m k).
Proof.
  intros Hm Hk s e. specialize (Hm s). unfold bind.
  destruct (m s) as [[a|e'] s1]; simpl in *.
  - apply Hk.
  - intros [= <-]. now apply Hm.
Qed.

Lemma raises_handled_bind_lift {A B} (o : outcome A) (k : A -> M B) :
  value_or_handled o -> (forall a, o = Return a -> raises_handled (k a)) ->
  raises_handled (bind (lift o) k).
Proof.
  intros Ho Hk s e. unfold bind, lift. destruct o as [a|e']; simpl in *.
  - now apply Hk.
  - now intros [= <-].
Qed.

Lemma raises_handled_try_except {A} (body : M A) caught handler :
  raises_handled body -> (forall e, raises_handled (handler e)) ->
  raises_handled (try_except body caught handler).
Proof.
  intros Hm Hk s e. specialize (Hm s). unfold try_except.
  destruct (body s) as [[a|e'] s1]; simpl in *; [discriminate|].
  destruct (caught e').
  - apply Hk.
  - intros [= <-]. now apply Hm.
Qed.

(** A computation that always returns raises nothing. *)
Lemma raises_handled_returns {A} (m : M A) :
  (forall s, exists a, fst (m s) = Return a) -> raises_handled m.
Proof. intros H s e He. destruct (H s) as (a & Ha). congruence. Qed.

Lemma raises_handled_normalize c text intention :
  raises_handled (normalize c text intention).
Proof.
  apply raises_handled_returns. intros s. rewrite normalize_eq. eauto.
Qed.

Lemma raises_handled_save_to_csv p w utterances intention :
  raises_handled (save_to_csv p w utterances intention).
Proof.
  apply raises_handled_returns. intros s.
  destruct (save_to_csv_run p w utterances intention s) as (added & E & _).
  rewrite E. eauto.
Qed.

Lemma raises_handled_print_numbered i utterances :
  raises_handled (print_numbered i utterances).
Proof.
  revert i. induction utterances as [|u rest IH]; intros i; simpl.
  - apply raises_handled_ret.
  - apply raises_handled_bind; [apply raises_handled_emit|intros _; apply IH].
Qed.

Lemma raises_handled_collect_parts parts acc :
  raises_handled (main.collect_parts parts acc).
Proof.
  revert acc. induction parts as [|p parts IH]; intros acc; simpl.
  - apply raises_handled_ret.
  - destruct (part_text p); [apply IH|now apply raises_handled_raise|apply IH].
Qed.

Lemma raises_handled_collect_candidates cands acc :
  raises_handled (main.collect_candidates cands acc).
Proof.
  revert acc. induction cands as [|c cands IH]; intros acc; simpl.
  - apply raises_handled_ret.
  - destruct (candidate_parts c); [|apply IH].
    apply raises_handled_bind; [apply raises_handled_collect_parts|intros a; apply IH].
Qed.

Lemma raises_handled_collect_events events acc :
  raises_handled (main.collect_events events acc).
Proof.
  revert acc. induction events as [|ev events IH]; intros acc; simpl.
  - apply raises_handled_ret.
  - destruct (event_response ev).
    + apply raises_handled_bind;
        [apply raises_handled_collect_candidates|intros a; apply IH].
    + destruct (event_text ev); [apply IH|now apply raises_handled_raise|apply IH].
Qed.

(** Breaks a goal about [raises_handled] along the structure of the
    computation. *)
Ltac handled :=
  repeat first
    [ apply raises_handled_ret | apply raises_handled_emit
    | apply raises_handled_lift; assumption
    | apply raises_handled_raise; reflexivity
    | apply raises_handled_print_numbered
    | apply raises_handled_collect_events
    | apply (raises_handled_normalize adk)
    | apply (raises_handled_normalize direct_api)
    | apply (raises_handled_normalize simple)
    | apply raises_handled_bind_lift; [assumption|intros ? ?]
    | apply raises_handled_bind; [|intros ?]
    | apply raises_handled_try_except; [|intros ?]
    | match goal with
      | |- raises_handled (if ?b then _ else _) => destruct b
      | |- raises_handled (match ?x with _ => _ end) => destruct x eqn:?
      end ].

Section handled_world.
Context (w : world) (Hw : raises_what_main_handles w).

Lemma raises_handled_generate_utterances agent intention :
  raises_handled (main.generate_utterances w agent intention).
Proof.
  destruct Hw as (_ & _ & _ & _ & _ & _ & Hrun & Hses & Hcon & Hend).
  unfold main.generate_utterances, print. handled.
Qed.

Lemma raises_handled_generate_utterances_direct_api intention :
  raises_handled (main.generate_utterances_direct_api w intention).
Proof.
  destruct Hw as (Himp & Hconf & Hmod & Hgen & Htext & _).
  unfold main.generate_utterances_direct_api, print. handled.
  apply raises_handled_lift. now apply Htext.
Qed.

Lemma raises_handled_generate_utterances_simple intention :
  raises_handled (main_simple.generate_utterances_simple w intention).
Proof.
  destruct Hw as (Himp & Hconf & Hmod & Hgen & Htext & _).
  unfold main_simple.generate_utterances_simple, print. handled.
  apply raises_handled_lift. now apply Htext.
Qed.

Lemma raises_handled_main_from_agent agent intention :
  raises_handled (main.main_from_agent w agent intention).
Proof.
  unfold main.main_from_agent, print.
  apply raises_handled_bind; [apply raises_handled_generate_utterances|intros r].
  apply raises_handled_bind.
  - destruct (falsy r); [|apply raises_handled_ret].
    apply raises_handled_bind; [apply raises_handled_emit|intros _].
    apply raises_handled_generate_utterances_direct_api.
  - intros r'. unfold print. destruct r' as [[|u l]|]; try apply raises_handled_emit.
    apply raises_handled_bind; [apply raises_handled_emit|intros _].
    apply raises_handled_bind; [apply raises_handled_emit|intros _].
    apply raises_handled_bind; [apply raises_handled_print_numbered|intros _].
    apply raises_handled_bind; [|intros _; apply raises_handled_ret].
    apply (raises_handled_save_to_csv main_py).
Qed.

Lemma raises_handled_create_agent : raises_handled (main.create_agent w).
Proof.
  destruct Hw as (_ & _ & _ & _ & _ & Hagent & _).
  unfold main.create_agent. handled.
Qed.

Lemma raises_handled_create_agent_with_api_key :
  raises_handled (main.create_agent_with_api_key w).
Proof.
  destruct Hw as (Himp & Hconf & _ & _ & _ & Hagent & _).
  unfold main.create_agent_with_api_key. handled.
Qed.

End handled_world.

Lemma try_except2_print_returns (body : M unit) (h1 h2 : exn -> pystr) s :
  (forall e, fst (body s) = Raise e -> has_a_clause e = true) ->
  fst (try_except2 body is_KeyboardInterrupt (fun e => print (h1 e))
         is_Exception (fun e => print (h2 e)) s)
  = Return tt.
Proof.
  intros H. unfold try_except2. destruct (body s) as [[[]|e] s1]; [reflexivity|].
  specialize (H e eq_refl). unfold has_a_clause in H.
  destruct (is_KeyboardInterrupt e); [reflexivity|].
  simpl in H. now rewrite H.
Qed.

Lemma get_user_input_raises s e :
  Forall value_or_handled (stdin s) ->
  fst (main.get_user_input s) = Raise e -> has_a_clause e = true.
Proof.
  intros Hin. destruct (stdin s) as [|[answer|e'] rest] eqn:Hs.
  - unfold main.get_user_input, bind, input, bind, print, emit.
    cbn [fs ticks stdin trace]. rewrite Hs. now intros [= <-].
  - rewrite (get_user_input_answer s answer rest Hs). discriminate.
  - apply Forall_cons in Hin as [He _].
    unfold main.get_user_input, bind, input, bind, print, emit.
    cbn [fs ticks stdin trace]. rewrite Hs. now intros [= <-].
Qed.

Lemma raises_after {A B} (m : M A) (k : A -> M B) s e :
  (forall e, fst (m s) = Raise e -> has_a_clause e = true) ->
  (forall a, raises_handled (k a)) ->
  fst (bind m k s) = Raise e -> has_a_clause e = true.
Proof.
  intros Hm Hk. unfold bind. destruct (m s) as [[a|e'] s1]; simpl in *.
  - apply Hk.
  - intros [= <-]. now apply Hm.
Qed.

(** X4.  Neither [main] of [main.py] (from the reading of the intention on)
    nor [main] of [main_simple.py] lets an error or an interrupt out: when
    the calls of the world and the pending input raise nothing but instances
    of [Exception] and [KeyboardInterrupt], an end of input included, the
    function returns normally.  ([SystemExit], [GeneratorExit] and
    [asyncio.CancelledError] have no clause: see [cancelled_passes_main].) *)
Theorem main_lets_no_error_out (w : world) (s : state) :
  raises_what_main_handles w ->
  Forall value_or_handled (stdin s) ->
  fst (main.main w s) = Return tt /\ fst (main_simple.main w s) = Return tt.
Proof.
  intros Hw Hin. split.
  - apply (try_except2_print_returns _
             (fun _ => [10; 10] ++ py "Operation cancelled by user.")
             (fun e => py "Unexpected error: " ++ exn_msg e)).
    intros e. apply raises_after; [intros e'; now apply get_user_input_raises|].
    intros [intention|]; [|apply raises_handled_ret].
    apply raises_handled_bind; [|intros agent; now apply raises_handled_main_from_agent].
    apply raises_handled_try_except; [now apply raises_handled_create_agent|].
    intros e'. unfold print.
    apply raises_handled_bind; [apply raises_handled_emit|intros _].
    apply raises_handled_bind; [apply raises_handled_emit|intros _].
    now apply raises_handled_create_agent_with_api_key.
  - apply (try_except2_print_returns _
             (fun _ => [10; 10] ++ py "Operation cancelled by user.")
             (fun e => py "Unexpected error: " ++ exn_msg e)).
    intros e. apply raises_after.
    { intros e'. rewrite <- get_user_input_same. now apply get_user_input_raises. }
    intros [intention|]; [|apply raises_handled_ret].
    apply raises_handled_bind;
      [now apply raises_handled_generate_utterances_simple|intros r].
    unfold print. destruct r as [[|u l]|]; try apply raises_handled_emit.
    apply raises_handled_bind; [apply raises_handled_emit|intros _].
    apply raises_handled_bind; [apply raises_handled_emit|intros _].
    apply raises_handled_bind; [apply raises_handled_print_numbered|intros _].
    apply raises_handled_bind; [|intros _; apply raises_handled_ret].
    apply (raises_handled_save_to_csv main_simple_py).
Qed.

(** An exception outside [Exception] and [KeyboardInterrupt] passes both
    clauses of [main]. *)
Example cancelled_passes_main :
  fst (main.main cancelled (State ∅ 0 [Return (py "greet")] []))
  = Raise (Exn CancelledError []).
Proof. vm_compute. reflexivity. Qed.

(** X5.  When the line typed is blank, both [main] functions end after the
    message of [get_user_input]: no agent is created, no client is called,
    the clock is not read and the file system is not touched. *)
Theorem blank_intention_ends_the_run
    (w : world) (s : state) (answer : pystr) (rest : list (outcome pystr)) :
  stdin s = Return answer :: rest ->
  truthy (strip answer) = false ->
  main.main w s
  = (Return tt,
     State (fs s) (ticks s) rest
       (trace s ++ greeting ++ [Printed (py "No intention provided. Exiting.")]))
  /\ main_simple.main w s
     = (Return tt,
        State (fs s) (ticks s) rest
          (trace s ++ greeting ++ [Printed (py "No intention provided. Exiting.")])).
Proof.
  intros H Hblank.
  assert (Hin := get_user_input_answer s answer rest H).
  rewrite Hblank in Hin.
  split.
  - unfold main.main, try_except2. unfold bind at 1. rewrite Hin. reflexivity.
  - unfold main_simple.main, try_except2. unfold bind at 1.
    rewrite <- get_user_input_same, Hin. reflexivity.
Qed.

(** ** More on saving *)

Lemma decimal_digits_encodable fuel n acc :
  encodable acc = true -> encodable (decimal_digits fuel n acc) = true.
Proof.
  revert n acc. induction fuel as [|fuel IH]; intros n acc Hacc; [exact Hacc|].
  cbn [decimal_digits].
  assert (Hd : encodable ((48 + n mod 10) :: acc) = true).
  { unfold encodable in *. cbn [forallb]. rewrite Hacc, andb_true_r.
    unfold is_surrogate.
    pose proof (N.mod_upper_bound n 10 ltac:(lia)) as Hlt.
    destruct (N.leb_spec 55296 (48 + n mod 10)); [lia|reflexivity]. }
  destruct (n <? 10); [exact Hd|now apply IH].
Qed.

Lemma str_of_nat_encodable n : encodable (str_of_nat n) = true.
Proof. now apply decimal_digits_encodable. Qed.

Lemma rows_can_be_encoded i utterances intention :
  forallb row_ok (csv_data_from i utterances intention)
  = can_be_encoded utterances intention.
Proof.
  revert i. induction utterances as [|u rest IH]; intros i; [reflexivity|].
  cbn [csv_data_from forallb can_be_encoded]. rewrite IH.
  unfold row_ok at 1. cbn [forallb]. rewrite str_of_nat_encodable, andb_true_r.
  reflexivity.
Qed.

Lemma last_after {A} (l1 l2 : list A) x : last l2 = Some x -> last (l1 ++ l2) = Some x.
Proof.
  intros H. destruct l2 as [|y l2] using rev_ind; [discriminate|].
  rewrite last_snoc in H. injection H as ->. rewrite app_assoc. apply last_snoc.
Qed.

(** X6.  [save_to_csv], in both scripts, never raises.  It returns [None]
    exactly when the path cannot be opened for writing (the folder name is
    taken by something that is not a directory or a link to one, or the file
    name by a directory, a link to one, or a link whose target cannot be
    created) or a row cannot be encoded (an utterance or the intention holds
    a surrogate); when the path cannot be opened the file system is as
    before.  A call that returns [None] ends with a line that starts with
    [Error saving to CSV: ]; one that returns the path ends with the [Done!]
    line. *)
Theorem save_to_csv_never_raises
    (p : script) (w : world) (utterances : list pystr) (intention : pystr) (s : state) :
  exists r s',
    save_to_csv p w utterances intention s = (Return r, s')
    /\ (r = None
        <-> path_blocked (fs s) (clock w (ticks s)) (clock w (S (ticks s))) = true
            \/ can_be_encoded utterances intention = false)
    /\ (path_blocked (fs s) (clock w (ticks s)) (clock w (S (ticks s))) = true ->
        fs s' = fs s)
    /\ (r = None ->
        exists reason,
          last (trace s') = Some (Printed (py "Error saving to CSV: " ++ reason)))
    /\ (forall filepath, r = Some filepath ->
          filepath = csv_path (clock w (ticks s)) (clock w (S (ticks s)))
          /\ last (trace s') = Some (Printed (done_message p filepath))).
Proof.
  destruct (save_to_csv_run p w utterances intention s)
    as (added & E & _ & Hfail & Hdone).
  rewrite rows_can_be_encoded in E, Hfail, Hdone.
  eexists _, _. split; [exact E|]. cbn [fs trace].
  assert (Hlast : forall x, last added = Some x ->
            last (trace s ++ Called_save_to_csv utterances intention :: added) = Some x)
    by (intros x Hx; apply (last_after (trace s ++ [Called_save_to_csv utterances intention]))
          in Hx; now rewrite <- app_assoc in Hx).
  split; [|split; [|split]].
  - destruct (path_blocked _ _ _); [cbn [orb]; tauto|].
    destruct (can_be_encoded utterances intention); cbn [orb negb].
    + split; [discriminate|]. intros [H|H]; discriminate.
    + split; [auto|reflexivity].
  - intros Hb. apply (path_blocked_saved _ _ _ (fieldnames :: written
                        (csv_data_from 1 utterances intention))) in Hb.
    now rewrite Hb.
  - intros Hr. destruct (_ || _); [|discriminate].
    destruct (Hfail eq_refl) as (reason & Hreason). exists reason. now apply Hlast.
  - intros filepath Hr. destruct (_ || _); [discriminate|].
    injection Hr as <-. split; [reflexivity|]. now apply Hlast, Hdone.
Qed.

Lemma saved_frame files t t' data files' :
  saved files t t' data = Some files' ->
  (forall name, name <> py "utterance_outputs_" ++ strftime_Ymd t' ->
                files' !! name = files !! name)
  /\ (forall old entries,
        files !! (py "utterance_outputs_" ++ strftime_Ymd t') = Some old ->
        dir_entries old = Some entries ->
        exists entries',
          files' !! (py "utterance_outputs_" ++ strftime_Ymd t')
          = Some (in_dir (fun _ => entries') old)
          /\ forall f, f <> py "utterances_" ++ strftime_Ymd_HMS t ++ py ".csv" ->
               entries' !! f = entries !! f)
  /\ (files !! (py "utterance_outputs_" ++ strftime_Ymd t') = None ->
      files' !! (py "utterance_outputs_" ++ strftime_Ymd t')
      = Some (Dir {[ py "utterances_" ++ strftime_Ymd_HMS t ++ py ".csv"
                     := File data ]})).
Proof.
  unfold saved.
  set (dir := py "utterance_outputs_" ++ strftime_Ymd t').
  set (file := py "utterances_" ++ strftime_Ymd_HMS t ++ py ".csv").
  destruct (files !! dir) as [folder|] eqn:Hdir.
  - destruct (dir_entries folder) as [entries|] eqn:Hentries; [|discriminate].
    destruct (opened_for_writing (entries !! file)) as [opened|]; [|discriminate].
    intros [= <-]. split; [intros name Hne; now rewrite lookup_insert_ne|].
    split; [|discriminate].
    intros old entries0 [= <-] Hold. rewrite Hentries in Hold. injection Hold as <-.
    eexists. split; [apply lookup_insert_eq|].
    intros f Hf. now rewrite lookup_insert_ne.
  - intros [= <-]. split; [intros name Hne; now rewrite lookup_insert_ne|].
    split; [discriminate|]. intros _. apply lookup_insert_eq.
Qed.

(** X7.  [save_to_csv] touches one place only.  Every entry of the working
    directory other than the folder of the day is as before.  A folder of
    the day that is a directory, or a link to one, is reused, and every file
    in it other than the one being written is kept as it was; a name taken
    by anything else is left alone.  A missing folder is created, and then
    holds the new file and nothing else: the header, and the rows before the
    first one that cannot be encoded. *)
Theorem save_to_csv_frame
    (p : script) (w : world) (utterances : list pystr) (intention : pystr) (s : state) :
  let folder := py "utterance_outputs_" ++ strftime_Ymd (clock w (S (ticks s))) in
  let file := py "utterances_" ++ strftime_Ymd_HMS (clock w (ticks s)) ++ py ".csv" in
  let after := fs (snd (save_to_csv p w utterances intention s)) in
  (forall name, name <> folder -> after !! name = fs s !! name)
  /\ (forall old entries,
        fs s !! folder = Some old -> dir_entries old = Some entries ->
        exists entries',
          after !! folder = Some (in_dir (fun _ => entries') old)
          /\ forall f, f <> file -> entries' !! f = entries !! f)
  /\ (forall old,
        fs s !! folder = Some old -> dir_entries old = None ->
        after !! folder = Some old)
  /\ (fs s !! folder = None ->
      after !! folder
      = Some (Dir {[ file := File (fieldnames
                                   :: written (csv_data_from 1 utterances intention)) ]})).
Proof.
  intros folder file after.
  destruct (save_to_csv_run p w utterances intention s) as (added & E & _).
  subst after. rewrite E. cbn [snd fs].
  destruct (saved (fs s) _ _ _) as [files'|] eqn:Hsaved; cbn [default].
  - destruct (saved_frame _ _ _ _ _ Hsaved) as (Hother & Hreuse & Hnew).
    fold folder in Hother, Hreuse, Hnew. fold file in Hreuse, Hnew.
    split; [exact Hother|]. split; [exact Hreuse|]. split; [|exact Hnew].
    intros old Hold Hnot. unfold saved in Hsaved. fold folder in Hsaved.
    rewrite Hold, Hnot in Hsaved. discriminate.
  - split; [reflexivity|]. split; [|split].
    + intros old entries Hold Hentries. exists entries.
      rewrite (in_dir_id _ _ Hentries). split; [exact Hold|reflexivity].
    + intros old Hold _. exact Hold.
    + intros Hnone. unfold saved in Hsaved. fold folder in Hsaved.
      rewrite Hnone in Hsaved. discriminate.
Qed.

(** X8.  The two copies of [save_to_csv] do the same: on the same
    utterances, intention and state they return the same value and leave
    the same file system, clock position and pending input; only the last
    line they print differs. *)
Theorem save_to_csv_copies_agree
    (w : world) (utterances : list pystr) (intention : pystr) (s : state) :
  fst (main.save_to_csv w utterances intention s)
  = fst (main_simple.save_to_csv w utterances intention s)
  /\ fs (snd (main.save_to_csv w utterances intention s))
     = fs (snd (main_simple.save_to_csv w utterances intention s))
  /\ ticks (snd (main.save_to_csv w utterances intention s))
     = ticks (snd (main_simple.save_to_csv w utterances intention s))
  /\ stdin (snd (main.save_to_csv w utterances intention s))
     = stdin (snd (main_simple.save_to_csv w utterances intention s)).
Proof.
  destruct (save_to_csv_run main_py w utterances intention s) as (a1 & E1 & _).
  destruct (save_to_csv_run main_simple_py w utterances intention s) as (a2 & E2 & _).
  simpl save_to_csv in E1, E2. rewrite E1, E2. repeat split.
Qed.

Lemma csv_data_from_lookup i utterances intention k u :
  utterances !! k = Some u ->
  csv_data_from i utterances intention !! k
  = Some [str_of_nat (i + k); u; intention].
Proof.
  revert i k. induction utterances as [|x rest IH]; intros i k; [discriminate|].
  destruct k as [|k]; cbn [csv_data_from].
  - intros [= ->]. now rewrite Nat.add_0_r.
  - intros H. change (csv_data_from (S i) rest intention !! k
                      = Some [str_of_nat (i + S k); u; intention]).
    rewrite (IH (S i) k H). do 3 f_equal. lia.
Qed.

Lemma csv_data_from_length i utterances intention :
  length (csv_data_from i utterances intention) = length utterances.
Proof.
  revert i. induction utterances as [|x rest IH]; intros i; simpl; [reflexivity|].
  now rewrite IH.
Qed.

(** X9.  After a successful [save_to_csv] the file of the returned path
    holds the header [id, utterance, original_intention] and then one row
    per utterance, in the order given: row [k] carries the number [k]
    (counted from 1), the [k]-th utterance and the intention. *)
Theorem save_to_csv_rows
    (p : script) (w : world) (utterances : list pystr) (intention filepath : pystr)
    (s s' : state) :
  save_to_csv p w utterances intention s = (Return (Some filepath), s') ->
  exists rows,
    csv_at (fs s') (clock w (ticks s)) (clock w (S (ticks s)))
    = Some ([py "id"; py "utterance"; py "original_intention"] :: rows)
    /\ length rows = length utterances
    /\ forall k u, utterances !! k = Some u ->
         rows !! k = Some [str_of_nat (S k); u; intention].
Proof.
  intros H. apply save_to_csv_returns in H as [_ Hfile].
  exists (csv_data_from 1 utterances intention).
  split; [exact Hfile|]. split; [apply csv_data_from_length|].
  intros k u Hk. now apply (csv_data_from_lookup 1).
Qed.

(** ** What [main] shows and saves *)

Lemma print_numbered_run i utterances s :
  print_numbered i utterances s
  = (Return tt,
     with_events s
       (imap (fun k u => Printed (fmt_2d (i + k) ++ py ". " ++ u)) utterances)).
Proof.
  revert i s. induction utterances as [|u rest IH]; intros i s.
  - unfold with_events. simpl. rewrite app_nil_r. now destruct s.
  - cbn [print_numbered]. unfold bind, print, emit. cbn [fs ticks stdin trace].
    rewrite IH. unfold with_events. cbn [fs ticks stdin trace imap].
    rewrite Nat.add_0_r, <- app_assoc. do 3 f_equal. simpl. f_equal.
    apply imap_ext. intros k x _. simpl. do 3 f_equal. lia.
Qed.

Lemma save_fst_returns p w utterances intention s :
  exists r, fst (save_to_csv p w utterances intention s) = Return r.
Proof.
  destruct (save_to_csv_run p w utterances intention s) as (added & E & _).
  rewrite E. eauto.
Qed.

Lemma after_clients_shows_and_saves w intention u rest s :
  after_clients w intention (Some (u :: rest)) s
  = (Return tt,
     snd (main.save_to_csv w (u :: rest) intention
            (with_events s (shown intention (u :: rest))))).
Proof.
  unfold after_clients.
  unfold bind at 1, print at 1, emit. cbn [fs ticks stdin trace].
  unfold bind at 1, print at 1, emit. cbn [fs ticks stdin trace].
  unfold bind at 1. rewrite print_numbered_run. unfold with_events at 1.
  cbn [fs ticks stdin trace]. unfold bind, ret.
  replace (State (fs s) (ticks s) (stdin s) _)
    with (with_events s (shown intention (u :: rest))).
  - destruct (save_fst_returns main_py w (u :: rest) intention
                (with_events s (shown intention (u :: rest)))) as (r & Hr).
    simpl save_to_csv in Hr.
    destruct (main.save_to_csv w (u :: rest) intention _) as [o s']. simpl in Hr.
    now rewrite Hr.
  - unfold with_events, shown. f_equal. rewrite <- !app_assoc. reflexivity.
Qed.

Lemma save_events w utterances intention s :
  exists added,
    trace (snd (main.save_to_csv w utterances intention s))
    = trace s ++ Called_save_to_csv utterances intention :: added
    /\ forallb is_printed added = true.
Proof.
  destruct (save_to_csv_run main_py w utterances intention s) as (added & E & F & _).
  simpl save_to_csv in E. rewrite E. eauto.
Qed.

Lemma shown_printed intention utterances :
  forallb is_printed (shown intention utterances) = true.
Proof.
  unfold shown. cbn [forallb is_printed andb].
  apply forallb_forall. intros e He. apply list_elem_of_In in He.
  apply elem_of_lookup_imap in He as (k & u & -> & _). reflexivity.
Qed.

Lemma filter_printed (P : event -> bool) l :
  (forall text, P (Printed text) = false) ->
  forallb is_printed l = true -> List.filter P l = [].
Proof.
  intros HP H. apply filter_none. revert H. apply forallb_impl.
  intros [] E; try discriminate. now rewrite HP.
Qed.



(** ** More on the clients *)

Lemma with_events_nil s : with_events s [] = s.
Proof. unfold with_events. rewrite app_nil_r. now destruct s. Qed.

Lemma with_events_app s a b : with_events (with_events s a) b = with_events s (a ++ b).
Proof. unfold with_events. cbn [fs ticks stdin trace]. now rewrite app_assoc. Qed.

Lemma only_prints_pure {A} (m : M A) : pure_step m -> only_prints m.
Proof. intros H s. exists []. now rewrite H, with_events_nil. Qed.

Lemma only_prints_ret {A} (a : A) : only_prints (ret a).
Proof. now apply only_prints_pure. Qed.

Lemma only_prints_raise {A} e : only_prints (@raise A e).
Proof. now apply only_prints_pure. Qed.

Lemma only_prints_lift {A} (o : outcome A) : only_prints (lift o).
Proof. now apply only_prints_pure. Qed.

Lemma only_prints_print text : only_prints (print text).
Proof. intros s. now exists [Printed text]. Qed.

Lemma only_prints_bind {A B} (m : M A) (k : A -> M B) :
  only_prints m -> (forall a, only_prints (k a)) -> only_prints (bind m k).
Proof.
  intros Hm Hk s. destruct (Hm s) as (d1 & E1 & F1). unfold bind.
  destruct (m s) as [[a|e] s1]; simpl in *; [|eauto].
  destruct (Hk a s1) as (d2 & E2 & F2). exists (d1 ++ d2).
  now rewrite E2, E1, with_events_app, forallb_app, F1, F2.
Qed.

Lemma only_prints_try_except {A} (body : M A) caught handler :
  only_prints body -> (forall e, only_prints (handler e)) ->
  only_prints (try_except body caught handler).
Proof.
  intros Hm Hk s. destruct (Hm s) as (d1 & E1 & F1). unfold try_except.
  destruct (body s) as [[a|e] s1]; simpl in *; [eauto|].
  destruct (caught e); simpl; [|eauto].
  destruct (Hk e s1) as (d2 & E2 & F2). exists (d1 ++ d2).
  now rewrite E2, E1, with_events_app, forallb_app, F1, F2.
Qed.

Ltac prints_only :=
  repeat first
    [ apply only_prints_ret | apply only_prints_raise | apply only_prints_lift
    | apply only_prints_print
    | apply only_prints_pure, (pure_step_normalize adk)
    | apply only_prints_pure, (pure_step_normalize direct_api)
    | apply only_prints_pure, (pure_step_normalize simple)
    | apply only_prints_pure, pure_step_collect_events
    | apply only_prints_bind; [|intros ?]
    | apply only_prints_try_except; [|intros ?]
    | match goal with
      | |- only_prints (if ?b then _ else _) => destruct b
      | |- only_prints (match ?x with _ => _ end) => destruct x
      end ].

Lemma called_then_prints {A} e (m : M A) s :
  only_prints m ->
  exists added,
    snd (bind (emit e) (fun _ => m) s) = with_events s (e :: added)
    /\ forallb is_printed added = true.
Proof.
  intros H. destruct (H (with_events s [e])) as (d & E & F).
  exists d. split; [|exact F]. unfold bind, emit.
  change (State (fs s) (ticks s) (stdin s) (trace s ++ [e])) with (with_events s [e]).
  rewrite E, with_events_app. reflexivity.
Qed.

Lemma generate_utterances_only_prints w agent intention s :
  exists added,
    snd (main.generate_utterances w agent intention s)
    = with_events s (Called_generate_utterances intention :: added)
    /\ forallb is_printed added = true.
Proof. apply called_then_prints; prints_only. Qed.

Lemma generate_utterances_direct_api_only_prints w intention s :
  exists added,
    snd (main.generate_utterances_direct_api w intention s)
    = with_events s (Called_generate_utterances_direct_api intention :: added)
    /\ forallb is_printed added = true.
Proof. apply called_then_prints; prints_only. Qed.

Lemma generate_utterances_simple_only_prints w intention s :
  exists added,
    snd (main_simple.generate_utterances_simple w intention s)
    = with_events s (Called_generate_utterances_simple intention :: added)
    /\ forallb is_printed added = true.
Proof. apply called_then_prints; prints_only. Qed.

(** X12.  A client has no effect but printing: whatever the world answers,
    each of the three clients leaves the file system, the clock and the
    pending input as they were, and adds to the trace its own call followed
    by printed lines only. *)
Theorem clients_only_print
    (w : world) (agent : main.LlmAgent) (intention : pystr) (s : state) :
  (exists added,
      snd (main.generate_utterances w agent intention s)
      = with_events s (Called_generate_utterances intention :: added)
      /\ forallb is_printed added = true)
  /\ (exists added,
        snd (main.generate_utterances_direct_api w intention s)
        = with_events s (Called_generate_utterances_direct_api intention :: added)
        /\ forallb is_printed added = true)
  /\ (exists added,
        snd (main_simple.generate_utterances_simple w intention s)
        = with_events s (Called_generate_utterances_simple intention :: added)
        /\ forallb is_printed added = true).
Proof.
  split; [|split].
  - apply generate_utterances_only_prints.
  - apply generate_utterances_direct_api_only_prints.
  - apply generate_utterances_simple_only_prints.
Qed.

(** X13.  Without an API key (unset or empty), and with the library
    importable, the direct clients do not reach the model:
    [generate_utterances_direct_api] answers [None] after the line
    [Error with direct API: GOOGLE_API_KEY not found in environment variables],
    and [generate_utterances_simple] answers [None] after its two lines about
    the key. *)
Theorem missing_key_gives_none (w : world) (intention : pystr) (s : state) :
  genai_import w = Return tt ->
  env_set (getenv_GOOGLE_API_KEY w) = false ->
  main.generate_utterances_direct_api w intention s
  = (Return None,
     with_events s
       [Called_generate_utterances_direct_api intention;
        Printed (py "Error with direct API: " ++ missing_key)])
  /\ main_simple.generate_utterances_simple w intention s
     = (Return None,
        with_events s
          [Called_generate_utterances_simple intention;
           Printed ([10060] ++ py " GOOGLE_API_KEY not found!");
           Printed (py "Please set your API key in the .env file")]).
Proof.
  intros Himport Hkey. split.
  - unfold main.generate_utterances_direct_api, try_except, bind, emit, lift,
      print, emit, raise, ret, with_events.
    rewrite Himport, Hkey. cbn [negb fs ticks stdin trace is_Exception exn_cls].
    rewrite <- !app_assoc. reflexivity.
  - unfold main_simple.generate_utterances_simple, try_except, bind, emit, lift,
      print, emit, raise, ret, with_events.
    rewrite Himport, Hkey. cbn [negb fs ticks stdin trace].
    rewrite <- !app_assoc. reflexivity.
Qed.

(** ** The text a stream of events carries *)

Lemma join_texts_app l1 l2 :
  join_texts (l1 ++ l2)
  = match join_texts l1 with
    | Some a => app a <$> join_texts l2
    | None => None
    end.
Proof.
  induction l1 as [|[| |t] l1 IH]; simpl.
  - now destruct (join_texts l2).
  - exact IH.
  - reflexivity.
  - rewrite IH. destruct (join_texts l1) as [a|]; simpl; [|reflexivity].
    destruct (join_texts l2); simpl; [|reflexivity]. now rewrite app_assoc.
Qed.

Lemma collected_app acc l1 l2 :
  collected acc (join_texts (l1 ++ l2))
  = match join_texts l1 with
    | Some a => collected (acc ++ a) (join_texts l2)
    | None => Raise main.concat_none
    end.
Proof.
  rewrite join_texts_app. destruct (join_texts l1) as [a|]; [|reflexivity].
  destruct (join_texts l2); simpl; [|reflexivity]. now rewrite app_assoc.
Qed.

Lemma collect_parts_run parts acc s :
  main.collect_parts parts acc s
  = (collected acc (join_texts (part_text <$> parts)), s).
Proof.
  revert acc. induction parts as [|p parts IH]; intros acc; simpl.
  - unfold ret. now rewrite app_nil_r.
  - destruct (part_text p) as [| |t]; simpl.
    + apply IH.
    + reflexivity.
    + rewrite IH. destruct (join_texts _); simpl; [|reflexivity].
      now rewrite app_assoc.
Qed.

Lemma collect_candidates_run candidates acc s :
  main.collect_candidates candidates acc s
  = (collected acc (join_texts (concat (texts_of_candidate <$> candidates))), s).
Proof.
  revert acc. induction candidates as [|c candidates IH]; intros acc.
  - simpl. unfold ret. now rewrite app_nil_r.
  - cbn [main.collect_candidates fmap list_fmap concat].
    rewrite collected_app. unfold texts_of_candidate at 1.
    destruct (candidate_parts c) as [parts|].
    + unfold bind. rewrite collect_parts_run.
      destruct (join_texts (part_text <$> parts)); simpl; [apply IH|reflexivity].
    + simpl. rewrite app_nil_r. apply IH.
Qed.

Lemma collect_events_run events acc s :
  main.collect_events events acc s
  = (collected acc (join_texts (texts_of_events events)), s).
Proof.
  unfold texts_of_events.
  revert acc. induction events as [|e events IH]; intros acc.
  - simpl. unfold ret. now rewrite app_nil_r.
  - cbn [main.collect_events fmap list_fmap concat].
    rewrite collected_app. unfold texts_of_event at 1.
    destruct (event_response e) as [candidates|].
    + unfold bind. rewrite collect_candidates_run.
      destruct (join_texts (concat (texts_of_candidate <$> candidates)));
        simpl; [apply IH|reflexivity].
    + destruct (event_text e) as [| |t]; simpl.
      * rewrite app_nil_r. apply IH.
      * reflexivity.
      * rewrite app_nil_r. apply IH.
Qed.

(** X14.  The loop over the events of the agent gathers, in order, every
    text the events offer: a part of a candidate of an event with a response,
    or the text of an event without one; what has no text attribute is
    skipped.  A text that is [None] ends the loop with a [TypeError]. *)
Theorem collect_events_joins (events : list adk_event) (s : state) :
  main.collect_events events [] s
  = (match join_texts (texts_of_events events) with
     | Some text => Return text
     | None => Raise main.concat_none
     end, s)
  /\ (Forall (fun a => a <> NoneValue) (texts_of_events events) ->
      exists text,
        join_texts (texts_of_events events) = Some text
        /\ text = concat (omap (fun a => match a with Str t => Some t | _ => None end)
                            (texts_of_events events))).
Proof.
  split.
  - rewrite collect_events_run. now destruct (join_texts _).
  - induction (texts_of_events events) as [|a l IH]; intros Hall.
    + now exists [].
    + apply Forall_cons in Hall as [Ha Hl]. destruct (IH Hl) as (text & E & ->).
      destruct a as [| |t]; simpl.
      * eauto.
      * contradiction.
      * rewrite E. simpl. eauto.
Qed.

Lemma normalize_adk_run text intention s :
  main.normalize_adk text intention s
  = (Return (if truthy (strip text) then Some (normal_form adk text intention)
             else None), s).
Proof. apply (normalize_eq adk). Qed.

Lemma normalize_direct_api_run text intention s :
  main.normalize_direct_api text intention s
  = (Return (if truthy text then Some (normal_form direct_api text intention)
             else None), s).
Proof. apply (normalize_eq direct_api). Qed.

Lemma normalize_simple_run text intention s :
  main_simple.normalize_simple text intention s
  = (Return (if truthy text then Some (normal_form simple text intention)
             else None), s).
Proof. apply (normalize_eq simple). Qed.

(** X15.  When the agent's runner, session and message are set up and the
    stream ends without exception, [generate_utterances] answers with the
    normalisation of the joined texts of the events: [None] when they hold
    nothing but white space, ten utterances otherwise.  When one of the texts
    is [None], the [TypeError] is caught and the answer is [None]. *)
Theorem generate_utterances_of_stream
    (w : world) (agent : main.LlmAgent) (intention : pystr) (s : state) :
  adk_Runner w = Return tt ->
  adk_create_session w = Return tt ->
  adk_Content w = Return tt ->
  snd (adk_run_async w) = Return tt ->
  main.generate_utterances w agent intention s
  = match join_texts (texts_of_events (fst (adk_run_async w))) with
    | Some text =>
        (Return (if truthy (strip text)
                 then Some (normal_form adk text intention) else None),
         with_events s [Called_generate_utterances intention; Printed generating])
    | None =>
        (Return None,
         with_events s
           [Called_generate_utterances intention; Printed generating;
            Printed (py "Error generating utterances: " ++ exn_msg main.concat_none)])
    end.
Proof.
  intros Hr Hs Hc He.
  unfold main.generate_utterances, try_except.
  unfold bind at 1, emit. cbn [fs ticks stdin trace].
  unfold bind at 1, print at 1, emit. cbn [fs ticks stdin trace].
  unfold bind at 1, lift at 1. rewrite Hr.
  unfold bind at 1, lift at 1. rewrite Hs.
  unfold bind at 1, lift at 1. rewrite Hc.
  unfold bind at 1. rewrite collect_events_run.
  destruct (join_texts _) as [text|]; cbn [collected app].
  - unfold bind at 1, lift at 1. rewrite He. rewrite normalize_adk_run.
    unfold with_events. rewrite <- !app_assoc. reflexivity.
  - cbn [is_Exception exn_cls main.concat_none].
    unfold bind, print, emit, ret, with_events. cbn [fs ticks stdin trace].
    rewrite <- !app_assoc. reflexivity.
Qed.

(** X16.  With a key set and every call of the library succeeding, the two
    direct clients answer with the normalisation of the text of the
    response, each by its own copy: [None] on an empty text, ten utterances
    otherwise. *)
Theorem direct_clients_of_response
    (w : world) (intention text : pystr) (s : state) (r : genai_response) :
  genai_import w = Return tt ->
  env_set (getenv_GOOGLE_API_KEY w) = true ->
  genai_configure w = Return tt ->
  genai_GenerativeModel w = Return tt ->
  genai_generate_content w = Return (Some r) ->
  response_text r = Return text ->
  main.generate_utterances_direct_api w intention s
  = (Return (if truthy text
             then Some (normal_form direct_api text intention) else None),
     with_events s
       [Called_generate_utterances_direct_api intention;
        Printed (py "Using direct Generative AI API...")])
  /\ main_simple.generate_utterances_simple w intention s
     = (Return (if truthy text
                then Some (normal_form simple text intention) else None),
        with_events s
          [Called_generate_utterances_simple intention; Printed generating]).
Proof.
  intros Hi Hk Hc Hm Hg Htext. split.
  - unfold main.generate_utterances_direct_api, try_except.
    unfold bind at 1, emit. cbn [fs ticks stdin trace].
    unfold bind at 1, lift at 1. rewrite Hi.
    unfold bind at 1. rewrite Hk. cbn [negb]. unfold ret at 1.
    unfold bind at 1, lift at 1. rewrite Hc.
    unfold bind at 1, lift at 1. rewrite Hm.
    unfold bind at 1, print at 1, emit. cbn [fs ticks stdin trace].
    unfold bind at 1, lift at 1. rewrite Hg.
    unfold bind at 1, lift at 1. rewrite Htext, normalize_direct_api_run.
    unfold with_events. rewrite <- !app_assoc. reflexivity.
  - unfold main_simple.generate_utterances_simple, try_except.
    unfold bind at 1, emit. cbn [fs ticks stdin trace].
    unfold bind at 1, lift at 1. rewrite Hi, Hk. cbn [negb].
    unfold bind at 1, print at 1, emit. cbn [fs ticks stdin trace].
    unfold bind at 1, lift at 1. rewrite Hc.
    unfold bind at 1, lift at 1. rewrite Hm.
    unfold bind at 1, lift at 1. rewrite Hg.
    unfold bind at 1, lift at 1. rewrite Htext, normalize_simple_run.
    unfold with_events. rewrite <- !app_assoc. reflexivity.
Qed.

(** ** [main] of [main_simple.py] *)

Lemma simple_after w intention r s :
  match r with
  | None | Some [] => print check_your_key
  | Some utterances =>
      print ([10; 128221] ++ py " Generated utterances for '"
             ++ intention ++ py "':") ;;;
      print (replicate 50 45) ;;;
      print_numbered 1 utterances ;;;
      main_simple.save_to_csv w utterances intention ;;;
      ret tt
  end s
  = (Return tt,
     match r with
     | Some (u :: rest) =>
         snd (main_simple.save_to_csv w (u :: rest) intention
                (with_events s (shown intention (u :: rest))))
     | _ => with_events s [Printed check_your_key]
     end).
Proof.
  destruct r as [[|u rest]|]; try reflexivity.
  unfold bind at 1, print at 1, emit. cbn [fs ticks stdin trace].
  unfold bind at 1, print at 1, emit. cbn [fs ticks stdin trace].
  unfold bind at 1. rewrite print_numbered_run. unfold with_events at 1.
  cbn [fs ticks stdin trace]. unfold bind, ret.
  replace (State (fs s) (ticks s) (stdin s) _)
    with (with_events s (shown intention (u :: rest))).
  - destruct (save_fst_returns main_simple_py w (u :: rest) intention
                (with_events s (shown intention (u :: rest)))) as (r & Hr).
    simpl save_to_csv in Hr.
    destruct (main_simple.save_to_csv w (u :: rest) intention _) as [o s'].
    simpl in Hr. now rewrite Hr.
  - unfold with_events, shown. f_equal. rewrite <- !app_assoc. reflexivity.
Qed.



(** ** The order of the folder list *)

Lemma str_leb_total a b : str_leb a b = true \/ str_leb b a = true.
Proof.
  revert b. induction a as [|x a IH]; intros [|y b]; simpl; auto.
  destruct (N.ltb_spec x y), (N.ltb_spec y x), (N.eqb_spec x y), (N.eqb_spec y x);
    simpl; auto; try lia.
Qed.

Lemma str_leb_trans a b c :
  str_leb a b = true -> str_leb b c = true -> str_leb a c = true.
Proof.
  revert b c. induction a as [|x a IH]; intros [|y b] [|z c]; simpl; auto;
    try discriminate.
  destruct (N.ltb_spec x y), (N.ltb_spec y z), (N.ltb_spec x z),
    (N.eqb_spec x y), (N.eqb_spec y z), (N.eqb_spec x z);
    simpl; auto; try lia; try discriminate.
  apply IH.
Qed.

#[local] Instance str_le_total : Total manage_outputs.str_le.
Proof.
  intros a b. unfold manage_outputs.str_le.
  destruct (str_leb_total a b) as [H|H]; rewrite H; simpl; auto.
Qed.

#[local] Instance str_le_trans : Transitive manage_outputs.str_le.
Proof.
  intros a b c. unfold manage_outputs.str_le.
  rewrite !Is_true_true. apply str_leb_trans.
Qed.

(** X19.  [list_output_folders] returns, without touching the state, the
    names of the working directory that are directories and start with
    [utterance_outputs_]: each of them once, and in ascending order of
    code points. *)
Theorem list_output_folders_sorted (s : state) :
  exists folders,
    manage_outputs.list_output_folders s = (Return folders, s)
    /\ StronglySorted manage_outputs.str_le folders
    /\ NoDup folders
    /\ forall name,
         name ∈ folders
         <-> isdir (fs s) name = true
             /\ startswith name (py "utterance_outputs_") = true.
Proof.
  exists (folders_of (fs s)). split; [reflexivity|]. split; [|split].
  - unfold folders_of, manage_outputs.sorted. apply StronglySorted_merge_sort; apply _.
  - apply NoDup_folders_of.
  - intros name. rewrite elem_of_folders_of. unfold output_folder.
    rewrite andb_true_iff. reflexivity.
Qed.

(** ** The two parsers compared *)

Lemma entry_main_trimmed line u : entry_main line = Some u -> strip u = u.
Proof.
  unfold entry_main.
  destruct (truthy (strip line) && _); [|discriminate].
  destruct (head_isdigit (strip line) && _).
  - destruct (truthy (strip (default [] _))); [|discriminate].
    intros [= <-]. apply strip_idem.
  - destruct (truthy (strip line)); [|discriminate].
    intros [= <-]. apply strip_idem.
Qed.

Lemma entry_simple_trimmed line u : entry_simple line = Some u -> strip u = u.
Proof.
  unfold entry_simple.
  destruct (truthy (strip line) && _); [|discriminate].
  destruct (_ && contains 46 _).
  - destruct (truthy (strip (default [] _))); [|discriminate].
    intros [= <-]. apply strip_idem.
  - destruct (truthy (strip line)); [|discriminate].
    intros [= <-]. apply strip_idem.
Qed.

(** X20.  Whatever the lines, the parsing loop of each of the three copies
    returns without touching the state, and every entry it keeps is trimmed
    (stripping it again changes nothing) and not empty; it keeps at most one
    entry per line. *)
Theorem parsed_entries_trimmed (c : copy) (lines : list pystr) (s : state) :
  exists entries,
    lines_loop c lines [] s = (Return entries, s)
    /\ Forall (fun u => strip u = u /\ u <> []) entries
    /\ (length entries <= length lines)%nat.
Proof.
  exists (omap (entry c) lines). split; [apply lines_loop_eq|]. split.
  - apply Forall_forall. intros u Hu.
    apply list_elem_of_omap in Hu as (line & _ & Hline).
    assert (Hs : strip u = u)
      by (destruct c; simpl in Hline;
          eauto using entry_main_trimmed, entry_simple_trimmed).
    split; [exact Hs|].
    assert (Hn : nonblank u = true)
      by (destruct c; simpl in Hline;
          eauto using entry_main_nonblank, entry_simple_nonblank).
    unfold nonblank in Hn. rewrite Hs in Hn. now destruct u.
  - clear. induction lines as [|line lines IH]; [simpl; lia|].
    rewrite omap_cons. destruct (entry c line); simpl; lia.
Qed.

Lemma short_numbered_is_bare cleaned :
  (2 <? length cleaned)%nat = false ->
  head_isdigit cleaned = true ->
  contains 46 (take 5 cleaned) = true ->
  strip (default [] (after_first_dot cleaned)) = [].
Proof.
  destruct cleaned as [|c [|c2 [|c3 rest]]]; simpl; try discriminate.
  - intros _ Hd. unfold contains. simpl. rewrite (N.eqb_sym 46 c).
    destruct (N.eqb_spec c 46) as [->|_]; [discriminate|reflexivity].
  - intros _ Hd. unfold contains. simpl. rewrite orb_false_r.
    rewrite (N.eqb_sym 46 c), (N.eqb_sym 46 c2).
    destruct (N.eqb_spec c 46) as [->|_]; [discriminate|].
    simpl. intros ->. reflexivity.
Qed.

Lemma entry_main_simple line u : entry_main line = Some u -> entry_simple line = Some u.
Proof.
  unfold entry_main, entry_simple.
  destruct (truthy (strip line)) eqn:Ht; [|discriminate].
  cbn [andb].
  destruct (startswith_any (strip line) [py "-"; [bullet]; py "*"; py "1."; py "2."])
    eqn:Hfive; [discriminate|].
  assert (Hthree : startswith_any (strip line) [py "-"; [bullet]; py "*"] = false).
  { change [py "-"; [bullet]; py "*"; py "1."; py "2."]
      with ([py "-"; [bullet]; py "*"] ++ [py "1."; py "2."]) in Hfive.
    rewrite startswith_any_app in Hfive. now apply orb_false_elim in Hfive as [H _]. }
  rewrite Hthree. cbn [negb].
  destruct (2 <? length (strip line))%nat eqn:Hlen; cbn [andb]; [auto|].
  destruct (head_isdigit (strip line)) eqn:Hd; cbn [andb]; [|auto].
  destruct (contains 46 (take 5 (strip line))) eqn:Hdot; [|auto].
  rewrite (short_numbered_is_bare _ Hlen Hd Hdot). discriminate.
Qed.

Lemma omap_sublist {A B} (f g : A -> option B) l :
  (forall x u, f x = Some u -> g x = Some u) ->
  omap f l `sublist_of` omap g l.
Proof.
  intros H. induction l as [|x l IH]; simpl; [constructor|].
  destruct (f x) as [u|] eqn:Hf.
  - rewrite (H x u Hf). now constructor.
  - destruct (g x); [now constructor|exact IH].
Qed.

(** X21.  On the same lines, the parsing loops of [main.py] keep entries
    that the loop of [main_simple.py] keeps too, in the same order: the
    result of either loop of [main.py] is a sublist of the result of the
    loop of [main_simple.py], and the two loops of [main.py] agree. *)
Theorem main_entries_among_simple (lines : list pystr) (s : state) :
  exists kept kept_simple,
    main.adk_lines lines [] s = (Return kept, s)
    /\ main.direct_api_lines lines [] s = (Return kept, s)
    /\ main_simple.simple_lines lines [] s = (Return kept_simple, s)
    /\ kept `sublist_of` kept_simple.
Proof.
  exists (omap entry_main lines), (omap entry_simple lines).
  split; [apply (lines_loop_eq adk)|].
  split; [apply (lines_loop_eq direct_api)|].
  split; [apply (lines_loop_eq simple)|].
  apply omap_sublist, entry_main_simple.
Qed.

(** ** What is left after a cleaning *)



(** ** What a cleaning prints *)


(** ** The statistics *)

Lemma stats_loop_run folders total s :
  (forall f, f ∈ folders -> isdir (fs s) f = true) ->
  manage_outputs.stats_loop folders total s
  = (Return (total + sum_list (csv_count (fs s) <$> folders))%nat,
     with_events s (stats_line (fs s) <$> folders)).
Proof.
  revert total s. induction folders as [|folder rest IH]; intros total s Hdirs.
  - simpl. unfold ret. rewrite Nat.add_0_r, with_events_nil. reflexivity.
  - cbn [manage_outputs.stats_loop]. unfold bind at 1, manage_outputs.listdir_of.
    assert (Hdir : isdir (fs s) folder = true) by (apply Hdirs; left).
    unfold isdir in Hdir.
    destruct (fs s !! folder) as [[data|entries|data|entries|on_create]|] eqn:Hfolder;
      try discriminate;
      (assert (Hc : length (List.filter (fun f => endswith f (py ".csv"))
                              (listdir entries))
                    = csv_count (fs s) folder)
         by (unfold csv_count; now rewrite Hfolder));
      rewrite Hc;
      unfold bind at 1, print, emit;
      rewrite IH by (intros f Hf; cbn [fs]; apply Hdirs; now right);
      cbn [fs]; rewrite !fmap_cons;
      unfold with_events, stats_line at 2; cbn [fs ticks stdin trace];
      rewrite <- app_assoc; cbn [app];
      f_equal; f_equal; simpl; lia.
Qed.

Lemma show_folder_stats_returns s :
  fst (manage_outputs.show_folder_stats s) = Return tt.
Proof.
  unfold manage_outputs.show_folder_stats.
  unfold bind at 1. rewrite list_output_folders_eq.
  pose proof (folders_of_isdir (fs s)) as Hdirs.
  destruct (folders_of (fs s)) as [|folder rest]; [reflexivity|].
  unfold bind at 1, print at 1, emit at 1.
  unfold bind at 1. rewrite stats_loop_run; [reflexivity|exact Hdirs].
Qed.


(** ** The menu *)

Lemma str_eqb_eq a b : str_eqb a b = true <-> a = b.
Proof.
  revert b. induction a as [|x a IH]; intros [|y b]; simpl; split;
    try discriminate; try reflexivity.
  - intros [Hx Ha]%andb_prop. apply N.eqb_eq in Hx. apply IH in Ha. congruence.
  - intros [= -> ->]. rewrite N.eqb_refl. simpl. now apply IH.
Qed.

Lemma menu_turn_eq w s :
  manage_outputs.menu_turn w s
  = match stdin s with
    | [] => (Raise end_of_input, with_events s menu_lines)
    | Return answer :: rest => menu_choice w (strip answer) (after_menu s rest)
    | Raise e :: rest => (Raise e, after_menu s rest)
    end.
Proof.
  unfold manage_outputs.menu_turn, input, bind, print, emit, after_menu, with_events.
  cbn [fs ticks stdin trace]. rewrite <- !app_assoc. cbn [app].
  destruct (stdin s) as [|[answer|e] rest]; reflexivity.
Qed.

Lemma menu_choice_keeps_stdin w choice : keeps stdin (menu_choice w choice).
Proof.
  assert (Hf : forall s e,
             stdin (State (fs s) (ticks s) (stdin s) (trace s ++ [e])) = stdin s)
    by reflexivity.
  unfold menu_choice.
  repeat match goal with
         | |- keeps _ (if ?b then _ else _) => destruct b
         end.
  - apply keeps_bind; [apply keeps_list_output_folders|intros [|x l]].
    + apply keeps_bind; [apply keeps_stdin_emit|intros _; apply keeps_ret].
    + apply keeps_bind; [apply keeps_stdin_emit|intros _].
      apply keeps_bind; [now apply keeps_print_each|intros _; apply keeps_ret].
  - apply keeps_bind; [apply keeps_stdin_emit|intros _].
    apply keeps_bind; [now apply keeps_show_folder_stats|intros _; apply keeps_ret].
  - apply keeps_bind; [apply keeps_stdin_emit|intros _].
    apply keeps_bind; [apply clean_old_folders_keeps_stdin|intros [|x l]];
      (apply keeps_bind; [apply keeps_stdin_emit|intros _; apply keeps_ret]).
  - apply keeps_bind; [apply keeps_stdin_emit|intros _; apply keeps_ret].
  - apply keeps_bind; [apply keeps_stdin_emit|intros _; apply keeps_ret].
Qed.

Lemma then_true {A} (m : M A) (k : A -> M bool) s s' :
  (forall a s1, k a s1 <> (Return false, s')) ->
  bind m k s <> (Return false, s').
Proof.
  intros Hk H. apply bind_returns in H as (a & s1 & _ & H). exact (Hk a s1 H).
Qed.

Lemma menu_choice_leaves w choice s s' :
  menu_choice w choice s = (Return false, s') -> choice = py "4".
Proof.
  unfold menu_choice.
  destruct (str_eqb choice (py "1")).
  { intros H. exfalso. revert H. apply then_true. intros [|x l] s1.
    - apply then_true. intros _ s2. discriminate.
    - apply then_true. intros _ s2. apply then_true. intros _ s3. discriminate. }
  destruct (str_eqb choice (py "2")).
  { intros H. exfalso. revert H. apply then_true. intros _ s1.
    apply then_true. intros _ s2. discriminate. }
  destruct (str_eqb choice (py "3")).
  { intros H. exfalso. revert H. apply then_true. intros _ s1.
    apply then_true. intros [|x l] s2; apply then_true; intros _ s3; discriminate. }
  destruct (str_eqb choice (py "4")) eqn:H4.
  { intros _. now apply str_eqb_eq. }
  intros H. exfalso. revert H. apply then_true. intros _ s1. discriminate.
Qed.

Lemma print_each_returns indent names s :
  fst (manage_outputs.print_each indent names s) = Return tt.
Proof.
  revert s. induction names as [|n rest IH]; intros s; [reflexivity|].
  cbn [manage_outputs.print_each]. unfold bind, print, emit. apply IH.
Qed.

Lemma returned {A} (m : M A) s a : fst (m s) = Return a -> m s = (Return a, snd (m s)).
Proof. destruct (m s) as [o s1]. simpl. now intros ->. Qed.

Lemma keeps_fs_only_removes {A} (m : M A) : keeps fs m -> only_removes m.
Proof. intros H s name. right. now rewrite H. Qed.

Lemma only_removes_bind {A B} (m : M A) (k : A -> M B) :
  only_removes m -> (forall a, only_removes (k a)) -> only_removes (bind m k).
Proof.
  intros Hm Hk s name. specialize (Hm s name). unfold bind.
  destruct (m s) as [[a|e] s1]; simpl in *; [|exact Hm].
  destruct (Hk a s1 name) as [H|H]; [now left|].
  rewrite H. exact Hm.
Qed.

Lemma clean_old_folders_only_removes w days_old :
  only_removes (manage_outputs.clean_old_folders w days_old).
Proof.
  intros s name.
  destruct (minus_days (clock w (ticks s)) (default 7%Z days_old))
    as [cutoff_date|e] eqn:Hcut.
  - destruct (clean_old_folders_does w days_old s cutoff_date Hcut)
      as (s' & E & Hfs & _).
    rewrite E. cbn [snd]. rewrite Hfs. destruct (_ && _); auto.
  - assert (E : manage_outputs.clean_old_folders w days_old s
                = (Raise e, State (fs s) (S (ticks s)) (stdin s) (trace s))).
    { unfold manage_outputs.clean_old_folders. cbv zeta.
      unfold bind at 1, now. unfold bind at 1, lift. now rewrite Hcut. }
    rewrite E. now right.
Qed.

Lemma menu_choice_only_removes w choice : only_removes (menu_choice w choice).
Proof.
  assert (Hp : forall text, only_removes (print text))
    by (intros text; apply keeps_fs_only_removes, keeps_fs_emit).
  assert (Hf : forall s e,
             fs (State (fs s) (ticks s) (stdin s) (trace s ++ [e])) = fs s)
    by reflexivity.
  unfold menu_choice.
  repeat match goal with
         | |- only_removes (if ?b then _ else _) => destruct b
         end.
  - apply keeps_fs_only_removes.
    apply keeps_bind; [apply keeps_list_output_folders|intros [|x l]].
    + apply keeps_bind; [apply keeps_fs_emit|intros _; apply keeps_ret].
    + apply keeps_bind; [apply keeps_fs_emit|intros _].
      apply keeps_bind; [now apply keeps_print_each|intros _; apply keeps_ret].
  - apply keeps_fs_only_removes.
    apply keeps_bind; [apply keeps_fs_emit|intros _].
    apply keeps_bind; [now apply keeps_show_folder_stats|intros _; apply keeps_ret].
  - apply only_removes_bind; [apply Hp|intros _].
    apply only_removes_bind; [apply clean_old_folders_only_removes|intros [|x l]];
      (apply only_removes_bind;
       [apply Hp|intros _; apply keeps_fs_only_removes, keeps_ret]).
  - apply only_removes_bind;
      [apply Hp|intros _; apply keeps_fs_only_removes, keeps_ret].
  - apply only_removes_bind;
      [apply Hp|intros _; apply keeps_fs_only_removes, keeps_ret].
Qed.

Lemma no_linked_folder_after files files' :
  (forall name, files' !! name = None \/ files' !! name = files !! name) ->
  no_linked_folder files -> no_linked_folder files'.
Proof.
  intros Hsub Hno name Hout. specialize (Hno name).
  unfold output_folder, isdir, islink in *.
  destruct (Hsub name) as [H|H]; rewrite H in *; [discriminate|auto].
Qed.

Lemma no_linked_no_old_link w cutoff_date files :
  no_linked_folder files -> no_old_link w cutoff_date files.
Proof. intros H name Hout _. now apply H. Qed.

Lemma menu_choice_stays w choice s :
  choice <> py "4" ->
  (forall n, exists cutoff_date, minus_days (clock w n) 7 = Return cutoff_date) ->
  no_linked_folder (fs s) ->
  fst (menu_choice w choice s) = Return true.
Proof.
  intros Hne Hclock Hlinks. unfold menu_choice.
  destruct (str_eqb choice (py "1")).
  { unfold bind at 1. rewrite list_output_folders_eq.
    destruct (folders_of (fs s)) as [|x l]; [reflexivity|].
    unfold bind at 1, print at 1, emit at 1. unfold bind at 1.
    match goal with |- context [manage_outputs.print_each ?i ?n ?s1] =>
      rewrite (returned _ _ _ (print_each_returns i n s1)) end.
    reflexivity. }
  destruct (str_eqb choice (py "2")).
  { unfold bind at 1, print at 1, emit at 1. unfold bind at 1.
    match goal with |- context [manage_outputs.show_folder_stats ?s1] =>
      rewrite (returned _ _ _ (show_folder_stats_returns s1)) end.
    reflexivity. }
  destruct (str_eqb choice (py "3")).
  { unfold bind at 1, print at 1, emit at 1. unfold bind at 1.
    match goal with |- context [manage_outputs.clean_old_folders w _ ?s1] =>
      destruct (Hclock (ticks s1)) as (cutoff_date & Hcut);
      destruct (clean_old_folders_spec w (Some 7%Z) s1 cutoff_date Hcut)
        as (cleaned & s' & E & _);
      [now apply no_linked_no_old_link|]
    end.
    rewrite E. now destruct cleaned. }
  destruct (str_eqb choice (py "4")) eqn:H4.
  { apply str_eqb_eq in H4. contradiction. }
  reflexivity.
Qed.

Lemma menu_loop_only_exit w fuel s :
  (length (stdin s) < fuel)%nat ->
  fst (manage_outputs.menu_loop w fuel s) = Return tt ->
  Exists chooses_exit (stdin s).
Proof.
  revert s. induction fuel as [|fuel IH]; intros s Hlt; [lia|].
  cbn [manage_outputs.menu_loop]. unfold bind. rewrite menu_turn_eq.
  destruct (stdin s) as [|[answer|e] rest] eqn:Hin; try discriminate.
  destruct (menu_choice w (strip answer) (after_menu s rest))
    as [[[|]|e] s1] eqn:Hturn; try discriminate.
  - intros Hrun. apply Exists_cons_tl.
    pose proof (menu_choice_keeps_stdin w (strip answer) (after_menu s rest)) as Hk.
    rewrite Hturn in Hk. cbn [snd after_menu stdin] in Hk.
    rewrite <- Hk. apply IH; [|exact Hrun].
    rewrite Hk. simpl in Hlt. lia.
  - intros _. apply Exists_cons_hd. simpl.
    now apply menu_choice_leaves in Hturn.
Qed.

(** X26.  [manage_outputs.main] ends normally only through option 4: when
    it returns, one of the pending answers was a line that, trimmed, is
    [4]. *)
Theorem menu_ends_only_on_exit (w : world) (s : state) :
  fst (manage_outputs.main w s) = Return tt ->
  Exists chooses_exit (stdin s).
Proof.
  unfold manage_outputs.main, bind, print, emit. cbn [stdin].
  intros H. now apply menu_loop_only_exit in H; [|cbn [stdin]; lia].
Qed.

Lemma menu_loop_runs_out w fuel s :
  (forall n, exists cutoff_date, minus_days (clock w n) 7 = Return cutoff_date) ->
  no_linked_folder (fs s) ->
  Forall stays_in_menu (stdin s) ->
  (length (stdin s) < fuel)%nat ->
  fst (manage_outputs.menu_loop w fuel s) = Raise end_of_input.
Proof.
  intros Hclock. revert s.
  induction fuel as [|fuel IH]; intros s Hlinks Hall Hlt; [lia|].
  cbn [manage_outputs.menu_loop]. unfold bind. rewrite menu_turn_eq.
  destruct (stdin s) as [|[answer|e] rest] eqn:Hin; [reflexivity| |].
  - apply Forall_cons in Hall as [Hstay Hall]. simpl in Hstay.
    pose proof (menu_choice_stays w (strip answer) (after_menu s rest) Hstay Hclock
                  Hlinks) as Hturn.
    pose proof (menu_choice_keeps_stdin w (strip answer) (after_menu s rest)) as Hk.
    pose proof (menu_choice_only_removes w (strip answer) (after_menu s rest)) as Hrm.
    destruct (menu_choice w (strip answer) (after_menu s rest)) as [o s1].
    simpl in Hturn. subst o. cbn [snd after_menu stdin fs] in Hk, Hrm.
    apply IH; [|rewrite Hk; exact Hall|rewrite Hk; simpl in Hlt; lia].
    now apply (no_linked_folder_after (fs s)).
  - apply Forall_cons in Hall as [[] _].
Qed.


(** X28.  When the first pending answer, trimmed, is [4],
    [manage_outputs.main] prints its two opening lines, the menu once and
    the farewell, and returns: the other pending answers are left unread and
    the working directory and the clock are as before. *)
Theorem exit_leaves_the_rest
    (w : world) (s : state) (answer : pystr) (rest : list (outcome pystr)) :
  stdin s = Return answer :: rest ->
  strip answer = py "4" ->
  manage_outputs.main w s
  = (Return tt,
     State (fs s) (ticks s) rest (trace s ++ banner ++ menu_lines ++ [goodbye])).
Proof.
  intros Hin H4.
  unfold manage_outputs.main, bind at 1, print at 1, emit at 1.
  unfold bind at 1, print at 1, emit at 1. cbn [stdin fs ticks trace].
  rewrite Hin. cbn [manage_outputs.menu_loop length]. unfold bind at 1.
  rewrite menu_turn_eq. cbn [stdin]. rewrite H4.
  unfold after_menu, banner, goodbye. cbn [fs ticks trace].
  change (menu_choice w (py "4"))
    with (print (py "Goodbye! " ++ [128075]) ;;; ret false : M bool).
  unfold bind, print, emit, ret. cbn [fs ticks stdin trace].
  rewrite <- !app_assoc. reflexivity.
Qed.

(** ** Instances of the further properties *)



Lemma get_user_input_trimmed_witness :
  exists r s',
    main.get_user_input (typed ["  book a room  "%string]) = (Return r, s')
    /\ main_simple.get_user_input (typed ["  book a room  "%string]) = (Return r, s')
    /\ r = (if truthy (strip (py "  book a room  "))
            then Some (strip (py "  book a room  ")) else None)
    /\ stdin s' = []
    /\ (r = None -> last (trace s') = Some (Printed (py "No intention provided. Exiting.")))
    /\ (forall intention, r = Some intention ->
          truthy intention = true /\ strip intention = intention).
Proof.
  apply (get_user_input_trimmed (typed ["  book a room  "%string])
           (py "  book a room  ") []).
  reflexivity.
Defined.

Lemma blank_intention_ends_the_run_witness :
  main.main offline (typed ["   "%string])
  = (Return tt,
     State (fs (typed ["   "%string])) (ticks (typed ["   "%string])) []
       (trace (typed ["   "%string]) ++ greeting
        ++ [Printed (py "No intention provided. Exiting.")]))
  /\ main_simple.main offline (typed ["   "%string])
     = (Return tt,
        State (fs (typed ["   "%string])) (ticks (typed ["   "%string])) []
          (trace (typed ["   "%string]) ++ greeting
           ++ [Printed (py "No intention provided. Exiting.")])).
Proof.
  apply (blank_intention_ends_the_run offline (typed ["   "%string]) (py "   ") []).
  - reflexivity.
  - vm_compute. reflexivity.
Defined.

Lemma main_lets_no_error_out_witness :
  fst (main.main interrupted (typed ["greet"%string])) = Return tt
  /\ fst (main_simple.main interrupted (typed ["greet"%string])) = Return tt.
Proof.
  apply (main_lets_no_error_out interrupted (typed ["greet"%string])).
  - unfold raises_what_main_handles, interrupted. simpl.
    repeat split; try reflexivity. intros r Hr. discriminate Hr.
  - repeat constructor.
Defined.

Lemma save_to_csv_rows_witness :
  exists rows,
    csv_at (fs (snd first_save)) (clock offline (ticks initial))
      (clock offline (S (ticks initial)))
    = Some ([py "id"; py "utterance"; py "original_intention"] :: rows)
    /\ length rows = length [py "hello"]
    /\ forall k u, [py "hello"] !! k = Some u ->
         rows !! k = Some [str_of_nat (S k); u; py "greet"].
Proof.
  apply (save_to_csv_rows main_py offline [py "hello"] (py "greet")
           (csv_path (noon 0) (noon 1)) initial (snd first_save)).
  vm_compute. reflexivity.
Defined.



Lemma missing_key_gives_none_witness :
  main.generate_utterances_direct_api offline (py "greet") initial
  = (Return None,
     with_events initial
       [Called_generate_utterances_direct_api (py "greet");
        Printed (py "Error with direct API: " ++ missing_key)])
  /\ main_simple.generate_utterances_simple offline (py "greet") initial
     = (Return None,
        with_events initial
          [Called_generate_utterances_simple (py "greet");
           Printed ([10060] ++ py " GOOGLE_API_KEY not found!");
           Printed (py "Please set your API key in the .env file")]).
Proof.
  apply (missing_key_gives_none offline (py "greet") initial); reflexivity.
Defined.

Lemma generate_utterances_of_stream_witness :
  main.generate_utterances one_line_world some_agent (py "greet") initial
  = match join_texts (texts_of_events (fst (adk_run_async one_line_world))) with
    | Some text =>
        (Return (if truthy (strip text)
                 then Some (normal_form adk text (py "greet")) else None),
         with_events initial
           [Called_generate_utterances (py "greet"); Printed generating])
    | None =>
        (Return None,
         with_events initial
           [Called_generate_utterances (py "greet"); Printed generating;
            Printed (py "Error generating utterances: " ++ exn_msg main.concat_none)])
    end.
Proof.
  apply (generate_utterances_of_stream one_line_world some_agent (py "greet") initial);
    reflexivity.
Defined.

Lemma direct_clients_of_response_witness :
  main.generate_utterances_direct_api keyed_world (py "greet") initial
  = (Return (if truthy (py "hi")
             then Some (normal_form direct_api (py "hi") (py "greet")) else None),
     with_events initial
       [Called_generate_utterances_direct_api (py "greet");
        Printed (py "Using direct Generative AI API...")])
  /\ main_simple.generate_utterances_simple keyed_world (py "greet") initial
     = (Return (if truthy (py "hi")
                then Some (normal_form simple (py "hi") (py "greet")) else None),
        with_events initial
          [Called_generate_utterances_simple (py "greet"); Printed generating]).
Proof.
  apply (direct_clients_of_response keyed_world (py "greet") (py "hi") initial
           (Response (Return (py "hi")))); reflexivity.
Defined.






Lemma menu_ends_only_on_exit_witness :
  Exists chooses_exit (stdin housekeeping_start).
Proof.
  apply (menu_ends_only_on_exit offline housekeeping_start).
  vm_compute. reflexivity.
Defined.


Lemma exit_leaves_the_rest_witness :
  manage_outputs.main offline (typed [" 4"%string; "1"%string])
  = (Return tt,
     State (fs (typed [" 4"%string; "1"%string]))
       (ticks (typed [" 4"%string; "1"%string])) [Return (py "1")]
       (trace (typed [" 4"%string; "1"%string]) ++ banner ++ menu_lines ++ [goodbye])).
Proof.
  apply (exit_leaves_the_rest offline (typed [" 4"%string; "1"%string]) (py " 4")
           [Return (py "1")]).
  - reflexivity.
  - vm_compute. reflexivity.
Defined.
